(** * Survey360: a shallow embedding of the survey application

    The development follows the layout of the Django project:
    - [PyStr], [Py]  the operations of Python the code relies on: strings,
                     exceptions, [int], indexing, division, the stable sort;
    - [Utils]        [survey/utils.py]   (Likert scores, lists of choices);
    - [Models]       [survey/models.py]  (invitations, responses, rankings);
    - [Report]       [view_report] of [survey/views.py];
    - [Forms]        [survey/forms.py]   (validation of invitations and answers);
    - [Views]        the handlers of [survey/views.py] that write invitations
                     or responses, as functions on the tables;
    - [ReportSpec], [FormSpec], [SubmissionSpec]  what the handlers are
                     expected to compute, stated without their loops;
    - [PyMore], [ModelMethods], [TemplateTags], [AdminViews], [ReportViews]
                     the methods of the models, the template filters, and
                     the views of the staff and of the report of a survey;
    - [CodeSpec]     what these are expected to do.

    Conventions.  A Python [str] is a [string] whose characters are read as
    the code points 0..255.  A [datetime] is an integer number of
    microseconds ([Z]).  A Python [int] is a [Z].  A float is the rational
    it stands for.  True division of ints is correctly rounded: the mean of
    the ranks of a label, which the report sorts on, is the double nearest to
    the quotient ([Py.float_round]).  The averages of the Likert scores,
    which lie between 1 and 7 and which the report rounds to two decimals,
    are kept as exact quotients ([Py.truediv], [Py.round2]); the float of
    Python may differ from them in the last place shown. *)

From Stdlib Require Import List String Ascii Bool Arith ZArith QArith Lia.
From Stdlib Require Import Qpower DecimalString.
From Stdlib Require Import Permutation Sorted.
Import ListNotations.

Local Close Scope Q_scope.
Local Open Scope string_scope.
Local Open Scope list_scope.

(* ===================================================================== *)
(** ** Python strings *)
(* ===================================================================== *)

Module PyStr.

Definition code (c : ascii) : nat := nat_of_ascii c.

(** [str.isspace] on one character, for the code points below 256. *)
Definition isspace (c : ascii) : bool :=
  let n := code c in
  (((9 <=? n) && (n <=? 13)) || ((28 <=? n) && (n <=? 32))
   || (n =? 133) || (n =? 160))%nat.

(** [str.lower] on one character, for the code points below 256:
    A..Z and the accented capitals U+00C0..U+00DE other than U+00D7. *)
Definition lower_char (c : ascii) : ascii :=
  let n := code c in
  if (((65 <=? n) && (n <=? 90))
      || ((192 <=? n) && (n <=? 222) && negb (n =? 215)))%nat
  then ascii_of_nat (n + 32) else c.

Fixpoint lower (s : string) : string :=
  match s with
  | EmptyString => EmptyString
  | String c s' => String (lower_char c) (lower s')
  end.

(** [c in s] for a one-character [c]. *)
Fixpoint contains (c : ascii) (s : string) : bool :=
  match s with
  | EmptyString => false
  | String d s' => Ascii.eqb d c || contains c s'
  end.

(** [s.split(sep)] for a one-character separator: never empty. *)
Fixpoint split (sep : ascii) (s : string) : list string :=
  match s with
  | EmptyString => [EmptyString]
  | String c s' =>
      if Ascii.eqb c sep then EmptyString :: split sep s'
      else match split sep s' with
           | h :: t => String c h :: t
           | [] => [String c EmptyString]
           end
  end.

Fixpoint lstrip (s : string) : string :=
  match s with
  | EmptyString => EmptyString
  | String c s' => if isspace c then lstrip s' else s
  end.

Fixpoint rstrip (s : string) : string :=
  match s with
  | EmptyString => EmptyString
  | String c s' =>
      match rstrip s' with
      | EmptyString => if isspace c then EmptyString else String c EmptyString
      | r => String c r
      end
  end.

(** [s.strip()] *)
Definition strip (s : string) : string := rstrip (lstrip s).

(** Truth value of a string: [if s:]. *)
Definition truthy (s : string) : bool :=
  match s with EmptyString => false | _ => true end.

End PyStr.

(* ===================================================================== *)
(** ** survey/utils.py *)
(* ===================================================================== *)

Module Utils.

(** The literal dictionary of [calculate_likert_score]. *)
Definition scores : list (string * Z) :=
  [ ("significantly_above", 7%Z);
    ("above", 6%Z);
    ("slightly_above", 5%Z);
    ("meets", 4%Z);
    ("slightly_below", 3%Z);
    ("below", 2%Z);
    ("significantly_below", 1%Z) ].

(** [d.get(key, default)] on a dictionary given by its items. *)
Fixpoint dict_get {V} (d : list (string * V)) (key : string) (default : V) : V :=
  match d with
  | [] => default
  | (k, v) :: d' => if String.eqb k key then v else dict_get d' key default
  end.

Definition calculate_likert_score (value : string) : Z :=
  dict_get scores value 4%Z.

Definition get_strength_choices : list string :=
  [ "Ability to guide others towards a common goal";
    "Possesses excellent oral communication skills";
    "Possesses effective written communication skills";
    "Great listener";
    "Expresses ideas clearly";
    "Supports teacher professional development";
    "Supports teachers in implementing effective instructional strategies";
    "Ability to build positive relationships with others";
    "Supports collaboration among all school stakeholders";
    "Ability to analyze challenges and implement solutions";
    "Creates a positive school culture";
    "Promotes and encourages innovation";
    "Supports and encourages continuous improvement";
    "Makes timely decisions aligned with school mission and goals";
    "Decisions encompass the needs of all stakeholders";
    "Uses data to inform major decisions";
    "Effectively manages emotions";
    "Resilient in effectively navigating change";
    "Able to navigate challenges and obstacles";
    "Has a clear vision for the school";
    "Able to motivate others to work towards shared goals";
    "Maintains a high level of integrity";
    "Create a positive school environment";
    "Committed to learning and growing professionally";
    "Is up to date on the latest research and best practices" ].

Definition get_opportunity_choices : list string :=
  [ "Lacks a clear vision for the school";
    "Struggles to verbally communicate ideas";
    "Struggles to communicate in written formats";
    "Leadership contributes to low morale";
    "Resistant to change";
    "Struggles to foster collaboration";
    "Leadership promotes a lack of trust among others";
    "Struggles to address issues effectively";
    "Micromanages others";
    "Inhibits autonomy and creativity";
    "Provide more sufficient PD opportunities for all staff";
    "Struggles to create a positive school culture";
    "Improve skills to effectively engage parents or community";
    "Needs to improve listening skills";
    "Difficulty expressing ideas";
    "Should delegate more effectively (distribution of tasks)";
    "Could improve their feedback processes";
    "Could improve their problem solving skills";
    "Seems to not follow through";
    "Could improve their appreciation for diverse perspectives";
    "Could recognize others more often" ].

End Utils.

(* ===================================================================== *)
(** ** survey/models.py *)
(* ===================================================================== *)

Module Models.

(** A [datetime], in microseconds. *)
Definition datetime := Z.

Record SurveyInvitation := {
  inv_id : nat;
  inv_survey : nat;
  email : string;
  token : string;
  expires_at : datetime;
  used : bool;
  used_at : option datetime
}.

(** The two properties take the clock reading [timezone.now()] as [now]. *)
Definition is_expired (now : datetime) (self : SurveyInvitation) : bool :=
  (expires_at self <? now)%Z.

Definition is_valid (now : datetime) (self : SurveyInvitation) : bool :=
  negb (used self) && negb (is_expired now self).

(** [rank = models.IntegerField()  # 1-5, where 5 is highest] *)
Record StrengthRanking := {
  strength : string;
  s_rank : Z
}.

Record OpportunityRanking := {
  opportunity : string;
  o_rank : Z
}.

(** A row of [SurveyResponse] together with its two related managers,
    [strength_rankings] and [opportunity_rankings], each in the order
    [.all()] yields its rows.  [q_response r n] is the field
    [q<n>_response], for [n] in 2..55. *)
Record SurveyResponse := {
  resp_id : nat;
  survey : nat;
  invitation : option nat;
  relationship : string;
  is_leader_self_assessment : bool;
  q_response : nat -> string;
  continue_doing : string;
  stop_doing : string;
  start_doing : string;
  strength_rankings : list StrengthRanking;
  opportunity_rankings : list OpportunityRanking
}.

(** The values of [RELATIONSHIP_CHOICES] and of [LIKERT_CHOICES]. *)
Definition RELATIONSHIP_CHOICES : list string :=
  ["supervisor"; "peer"; "teacher"; "student"; "parent"; "self"].

Definition LIKERT_CHOICES : list string :=
  ["significantly_above"; "above"; "slightly_above"; "meets";
   "slightly_below"; "below"; "significantly_below"].

Record Survey := {
  survey_id : nat;
  leader_token : string;
  leader_completed_self : bool
}.

End Models.

(* ===================================================================== *)
(** ** Python exceptions and numbers *)
(* ===================================================================== *)

Module Py.

Inductive exn : Set :=
| ZeroDivisionError
| ValueError
| IndexError
| IntegrityError
| Http404
| JSONDecodeError
| KeyError
| OverflowError
| ValidationError (message : string).

(** The outcome of a computation that may raise. *)
Inductive result (A : Type) : Type :=
| Ok (a : A)
| Raise (e : exn).
Arguments Ok {A} a.
Arguments Raise {A} e.

Definition bind {A B} (m : result A) (k : A -> result B) : result B :=
  match m with
  | Ok a => k a
  | Raise e => Raise e
  end.

(** [for x in l: acc = body(acc, x)], stopping at the first exception. *)
Fixpoint for_each {A S} (body : S -> A -> result S) (l : list A) (acc : S)
  : result S :=
  match l with
  | [] => Ok acc
  | x :: l' => bind (body acc x) (for_each body l')
  end.

(** [[f(x) for x in l]] *)
Fixpoint map_result {A B} (f : A -> result B) (l : list A) : result (list B) :=
  match l with
  | [] => Ok []
  | x :: l' =>
      bind (f x) (fun y => bind (map_result f l') (fun ys => Ok (y :: ys)))
  end.

(** [l[i]] for an int [i]: negative indices count from the end. *)
Definition getitem {A} (l : list A) (i : Z) : result A :=
  let n := Z.of_nat (List.length l) in
  let j := if (i <? 0)%Z then (n + i)%Z else i in
  if ((j <? 0) || (n <=? j))%Z then Raise IndexError
  else match nth_error l (Z.to_nat j) with
       | Some x => Ok x
       | None => Raise IndexError
       end.

(** [str(n)] for a natural number. *)
Definition str_of_nat (n : nat) : string := NilZero.string_of_uint (Nat.to_uint n).

Definition is_digit (c : ascii) : bool :=
  ((48 <=? PyStr.code c) && (PyStr.code c <=? 57))%nat.

Definition digit_value (c : ascii) : Z := Z.of_nat (PyStr.code c - 48).

(** Digits of a decimal literal after its first digit, [acc] being the
    value read so far: a digit, or an underscore followed by a digit. *)
Fixpoint int_digits (s : string) (acc : Z) : result Z :=
  match s with
  | EmptyString => Ok acc
  | String c s' =>
      if is_digit c then int_digits s' (10 * acc + digit_value c)%Z
      else if Ascii.eqb c "_" then
        match s' with
        | String d s'' =>
            if is_digit d then int_digits s'' (10 * acc + digit_value d)%Z
            else Raise ValueError
        | EmptyString => Raise ValueError
        end
      else Raise ValueError
  end.

Definition int_unsigned (s : string) : result Z :=
  match s with
  | String c s' => if is_digit c then int_digits s' (digit_value c)
                   else Raise ValueError
  | EmptyString => Raise ValueError
  end.

(** The white space [int] skips around a literal, for the code points
    below 256: that of [str.isspace] other than the separators U+001C to
    U+001F. *)
Definition int_isspace (c : ascii) : bool :=
  let n := PyStr.code c in
  (((9 <=? n) && (n <=? 13)) || (n =? 32) || (n =? 133) || (n =? 160))%nat.

Fixpoint int_lstrip (s : string) : string :=
  match s with
  | EmptyString => EmptyString
  | String c s' => if int_isspace c then int_lstrip s' else s
  end.

Fixpoint int_rstrip (s : string) : string :=
  match s with
  | EmptyString => EmptyString
  | String c s' =>
      match int_rstrip s' with
      | EmptyString => if int_isspace c then EmptyString else String c EmptyString
      | r => String c r
      end
  end.

(** The number of digits of a string. *)
Fixpoint count_digits (s : string) : nat :=
  match s with
  | EmptyString => 0
  | String c s' => (if is_digit c then 1 else 0) + count_digits s'
  end.

(** [sys.get_int_max_str_digits()], by default. *)
Definition int_max_str_digits : nat := 4300.

(** [int(s)] for a string: surrounding whitespace, an optional sign, and
    decimal digits that single underscores may separate, no more of them
    than the limit of the interpreter. *)
Definition int_of_str (s : string) : result Z :=
  let literal := int_rstrip (int_lstrip s) in
  if (int_max_str_digits <? count_digits literal)%nat then Raise ValueError
  else
    match literal with
    | String "-" s' => bind (int_unsigned s') (fun z => Ok (- z)%Z)
    | String "+" s' => int_unsigned s'
    | s' => int_unsigned s'
    end.

(** [sum(l)] *)
Definition sum (l : list Z) : Z := fold_left Z.add l 0%Z.

(** [a / n] with [n] a length, as the exact quotient: raises on a zero
    divisor.  The float of Python is the double nearest to this quotient,
    [float_round] of it below. *)
Definition truediv (a : Z) (n : nat) : result Q :=
  match n with
  | O => Raise ZeroDivisionError
  | S _ => Ok (Qmake a (Pos.of_nat n))
  end.

(** The integer nearest to [x], ties to the even one. *)
Definition round_half_even (x : Q) : Z :=
  let d := Zpos (Qden x) in
  let f := (Qnum x / d)%Z in
  let r := (Qnum x mod d)%Z in
  match (2 * r ?= d)%Z with
  | Lt => f
  | Gt => (f + 1)%Z
  | Eq => if Z.even f then f else (f + 1)%Z
  end.

(** [round(x, 2)] on the exact quotient [x]: the nearest multiple of
    1/100, ties to the even one.  Python rounds the double nearest to the
    quotient, which may fall on the other side of a tie: of 161/40 it makes
    4.03, where the exact quotient gives 4.02. *)
Definition round2 (x : Q) : Q := Qmake (round_half_even (x * 100)%Q) 100.

(** [floor(log2(x))] for a positive [x]. *)
Definition ilog2 (x : Q) : Z :=
  let e := (Z.log2 (Qnum x) - Z.log2 (Zpos (Qden x)))%Z in
  if Qle_bool (Qpower 2 e) x then e else (e - 1)%Z.

(** The double nearest to a positive [x], ties to the even mantissa: 53
    bits from the leading one of [x], and fewer below 2^-1022, where the
    last place stays at 2^-1074. *)
Definition float_round_pos (x : Q) : Q :=
  let e := Z.max (ilog2 x) (-1022) in
  let ulp := Qpower 2 (e - 52) in
  Qred (inject_Z (round_half_even (x / ulp)) * ulp)%Q.

(** The double nearest to [x], by its value.  The quotient of two integers
    of 64 bits is far below the largest double, 2^1024 - 2^971; larger
    values, for which [int / int] raises OverflowError, are rounded to 53
    bits like the others. *)
Definition float_round (x : Q) : Q :=
  match Qnum x with
  | Z0 => 0%Q
  | Zpos _ => float_round_pos x
  | Zneg _ => (- float_round_pos (- x))%Q
  end.

(** [a / n] for an int [a] and a length [n], as Python computes it: the
    double nearest to the quotient. *)
Definition float_truediv (a : Z) (n : nat) : result Q :=
  bind (truediv a n) (fun q => Ok (float_round q)).

(** Insertion of [x] in a list sorted by decreasing key, after the
    elements of greater key and before those of equal or smaller key. *)
Fixpoint insert_desc {A} (key : A -> Q) (x : A) (l : list A) : list A :=
  match l with
  | [] => [x]
  | y :: l' =>
      if Qle_bool (key y) (key x) then x :: y :: l'
      else y :: insert_desc key x l'
  end.

(** [l.sort(key=key, reverse=True)].  The sort of Python is stable, also
    with [reverse=True], and a list has one stable sorted arrangement
    ([stable_sort_unique] below), so that the algorithm does not
    matter: the model inserts from the right. *)
Definition sort_reverse {A} (key : A -> Q) (l : list A) : list A :=
  fold_right (insert_desc key) [] l.

End Py.

Notation "x <- m ;; k" := (Py.bind m (fun x => k))
  (at level 61, m at next level, right associativity).
Notation "' p <- m ;; k" := (Py.bind m (fun p => k))
  (at level 61, p pattern, m at next level, right associativity).

(* ===================================================================== *)
(** ** survey/views.py: the report *)
(* ===================================================================== *)

Module Report.
Import Py Utils Models.

(** A dictionary whose order of insertion matters, by its items. *)
Definition dict (V : Type) := list (string * V).

(** [key in d] *)
Definition dict_has {V} (d : dict V) (key : string) : bool :=
  existsb (fun kv => String.eqb (fst kv) key) d.

(** [d[key].append(x)], for a [key] of [d]. *)
Fixpoint dict_append (d : dict (list Z)) (key : string) (x : Z) : dict (list Z) :=
  match d with
  | [] => []
  | (k, l) :: d' =>
      if String.eqb k key then (k, l ++ [x]) :: d'
      else (k, l) :: dict_append d' key x
  end.

(** [if key not in d: d[key] = []] and then [d[key].append(x)]. *)
Definition dict_setdefault_append (d : dict (list Z)) (key : string) (x : Z)
  : dict (list Z) :=
  let d1 := if dict_has d key then d else d ++ [(key, [])] in
  dict_append d1 key x.

(** The literal [scores_by_relationship] of every question starts from. *)
Definition scores_by_relationship_init : dict (list Z) :=
  [ ("self", []); ("supervisor", []); ("peer", []);
    ("teacher", []); ("student", []); ("parent", []) ].

(** Body of [for response in responses] for the question [q_num]. *)
Definition collect_scores (q_num : nat) (st : list Z * dict (list Z))
           (response : SurveyResponse) : list Z * dict (list Z) :=
  let '(scores, scores_by_relationship) := st in
  let value := q_response response q_num in
  if PyStr.truthy value then
    let score := calculate_likert_score value in
    let relationship :=
      if is_leader_self_assessment response then "self"
      else relationship response in
    (scores ++ [score],
     if dict_has scores_by_relationship relationship
     then dict_append scores_by_relationship relationship score
     else scores_by_relationship)
  else st.

(** An entry of [question_stats], without its display text. *)
Record QuestionStat := {
  average : Q;
  scores : list Z;
  response_count : nat;
  by_relationship : dict (option Q)
}.

Definition is_empty {A} (l : list A) : bool :=
  match l with [] => true | _ => false end.

(** Body of [for q_num in range(2, 56)]: the entry of the question, or
    [None] when no response answers it. *)
Definition question_stat (responses : list SurveyResponse) (q_num : nat)
  : result (option QuestionStat) :=
  let '(scores, scores_by_relationship) :=
    fold_left (collect_scores q_num) responses ([], scores_by_relationship_init) in
  if negb (is_empty scores) then
    avg_by_relationship <-
      map_result (fun '(rel, rel_scores) =>
        if negb (is_empty rel_scores) then
          m <- truediv (sum rel_scores) (List.length rel_scores) ;;
          Ok (rel, Some (round2 m))
        else Ok (rel, None)) scores_by_relationship ;;
    m <- truediv (sum scores) (List.length scores) ;;
    Ok (Some {| average := round2 m;
                scores := scores;
                response_count := List.length scores;
                by_relationship := avg_by_relationship |})
  else Ok None.

(** [range(2, 56)] *)
Definition question_numbers : list nat := seq 2 54.

(** [question_stats], by its items in the order of insertion. *)
Fixpoint question_stats_of (responses : list SurveyResponse) (qs : list nat)
  : result (list (nat * QuestionStat)) :=
  match qs with
  | [] => Ok []
  | q_num :: qs' =>
      st <- question_stat responses q_num ;;
      rest <- question_stats_of responses qs' ;;
      Ok (match st with
          | Some s => (q_num, s) :: rest
          | None => rest
          end)
  end.

(** Body of [for response in responses] of the two ranking dictionaries. *)
Definition collect_rankings (st : dict (list Z) * dict (list Z))
           (response : SurveyResponse) : dict (list Z) * dict (list Z) :=
  let '(all_strengths, all_opportunities) := st in
  (fold_left (fun d s => dict_setdefault_append d (strength s) (s_rank s))
             (strength_rankings response) all_strengths,
   fold_left (fun d o => dict_setdefault_append d (opportunity o) (o_rank o))
             (opportunity_rankings response) all_opportunities).

(** [(label, avg_rank, len(ranks))] *)
Definition ranked := (string * Q * nat)%type.
Definition avg_rank (e : ranked) : Q := snd (fst e).
Definition ranked_label (e : ranked) : string := fst (fst e).

(** The loop over [d.items()] and the sort that follows it. *)
Definition top_of (d : dict (list Z)) : result (list ranked) :=
  top <- map_result (fun '(label, ranks) =>
           avg <- float_truediv (sum ranks) (List.length ranks) ;;
           Ok (label, avg, List.length ranks)) d ;;
  Ok (sort_reverse avg_rank top).

(** The template context of [view_report], without [report] and [survey]. *)
Record context := {
  ctx_response_count : nat;
  participant_count : nat;
  overall_average : Q;
  question_stats : list (nat * QuestionStat);
  top_strengths : list ranked;
  top_opportunities : list ranked;
  continue_responses : list string;
  stop_responses : list string;
  start_responses : list string;
  supervisors_count : nat;
  peers_count : nat;
  staff_count : nat;
  students_count : nat;
  community_count : nat
}.

Definition count_relationship (rel : string) (responses : list SurveyResponse) : nat :=
  List.length (filter (fun r => String.eqb (relationship r) rel) responses).

(** [view_report], from [responses = survey.responses.all()] on. *)
Definition view_report (responses : list SurveyResponse) : result context :=
  question_stats <- question_stats_of responses question_numbers ;;
  let '(all_strengths, all_opportunities) :=
    fold_left collect_rankings responses ([], []) in
  top_strengths <- top_of all_strengths ;;
  top_opportunities <- top_of all_opportunities ;;
  let all_scores := flat_map (fun qs => scores (snd qs)) question_stats in
  overall_average <-
    (if negb (is_empty all_scores) then
       m <- truediv (sum all_scores) (List.length all_scores) ;; Ok (round2 m)
     else Ok 0%Q) ;;
  Ok {| ctx_response_count := List.length responses;
        participant_count :=
          List.length (filter (fun r => negb (is_leader_self_assessment r)) responses);
        overall_average := overall_average;
        question_stats := question_stats;
        top_strengths := firstn 10 top_strengths;
        top_opportunities := firstn 10 top_opportunities;
        continue_responses :=
          filter PyStr.truthy (map continue_doing responses);
        stop_responses := filter PyStr.truthy (map stop_doing responses);
        start_responses := filter PyStr.truthy (map start_doing responses);
        supervisors_count := count_relationship "supervisor" responses;
        peers_count := count_relationship "peer" responses;
        staff_count := count_relationship "teacher" responses;
        students_count := count_relationship "student" responses;
        community_count := count_relationship "parent" responses |}.

End Report.

(* ===================================================================== *)
(** ** survey/forms.py *)
(* ===================================================================== *)

Module Forms.
Import Py Utils Models.

(** The errors of a form: field and message. *)
Definition form_errors := list (string * string).

(** What the form machinery does with the outcome of cleaning a field:
    a [ValidationError] becomes an error of the field.  The cleaners of the
    survey forms raise nothing else. *)
Definition field_errors {A} (name : string) (r : result A) : form_errors :=
  match r with
  | Raise (ValidationError message) => [(name, message)]
  | _ => []
  end.

(** *** InvitationForm *)

(** ['@' not in email or '.' not in email.split('@')[1]] *)
Definition is_invalid_email (email : string) : result bool :=
  if negb (PyStr.contains "@" email) then Ok true
  else part <- getitem (PyStr.split "@" email) 1 ;;
       Ok (negb (PyStr.contains "." part)).

(** Body of [for line in emails_text.split('\n')]. *)
Definition clean_emails_line (emails : list string) (line : string)
  : result (list string) :=
  let email := PyStr.strip line in
  if PyStr.truthy email then
    invalid <- is_invalid_email email ;;
    if invalid : bool then
      Raise (ValidationError (String.append "Invalid email address: " email))
    else Ok (emails ++ [PyStr.lower email])
  else Ok emails.

Definition clean_emails (emails_text : string) : result (list string) :=
  emails <- for_each clean_emails_line (PyStr.split "010" emails_text) [] ;;
  match emails with
  | [] => Raise (ValidationError "Please enter at least one email address")
  | _ => Ok emails
  end.

(** *** Fields of Django *)

Definition required_message : string := "This field is required.".

Definition invalid_choice_message (value : string) : string :=
  String.append "Select a valid choice. "
    (String.append value " is not one of the available choices.").

(** [ChoiceField(required=True).clean] *)
Definition choice_field_clean (choices : list string) (value : string)
  : result string :=
  if negb (PyStr.truthy value) then Raise (ValidationError required_message)
  else if existsb (String.eqb value) choices then Ok value
  else Raise (ValidationError (invalid_choice_message value)).

(** [MultipleChoiceField(required=True).clean] *)
Definition multiple_choice_field_clean (choices : list string)
           (value : list string) : result (list string) :=
  match value with
  | [] => Raise (ValidationError required_message)
  | _ =>
      match find (fun v => negb (existsb (String.eqb v) choices)) value with
      | Some v => Raise (ValidationError (invalid_choice_message v))
      | None => Ok value
      end
  end.

(** [CharField(required=False).clean]: the stripped text, without a null
    character. *)
Definition char_field_clean (value : string) : result string :=
  let v := PyStr.strip value in
  if PyStr.contains "000" v
  then Raise (ValidationError "Null characters are not allowed.")
  else Ok v.

(** *** LeaderSelfAssessmentForm and SurveyResponseForm *)

(** The data of a POST request: the fields of the form, and
    [request.POST.get] for the other keys. *)
Record PostData := {
  post_relationship : string;
  post_q : nat -> string;
  post_continue_doing : string;
  post_stop_doing : string;
  post_start_doing : string;
  post_strengths : list string;
  post_opportunities : list string;
  post_get : string -> option string
}.

(** [clean_strengths] and [clean_opportunities], the same in both forms. *)
Definition clean_strengths (strengths : list string) : result (list string) :=
  if negb (List.length strengths =? 5)%nat
  then Raise (ValidationError "Please select exactly 5 strengths.")
  else Ok strengths.

Definition clean_opportunities (opportunities : list string)
  : result (list string) :=
  if negb (List.length opportunities =? 5)%nat
  then Raise (ValidationError
                "Please select exactly 5 opportunities for improvement.")
  else Ok opportunities.

(** [[(str(i), choice) for i, choice in enumerate(choices)]], the keys. *)
Definition choice_ids (choices : list string) : list string :=
  map str_of_nat (seq 0 (List.length choices)).

Definition participant_choices : list string :=
  ["supervisor"; "peer"; "teacher"; "student"; "parent"].

(** [f'q{i}_response'] *)
Definition q_field_name (i : nat) : string :=
  String.append "q" (String.append (str_of_nat i) "_response").

(** Cleaning of the field [strengths]: the field itself, then
    [clean_strengths] on what it yields. *)
Definition strengths_cleaned (post : PostData) : result (list string) :=
  v <- multiple_choice_field_clean (choice_ids get_strength_choices)
         (post_strengths post) ;;
  clean_strengths v.

Definition opportunities_cleaned (post : PostData) : result (list string) :=
  v <- multiple_choice_field_clean (choice_ids get_opportunity_choices)
         (post_opportunities post) ;;
  clean_opportunities v.

(** The errors of the fields both forms share. *)
Definition common_errors (post : PostData) : form_errors :=
  flat_map (fun i => field_errors (q_field_name i)
                       (choice_field_clean LIKERT_CHOICES (post_q post i)))
           (seq 2 54)
  ++ field_errors "continue_doing" (char_field_clean (post_continue_doing post))
  ++ field_errors "stop_doing" (char_field_clean (post_stop_doing post))
  ++ field_errors "start_doing" (char_field_clean (post_start_doing post))
  ++ field_errors "strengths" (strengths_cleaned post)
  ++ field_errors "opportunities" (opportunities_cleaned post).

(** [form.errors] of a [SurveyResponseForm] bound to [post]. *)
Definition SurveyResponseForm_errors (post : PostData) : form_errors :=
  field_errors "relationship"
    (choice_field_clean participant_choices (post_relationship post))
  ++ common_errors post.

(** [form.errors] of a [LeaderSelfAssessmentForm] bound to [post]. *)
Definition LeaderSelfAssessmentForm_errors (post : PostData) : form_errors :=
  common_errors post.

(** [form.is_valid()] *)
Definition form_is_valid (errors : form_errors) : bool :=
  match errors with [] => true | _ => false end.

End Forms.

(* ===================================================================== *)
(** ** survey/views.py: the handlers that write *)
(* ===================================================================== *)

Module Views.
Import Py Utils Models Forms.

(** The tables the handlers read and write, rows in the order of
    creation.  Requests are not atomic: what a handler has written before
    an exception stays written. *)
Record DB := {
  surveys : list Survey;
  invitations : list SurveyInvitation;
  responses : list SurveyResponse
}.

Inductive HttpResponse : Type :=
| Render (template : string) (errors : form_errors)
| Redirect (to : string)
| JsonSuccess (message : string)
| JsonError (error : string) (status : nat)
| JsonException (e : exn)
| NotFound
| ServerError (e : exn).

Inductive Method : Type :=
| GET
| POST (post : PostData).

(** *** Queries *)

(** [SurveyInvitation.objects.get(token=token)]; the column is unique. *)
Definition get_invitation (t : string) (db : DB) : option SurveyInvitation :=
  find (fun i => String.eqb (token i) t) (invitations db).

(** [Survey.objects.get(leader_token=token)] *)
Definition get_survey (t : string) (db : DB) : option Survey :=
  find (fun s => String.eqb (leader_token s) t) (surveys db).

(** The primary key of a new row. *)
Definition next_id (ids : list nat) : nat := S (list_max ids).

(** [invitation.save()] of a row that exists: update by primary key. *)
Definition save_invitation (inv : SurveyInvitation) (db : DB) : DB :=
  {| surveys := surveys db;
     invitations :=
       map (fun i => if (inv_id i =? inv_id inv)%nat then inv else i)
           (invitations db);
     responses := responses db |}.

(** [invitation.used = True; invitation.used_at = timezone.now()] *)
Definition mark_used (now : datetime) (inv : SurveyInvitation) : SurveyInvitation :=
  {| inv_id := inv_id inv; inv_survey := inv_survey inv; email := email inv;
     token := token inv; expires_at := expires_at inv;
     used := true; used_at := Some now |}.

Definition save_survey (sv : Survey) (db : DB) : DB :=
  {| surveys :=
       map (fun s => if (survey_id s =? survey_id sv)%nat then sv else s)
           (surveys db);
     invitations := invitations db;
     responses := responses db |}.

(** Insertion of a response, without rankings yet; the new row gets the
    next primary key. *)
Definition insert_response (r : SurveyResponse) (db : DB) : nat * DB :=
  let rid := next_id (map resp_id (responses db)) in
  (rid,
   {| surveys := surveys db;
      invitations := invitations db;
      responses :=
        responses db ++
        [ {| resp_id := rid; survey := survey r; invitation := invitation r;
             relationship := relationship r;
             is_leader_self_assessment := is_leader_self_assessment r;
             q_response := q_response r;
             continue_doing := continue_doing r; stop_doing := stop_doing r;
             start_doing := start_doing r;
             strength_rankings := []; opportunity_rankings := [] |} ] |}).

Definition with_rankings (r : SurveyResponse) (ss : list StrengthRanking)
           (os : list OpportunityRanking) : SurveyResponse :=
  {| resp_id := resp_id r; survey := survey r; invitation := invitation r;
     relationship := relationship r;
     is_leader_self_assessment := is_leader_self_assessment r;
     q_response := q_response r;
     continue_doing := continue_doing r; stop_doing := stop_doing r;
     start_doing := start_doing r;
     strength_rankings := ss; opportunity_rankings := os |}.

Definition update_response (rid : nat) (f : SurveyResponse -> SurveyResponse)
           (db : DB) : DB :=
  {| surveys := surveys db;
     invitations := invitations db;
     responses :=
       map (fun r => if (resp_id r =? rid)%nat then f r else r) (responses db) |}.

Definition get_response (rid : nat) (db : DB) : option SurveyResponse :=
  find (fun r => (resp_id r =? rid)%nat) (responses db).

(** An integer the column of an [IntegerField] takes in SQLite, the
    database of the project by default: 64 bits, signed. *)
Definition fits_integer_column (z : Z) : bool :=
  ((- 2 ^ 63 <=? z) && (z <? 2 ^ 63))%Z.

(** [StrengthRanking.objects.create(response=..., strength=..., rank=...)];
    [unique_together = ['response', 'strength']].  An integer beyond the
    64 bits of the column is refused when the statement is bound, before the
    constraints are looked at. *)
Definition create_strength_ranking (rid : nat) (text : string) (rank : Z)
           (db : DB) : result DB :=
  if negb (fits_integer_column rank) then Raise OverflowError
  else
  match get_response rid db with
  | None => Raise IntegrityError
  | Some r =>
      if existsb (fun s => String.eqb (strength s) text) (strength_rankings r)
      then Raise IntegrityError
      else Ok (update_response rid
                 (fun r => with_rankings r
                    (strength_rankings r ++ [ {| strength := text; s_rank := rank |} ])
                    (opportunity_rankings r)) db)
  end.

Definition create_opportunity_ranking (rid : nat) (text : string) (rank : Z)
           (db : DB) : result DB :=
  if negb (fits_integer_column rank) then Raise OverflowError
  else
  match get_response rid db with
  | None => Raise IntegrityError
  | Some r =>
      if existsb (fun o => String.eqb (opportunity o) text) (opportunity_rankings r)
      then Raise IntegrityError
      else Ok (update_response rid
                 (fun r => with_rankings r (strength_rankings r)
                    (opportunity_rankings r
                     ++ [ {| opportunity := text; o_rank := rank |} ])) db)
  end.

(** *** Rankings of a form submission *)

(** [int(request.POST.get(key, 5 - i))] *)
Definition posted_rank (post : PostData) (key : string) (i : nat) : result Z :=
  match post_get post key with
  | Some rank => int_of_str rank
  | None => Ok (5 - Z.of_nat i)%Z
  end.

(** [for i, strength_id in enumerate(strengths)], from index [i] on: the
    exception that stops the loop, if any, and the tables as they are
    then. *)
Fixpoint save_strength_rankings (post : PostData) (rid : nat) (i : nat)
         (strengths : list string) (db : DB) : option exn * DB :=
  match strengths with
  | [] => (None, db)
  | strength_id :: rest =>
      match (n <- int_of_str strength_id ;;
             strength_text <- getitem get_strength_choices n ;;
             rank <- posted_rank post (String.append "strength_rank_" strength_id) i ;;
             create_strength_ranking rid strength_text rank db) with
      | Ok db' => save_strength_rankings post rid (S i) rest db'
      | Raise e => (Some e, db)
      end
  end.

Fixpoint save_opportunity_rankings (post : PostData) (rid : nat) (i : nat)
         (opportunities : list string) (db : DB) : option exn * DB :=
  match opportunities with
  | [] => (None, db)
  | opp_id :: rest =>
      match (n <- int_of_str opp_id ;;
             opp_text <- getitem get_opportunity_choices n ;;
             rank <- posted_rank post (String.append "opportunity_rank_" opp_id) i ;;
             create_opportunity_ranking rid opp_text rank db) with
      | Ok db' => save_opportunity_rankings post rid (S i) rest db'
      | Raise e => (Some e, db)
      end
  end.

(** [form.save(commit=False)] with the fields the handler then sets.  The
    text fields are stored as their field cleans them. *)
Definition form_instance (post : PostData) (survey : nat)
           (invitation : option nat) (relationship : string) (self : bool)
  : SurveyResponse :=
  {| resp_id := 0; survey := survey; invitation := invitation;
     relationship := relationship;
     is_leader_self_assessment := self;
     q_response := post_q post;
     continue_doing := PyStr.strip (post_continue_doing post);
     stop_doing := PyStr.strip (post_stop_doing post);
     start_doing := PyStr.strip (post_start_doing post);
     strength_rankings := []; opportunity_rankings := [] |}.

Definition invalid_link : HttpResponse := Render "survey/invalid_link.html" [].

(** *** participant_survey_view *)

Definition participant_survey_view (request : Method) (token : string)
           (now : datetime) (db : DB) : HttpResponse * DB :=
  match get_invitation token db with
  | None => (invalid_link, db)
  | Some invitation =>
      if used invitation || is_expired now invitation then (invalid_link, db)
      else
        match request with
        | GET => (Render "survey/participant_survey.html" [], db)
        | POST post =>
            let errors := SurveyResponseForm_errors post in
            if form_is_valid errors then
              let '(rid, db1) :=
                insert_response
                  (form_instance post (inv_survey invitation)
                     (Some (inv_id invitation)) (post_relationship post) false)
                  db in
              match save_strength_rankings post rid 0 (post_strengths post) db1 with
              | (Some e, db2) => (ServerError e, db2)
              | (None, db2) =>
                  match save_opportunity_rankings post rid 0
                          (post_opportunities post) db2 with
                  | (Some e, db3) => (ServerError e, db3)
                  | (None, db3) =>
                      (Redirect "thank_you",
                       save_invitation (mark_used now invitation) db3)
                  end
              end
            else (Render "survey/participant_survey.html" errors, db)
        end
  end.

(** *** leader_self_assessment_view *)

Definition complete_self (sv : Survey) : Survey :=
  {| survey_id := survey_id sv; leader_token := leader_token sv;
     leader_completed_self := true |}.

Definition leader_self_assessment_view (request : Method) (token : string)
           (db : DB) : HttpResponse * DB :=
  match get_survey token db with
  | None => (NotFound, db)
  | Some sv =>
      if leader_completed_self sv then (Redirect "leader_dashboard", db)
      else
        match request with
        | GET => (Render "survey/leader_self_assessment_full.html" [], db)
        | POST post =>
            let errors := LeaderSelfAssessmentForm_errors post in
            if form_is_valid errors then
              let '(rid, db1) :=
                insert_response
                  (form_instance post (survey_id sv) None "self" true) db in
              match save_strength_rankings post rid 0 (post_strengths post) db1 with
              | (Some e, db2) => (ServerError e, db2)
              | (None, db2) =>
                  match save_opportunity_rankings post rid 0
                          (post_opportunities post) db2 with
                  | (Some e, db3) => (ServerError e, db3)
                  | (None, db3) =>
                      (Redirect "leader_dashboard",
                       save_survey (complete_self sv) db3)
                  end
              end
            else (Render "survey/leader_self_assessment_full.html" errors, db)
        end
  end.

(** *** api_submit_survey *)

(** An element of the JSON arrays [strengths] and [opportunities]; [None]
    is a missing key. *)
Record ApiRanking := {
  api_text : option string;
  api_rank : option Z
}.

(** The JSON object of a submission, strings where strings are expected;
    [None] is a missing key, read as [None] by [data.get]. *)
Record ApiData := {
  invitation_token : option string;
  api_relationship : option string;
  api_q : nat -> option string;
  api_continue_doing : string;
  api_stop_doing : string;
  api_start_doing : string;
  api_strengths : list ApiRanking;
  api_opportunities : list ApiRanking
}.

(** [SurveyResponse.objects.create(...)]: the columns are not nullable. *)
Definition api_create_response (data : ApiData) (survey : nat)
           (invitation : option nat) (db : DB) : result (nat * DB) :=
  match api_relationship data with
  | None => Raise IntegrityError
  | Some rel =>
      if forallb (fun i => match api_q data i with Some _ => true | None => false end)
                 (seq 2 54)
      then
        Ok (insert_response
              {| resp_id := 0; survey := survey; invitation := invitation;
                 relationship := rel;
                 is_leader_self_assessment :=
                   match invitation with None => true | Some _ => false end;
                 q_response :=
                   fun i => match api_q data i with Some v => v | None => "" end;
                 continue_doing := api_continue_doing data;
                 stop_doing := api_stop_doing data;
                 start_doing := api_start_doing data;
                 strength_rankings := []; opportunity_rankings := [] |} db)
      else Raise IntegrityError
  end.

Definition api_field {A} (field : option A) : result A :=
  match field with
  | Some v => Ok v
  | None => Raise KeyError
  end.

Fixpoint api_save_strengths (rid : nat) (l : list ApiRanking) (db : DB)
  : option exn * DB :=
  match l with
  | [] => (None, db)
  | strength_data :: rest =>
      match (text <- api_field (api_text strength_data) ;;
             rank <- api_field (api_rank strength_data) ;;
             create_strength_ranking rid text rank db) with
      | Ok db' => api_save_strengths rid rest db'
      | Raise e => (Some e, db)
      end
  end.

Fixpoint api_save_opportunities (rid : nat) (l : list ApiRanking) (db : DB)
  : option exn * DB :=
  match l with
  | [] => (None, db)
  | opp_data :: rest =>
      match (text <- api_field (api_text opp_data) ;;
             rank <- api_field (api_rank opp_data) ;;
             create_opportunity_ranking rid text rank db) with
      | Ok db' => api_save_opportunities rid rest db'
      | Raise e => (Some e, db)
      end
  end.

(** What the first part of the handler settles: an early answer, or the
    survey and the invitation the response belongs to. *)
Definition api_target (data : ApiData) (token : string) (now : datetime)
           (db : DB) : HttpResponse + (nat * option SurveyInvitation * option Survey) :=
  match invitation_token data with
  | Some t =>
      match get_invitation t db with
      | None => inl (JsonException Http404)
      | Some invitation =>
          if used invitation then inl (JsonError "Survey already completed" 400)
          else if is_expired now invitation
               then inl (JsonError "Survey link expired" 400)
               else inr (inv_survey invitation, Some invitation, None)
      end
  | None =>
      match get_survey token db with
      | None => inl (JsonException Http404)
      | Some sv =>
          if leader_completed_self sv
          then inl (JsonError "Self-assessment already completed" 400)
          else inr (survey_id sv, None, Some sv)
      end
  end.

(** The handler, for a POST request; [body] is [None] when [json.loads]
    fails.  Every exception is caught and answered with status 500. *)
Definition api_submit_survey (body : option ApiData) (token : string)
           (now : datetime) (db : DB) : HttpResponse * DB :=
  match body with
  | None => (JsonException JSONDecodeError, db)
  | Some data =>
      match api_target data token now db with
      | inl answer => (answer, db)
      | inr (survey, invitation, sv) =>
          match api_create_response data survey (option_map inv_id invitation) db with
          | Raise e => (JsonException e, db)
          | Ok (rid, db1) =>
              match api_save_strengths rid (api_strengths data) db1 with
              | (Some e, db2) => (JsonException e, db2)
              | (None, db2) =>
                  match api_save_opportunities rid (api_opportunities data) db2 with
                  | (Some e, db3) => (JsonException e, db3)
                  | (None, db3) =>
                      (JsonSuccess "Survey submitted successfully",
                       match invitation, sv with
                       | Some inv, _ => save_invitation (mark_used now inv) db3
                       | None, Some sv => save_survey (complete_self sv) db3
                       | None, None => db3
                       end)
                  end
              end
          end
      end
  end.

(** *** leader_dashboard_view *)

(** The data of the invitation form: the text of [emails], and what the
    field [expires_at] cleans to, [None] when it is rejected. *)
Record InvitationPost := {
  post_emails : string;
  post_expires_at : option datetime
}.

Inductive DashboardMethod : Type :=
| DashGET
| DashPOST (post : InvitationPost).

(** What a request meets outside the tables: the token drawn for the
    invitation of a given primary key, and whether the mail to an address
    is sent. *)
Record Env := {
  generate_token : nat -> string;
  send_survey_invitation : string -> bool
}.

(** [CharField(required=True).clean] followed by [clean_emails]. *)
Definition emails_cleaned (post : InvitationPost) : result (list string) :=
  v <- char_field_clean (post_emails post) ;;
  if negb (PyStr.truthy v) then Raise (ValidationError required_message)
  else clean_emails v.

Definition expires_at_cleaned (post : InvitationPost) : result datetime :=
  match post_expires_at post with
  | Some d => Ok d
  | None => Raise (ValidationError "Enter a valid date/time.")
  end.

(** [SurveyInvitation.objects.filter(survey=survey, email=email).exists()] *)
Definition invitation_exists (sid : nat) (e : string) (db : DB) : bool :=
  existsb (fun i => (inv_survey i =? sid)%nat && String.eqb (email i) e)
          (invitations db).

(** [SurveyInvitation.objects.create(survey=..., email=..., expires_at=...)];
    [token] is unique, and so is the pair of survey and email. *)
Definition create_invitation (env : Env) (sid : nat) (e : string)
           (expires : datetime) (db : DB) : result DB :=
  let id := next_id (map inv_id (invitations db)) in
  let t := generate_token env id in
  if existsb (fun i => String.eqb (token i) t) (invitations db)
     || invitation_exists sid e db
  then Raise IntegrityError
  else Ok {| surveys := surveys db;
             invitations :=
               invitations db ++
               [ {| inv_id := id; inv_survey := sid; email := e; token := t;
                    expires_at := expires; used := false; used_at := None |} ];
             responses := responses db |}.

(** [for email in emails], with the counters of the handler. *)
Fixpoint send_invitations (env : Env) (sid : nat) (expires : datetime)
         (emails : list string) (created_count : nat) (failed_emails : list string)
         (db : DB) : option exn * nat * list string * DB :=
  match emails with
  | [] => (None, created_count, failed_emails, db)
  | e :: rest =>
      if negb (invitation_exists sid e db) then
        match create_invitation env sid e expires db with
        | Raise ex => (Some ex, created_count, failed_emails, db)
        | Ok db' =>
            if send_survey_invitation env e
            then send_invitations env sid expires rest (S created_count)
                   failed_emails db'
            else send_invitations env sid expires rest created_count
                   (failed_emails ++ [e]) db'
        end
      else send_invitations env sid expires rest created_count failed_emails db
  end.

Definition leader_dashboard_view (env : Env) (request : DashboardMethod)
           (token : string) (db : DB) : HttpResponse * DB :=
  match get_survey token db with
  | None => (NotFound, db)
  | Some sv =>
      if negb (leader_completed_self sv)
      then (Redirect "leader_self_assessment", db)
      else
        match request with
        | DashGET => (Render "survey/leader_dashboard.html" [], db)
        | DashPOST post =>
            match emails_cleaned post, expires_at_cleaned post with
            | Ok emails, Ok expires =>
                match send_invitations env (survey_id sv) expires emails 0 [] db with
                | (Some e, _, _, db') => (ServerError e, db')
                | (None, _, _, db') => (Redirect "leader_dashboard", db')
                end
            | Raise (ValidationError _), _ | Ok _, Raise (ValidationError _) =>
                (Render "survey/leader_dashboard.html"
                   (field_errors "emails" (emails_cleaned post)
                    ++ field_errors "expires_at" (expires_at_cleaned post)), db)
            | Raise e, _ | _, Raise e => (ServerError e, db)
            end
        end
  end.

(** *** The requests that write invitations or responses *)

(** The other views of [views.py] read the tables, or write surveys and
    reports only. *)

Inductive Request : Type :=
| ParticipantSurvey (request : Method) (token : string)
| ApiSubmitSurvey (body : option ApiData) (token : string)
| LeaderSelfAssessment (request : Method) (token : string)
| LeaderDashboard (env : Env) (request : DashboardMethod) (token : string).

(** One request served at time [now]. *)
Definition handle (now : datetime) (req : Request) (db : DB) : HttpResponse * DB :=
  match req with
  | ParticipantSurvey request token => participant_survey_view request token now db
  | ApiSubmitSurvey body token => api_submit_survey body token now db
  | LeaderSelfAssessment request token => leader_self_assessment_view request token db
  | LeaderDashboard env request token => leader_dashboard_view env request token db
  end.

(** The tables after a sequence of requests, each at its own time. *)
Inductive reachable (db : DB) : DB -> Prop :=
| reachable_refl : reachable db db
| reachable_step (db1 : DB) (now : datetime) (req : Request) :
    reachable db db1 -> reachable db (snd (handle now req db1)).

End Views.

(* ===================================================================== *)
(** ** What the report is expected to compute *)
(* ===================================================================== *)

(** The quantities below restate the aggregation independently of the
    loops of [view_report]; the theorems relate the two. *)
Module ReportSpec.
Import Py Utils Models Report.

(** The relationship a response is counted under. *)
Definition counted_as (r : SurveyResponse) : string :=
  if is_leader_self_assessment r then "self" else relationship r.

(** Scores of the responses that answer question [q_num]. *)
Definition answered_scores (q_num : nat) (responses : list SurveyResponse)
  : list Z :=
  map (fun r => calculate_likert_score (q_response r q_num))
      (filter (fun r => PyStr.truthy (q_response r q_num)) responses).

(** Scores of question [q_num] observed in the category [rel]. *)
Definition observations (q_num : nat) (rel : string)
           (responses : list SurveyResponse) : list Z :=
  answered_scores q_num
    (filter (fun r => String.eqb (counted_as r) rel) responses).

Definition relationship_categories : list string :=
  ["self"; "supervisor"; "peer"; "teacher"; "student"; "parent"].

(** Arithmetic mean of a list of scores or ranks. *)
Definition mean (l : list Z) : Q := Qmake (sum l) (Pos.of_nat (List.length l)).

(** Average of a category for a question: absent without observations. *)
Definition category_average (q_num : nat) (rel : string)
           (responses : list SurveyResponse) : option Q :=
  match observations q_num rel responses with
  | [] => None
  | obs => Some (round2 (mean obs))
  end.

(** The statistics of a question: absent when nobody answers it. *)
Definition question_entry (q_num : nat) (responses : list SurveyResponse)
  : option QuestionStat :=
  match answered_scores q_num responses with
  | [] => None
  | s =>
      Some {| average := round2 (mean s);
              scores := s;
              response_count := List.length s;
              by_relationship :=
                map (fun rel => (rel, category_average q_num rel responses))
                    relationship_categories |}
  end.

(** The entries of the questions [qs] that have one. *)
Definition question_entries (qs : list nat) (responses : list SurveyResponse)
  : list (nat * QuestionStat) :=
  flat_map (fun q_num =>
              match question_entry q_num responses with
              | Some s => [(q_num, s)]
              | None => []
              end) qs.

(** Every answer of every response is 'meets'. *)
Definition all_meets (responses : list SurveyResponse) : Prop :=
  forall r, In r responses ->
  forall q_num, In q_num question_numbers -> q_response r q_num = "meets".

(** The rankings of a set of responses as (label, rank) pairs, in the
    order the report meets them. *)
Definition strength_rows (responses : list SurveyResponse) : list (string * Z) :=
  flat_map (fun r => map (fun s => (strength s, s_rank s)) (strength_rankings r))
           responses.

Definition opportunity_rows (responses : list SurveyResponse) : list (string * Z) :=
  flat_map (fun r => map (fun o => (opportunity o, o_rank o))
                         (opportunity_rankings r))
           responses.

(** The ranks given to [label]. *)
Definition ranks_of (label : string) (rows : list (string * Z)) : list Z :=
  map snd (filter (fun p => String.eqb (fst p) label) rows).

(** The distinct elements of a list, each at its first occurrence. *)
Fixpoint first_occurrences (l : list string) : list string :=
  match l with
  | [] => []
  | x :: l' => x :: filter (fun y => negb (String.eqb y x)) (first_occurrences l')
  end.

(** Mean of the ranks of [label], as a float has it: the double nearest to
    the arithmetic mean. *)
Definition mean_rank (label : string) (rows : list (string * Z)) : Q :=
  float_round (mean (ranks_of label rows)).

(** One entry per distinct label, in the order of first encounter. *)
Definition mean_ranks (rows : list (string * Z)) : list ranked :=
  map (fun label =>
         (label, mean_rank label rows, List.length (ranks_of label rows)))
      (first_occurrences (map fst rows)).

(** The ranks of every distinct label, in the order of first encounter. *)
Definition ranks_by_label (rows : list (string * Z)) : dict (list Z) :=
  map (fun label => (label, ranks_of label rows))
      (first_occurrences (map fst rows)).

(** Every score that enters a per-question average. *)
Definition all_answered_scores (responses : list SurveyResponse) : list Z :=
  flat_map (fun qs => scores (snd qs))
           (question_entries question_numbers responses).

(** [l] is in decreasing order of mean rank. *)
Definition descending (l : list ranked) : Prop :=
  StronglySorted (fun a b => (avg_rank b <= avg_rank a)%Q) l.

(** [l] and [l0] list the entries of any given mean rank in the same order. *)
Definition same_order_of_ties (l l0 : list ranked) : Prop :=
  forall k : Q,
    filter (fun e => Qeq_bool (avg_rank e) k) l
    = filter (fun e => Qeq_bool (avg_rank e) k) l0.

(** [top] is what the report shows for the rankings [rows]. *)
Definition top_ten_by_mean_rank (rows : list (string * Z)) (top : list ranked)
  : Prop :=
  exists sorted,
    Permutation sorted (mean_ranks rows) /\
    descending sorted /\
    same_order_of_ties sorted (mean_ranks rows) /\
    top = firstn 10 sorted.

End ReportSpec.

(* ===================================================================== *)
(** ** What the invitation form is expected to accept *)
(* ===================================================================== *)

Module FormSpec.
Import Py Models Forms Views.

(** The text after the first [c] of [s], if [s] has one. *)
Fixpoint after_first (c : ascii) (s : string) : option string :=
  match s with
  | EmptyString => None
  | String d s' => if Ascii.eqb d c then Some s' else after_first c s'
  end.

(** The text of [s] before its first [c], all of [s] without one. *)
Fixpoint up_to (c : ascii) (s : string) : string :=
  match s with
  | EmptyString => EmptyString
  | String d s' => if Ascii.eqb d c then EmptyString else String d (up_to c s')
  end.

(** The address has an '@' and a '.' somewhere after it. *)
Definition at_then_dot (email : string) : Prop :=
  exists pre post,
    email = String.append pre (String "@" post) /\ PyStr.contains "." post = true.

(** The address has an '@', and a '.' between its first '@' and the next
    '@' or the end. *)
Definition accepts (email : string) : bool :=
  match after_first "@" email with
  | Some post => PyStr.contains "." (up_to "@" post)
  | None => false
  end.

(** The lines of the text that are not blank, stripped. *)
Definition candidate_lines (emails_text : string) : list string :=
  filter PyStr.truthy (map PyStr.strip (PyStr.split "010" emails_text)).

(** The capital letters among the code points below 256: A to Z, and the
    accented capitals U+00C0 to U+00DE other than the sign U+00D7. *)
Definition capital_codes : list nat := seq 65 26 ++ seq 192 23 ++ seq 216 7.

Definition is_capital (c : ascii) : bool :=
  existsb (Nat.eqb (PyStr.code c)) capital_codes.

(** The white space among the code points below 256. *)
Definition blank_codes : list nat :=
  [9; 10; 11; 12; 13; 28; 29; 30; 31; 32; 133; 160]%nat.

Definition is_blank (c : ascii) : bool :=
  existsb (Nat.eqb (PyStr.code c)) blank_codes.

(** Two characters that are one letter: the same character, or a capital
    and its small letter, which comes 32 code points after it. *)
Definition same_letter (a b : ascii) : bool :=
  Ascii.eqb a b
  || (is_capital a && (PyStr.code b =? PyStr.code a + 32)%nat)
  || (is_capital b && (PyStr.code a =? PyStr.code b + 32)%nat).

(** The same text up to the case of its letters. *)
Fixpoint same_up_to_case (s t : string) : bool :=
  match s, t with
  | EmptyString, EmptyString => true
  | String a s', String b t' => same_letter a b && same_up_to_case s' t'
  | _, _ => false
  end.

Fixpoint no_capital (s : string) : bool :=
  match s with
  | EmptyString => true
  | String c s' => negb (is_capital c) && no_capital s'
  end.

Fixpoint all_blank (s : string) : bool :=
  match s with
  | EmptyString => true
  | String c s' => is_blank c && all_blank s'
  end.

Definition first_char (s : string) : option ascii :=
  match s with
  | EmptyString => None
  | String c _ => Some c
  end.

Fixpoint last_char (s : string) : option ascii :=
  match s with
  | EmptyString => None
  | String c s' =>
      match last_char s' with
      | Some d => Some d
      | None => Some c
      end
  end.

(** No white space at either end. *)
Definition trimmed (s : string) : bool :=
  match first_char s, last_char s with
  | Some c, Some d => negb (is_blank c) && negb (is_blank d)
  | _, _ => true
  end.

(** Neither surrounding whitespace nor a capital letter. *)
Definition normalised (e : string) : Prop :=
  trimmed e = true /\ no_capital e = true.

(** [e] is the line [line] without the white space around it and with the
    small letters of its capitals. *)
Definition normal_form_of (line e : string) : Prop :=
  exists pre core suf,
    line = String.append pre (String.append core suf) /\
    all_blank pre = true /\ all_blank suf = true /\
    core <> EmptyString /\ trimmed core = true /\
    same_up_to_case core e = true /\ no_capital e = true.

(** The lines of a text that hold more than white space. *)
Definition lines_with_text (text : string) : list string :=
  filter (fun line => negb (all_blank line)) (PyStr.split "010" text).

(** The addresses invited to the survey [sid]. *)
Definition survey_emails (sid : nat) (db : DB) : list string :=
  map email (filter (fun i => (inv_survey i =? sid)%nat) (invitations db)).

(** No two of the addresses are the same up to case. *)
Definition distinct_up_to_case (l : list string) : Prop :=
  ForallOrdPairs (fun a b => same_up_to_case a b = false) l.

(** No two invitations of the survey have the same address up to case. *)
Definition case_insensitively_unique (sid : nat) (db : DB) : Prop :=
  distinct_up_to_case (survey_emails sid db).

End FormSpec.

(* ===================================================================== *)
(** ** What a submission is expected to do to its invitation *)
(* ===================================================================== *)

Module SubmissionSpec.
Import Py Models Forms Views.

(** Primary keys of invitations are unique. *)
Definition well_formed (db : DB) : Prop :=
  NoDup (map inv_id (invitations db)).

(** The invitation of token [t] exists and is used. *)
Definition used_up (t : string) (db : DB) : Prop :=
  exists inv, get_invitation t db = Some inv /\ used inv = true.

(** The request is a submission attempt with the invitation token [t]: on
    the web path the token of the URL, on the API path the token the body
    names. *)
Definition submits (t : string) (req : Request) : Prop :=
  match req with
  | ParticipantSurvey _ t' => t' = t
  | ApiSubmitSurvey (Some data) _ => invitation_token data = Some t
  | _ => False
  end.

(** The answer to a submission that succeeds. *)
Definition accepted (answer : HttpResponse) : Prop :=
  answer = Redirect "thank_you"
  \/ answer = JsonSuccess "Survey submitted successfully".

(** The answer to a submission that is turned away: the invalid-link page
    on the web path, an error in JSON on the API path. *)
Definition rejected (req : Request) (answer : HttpResponse) : Prop :=
  match req with
  | ParticipantSurvey _ _ => answer = Render "survey/invalid_link.html" []
  | ApiSubmitSurvey _ _ => answer = JsonError "Survey already completed" 400
  | _ => False
  end.

(** What [save_invitation] does to the row [i] when the invitation [inv],
    marked used, is saved. *)
Definition mark_used_by_id (now : datetime) (inv i : SurveyInvitation)
  : SurveyInvitation :=
  if (inv_id i =? inv_id inv)%nat then mark_used now inv else i.

(** Five ranks, each from 1 to 5, pairwise distinct. *)
Definition five_distinct_ranks (ranks : list Z) : Prop :=
  List.length ranks = 5%nat /\
  Forall (fun k => (1 <= k <= 5)%Z) ranks /\
  NoDup ranks.

(** The invariant of the rankings of a stored response. *)
Definition ranking_invariant (r : SurveyResponse) : Prop :=
  five_distinct_ranks (map s_rank (strength_rankings r)) /\
  five_distinct_ranks (map o_rank (opportunity_rankings r)).

(** A step that leaves invitations and surveys alone and creates no
    response. *)
Definition only_rankings (db db' : DB) : Prop :=
  invitations db' = invitations db /\
  surveys db' = surveys db /\
  List.length (responses db') = List.length (responses db).

(** How a row of invitations may change: never its key nor its token, and
    [used] never back to false. *)
Definition row_evolves (i i' : SurveyInvitation) : Prop :=
  inv_id i' = inv_id i /\ token i' = token i /\ (used i = true -> used i' = true).

(** How the table of invitations may change: rows evolve, rows are added. *)
Definition evolves (db db' : DB) : Prop :=
  exists rows new,
    invitations db' = rows ++ new /\
    Forall2 row_evolves (invitations db) rows /\
    Forall (fun i => ~ In (inv_id i) (map inv_id (invitations db))) new /\
    NoDup (map inv_id new).

End SubmissionSpec.

(* ===================================================================== *)
(** ** Concrete surveys, submissions and tables *)
(* ===================================================================== *)

Module Examples.
Import Py Models Forms Views.

Definition response_all_meets : SurveyResponse :=
  {| resp_id := 1; survey := 1; invitation := Some 1; relationship := "peer";
     is_leader_self_assessment := false; q_response := fun _ => "meets";
     continue_doing := ""; stop_doing := ""; start_doing := "";
     strength_rankings := []; opportunity_rankings := [] |}.

(** A submission of the survey form with the given strengths and the given
    values of [request.POST] outside the fields of the form. *)
Definition post_with (strengths : list string) (other : string -> option string)
  : PostData :=
  {| post_relationship := "peer"; post_q := fun _ => "meets";
     post_continue_doing := ""; post_stop_doing := ""; post_start_doing := "";
     post_strengths := strengths;
     post_opportunities := ["0"; "1"; "2"; "3"; "4"];
     post_get := other |}.

Definition post_four_strengths : PostData :=
  post_with ["0"; "1"; "2"; "3"] (fun _ => None).

(** Five strengths, no rank posted: the ranks are the defaults 5, 4, 3, 2, 1. *)
Definition post_default_ranks : PostData :=
  post_with ["0"; "1"; "2"; "3"; "4"] (fun _ => None).

(** Five strengths, and [strength_rank_1=9] posted along. *)
Definition post_rank_nine : PostData :=
  post_with ["0"; "1"; "2"; "3"; "4"]
            (fun key => if String.eqb key "strength_rank_1" then Some "9" else None).

(** A JSON submission without strengths and with one opportunity of rank 77. *)
Definition api_one_opportunity : ApiData :=
  {| invitation_token := Some "tok"; api_relationship := Some "peer";
     api_q := fun _ => Some "above";
     api_continue_doing := ""; api_stop_doing := ""; api_start_doing := "";
     api_strengths := [];
     api_opportunities :=
       [ {| api_text := Some "Resistant to change"; api_rank := Some 77%Z |} ] |}.

(** One survey whose leader has answered, one invitation not used yet. *)
Definition db_one_invitation : DB :=
  {| surveys := [ {| survey_id := 1; leader_token := "lead";
                     leader_completed_self := true |} ];
     invitations := [ {| inv_id := 1; inv_survey := 1; email := "a@b.c";
                         token := "tok"; expires_at := 1000%Z;
                         used := false; used_at := None |} ];
     responses := [] |}.

Definition env_of_ids : Env :=
  {| generate_token := fun id => String.append "token" (str_of_nat id);
     send_survey_invitation := fun _ => true |}.

(** Two lines that differ by case and surrounding blanks only. *)
Definition post_same_address_twice : InvitationPost :=
  {| post_emails :=
       String.append " Ann@Example.org " (String "010" "ann@example.ORG");
     post_expires_at := Some 2000%Z |}.

End Examples.

(* ===================================================================== *)
(** ** More of Python: joining, substrings, random choices *)
(* ===================================================================== *)

Module PyMore.
Import Py.

(** [sep.join(l)] for a one-character separator. *)
Fixpoint join (sep : ascii) (l : list string) : string :=
  match l with
  | [] => EmptyString
  | [x] => x
  | x :: l' => String.append x (String sep (join sep l'))
  end.

(** [s.startswith(p)] *)
Fixpoint startswith (p s : string) : bool :=
  match p, s with
  | EmptyString, _ => true
  | String _ _, EmptyString => false
  | String a p', String b s' => Ascii.eqb a b && startswith p' s'
  end.

(** [p in s] for strings. *)
Fixpoint str_in (p s : string) : bool :=
  startswith p s
  || match s with
     | EmptyString => false
     | String _ s' => str_in p s'
     end.

(** [string.ascii_letters + string.digits] *)
Definition ascii_letters_digits : list ascii :=
  list_ascii_of_string
    "abcdefghijklmnopqrstuvwxyzABCDEFGHIJKLMNOPQRSTUVWXYZ0123456789".

(** [secrets.choice(seq)], the random index being the [draw]-th value of
    [randbelow] for the bound [len(seq)]. *)
Definition choice (randbelow : nat -> nat -> nat) (draw : nat) (seq : list ascii)
  : result ascii :=
  getitem seq (Z.of_nat (randbelow draw (List.length seq))).

End PyMore.

(* ===================================================================== *)
(** ** survey/models.py: methods of Survey, tokens *)
(* ===================================================================== *)

Module ModelMethods.
Import Py PyMore Models.

(** [''.join(secrets.choice(alphabet) for _ in range(length))], the draws
    being numbered from [draw] on. *)
Fixpoint random_string (randbelow : nat -> nat -> nat) (alphabet : list ascii)
         (draw length : nat) : result string :=
  match length with
  | O => Ok EmptyString
  | S n =>
      c <- choice randbelow draw alphabet ;;
      rest <- random_string randbelow alphabet (S draw) n ;;
      Ok (String c rest)
  end.

(** [generate_token(length=64)], also [generate_secure_token] of
    [utils.py]. *)
Definition generate_token (randbelow : nat -> nat -> nat) (length : nat)
  : result string :=
  random_string randbelow ascii_letters_digits 0 length.

(** The related managers [self.invitations] and [self.responses] are given
    by their rows. *)
Definition get_response_count (self_responses : list SurveyResponse) : nat :=
  List.length (filter (fun r => negb (is_leader_self_assessment r)) self_responses).

Definition get_total_response_count (self_responses : list SurveyResponse) : nat :=
  List.length self_responses.

(** The rate as the exact value of [(completed / invitations) * 100]; the
    float of Python may differ from it in the last place, between 0 and
    100. *)
Definition get_completion_rate (self_invitations : list SurveyInvitation)
  : result Q :=
  let invitations := List.length self_invitations in
  if (invitations =? 0)%nat then Ok 0%Q
  else
    let completed := List.length (filter used self_invitations) in
    q <- truediv (Z.of_nat completed) invitations ;;
    Ok (q * 100)%Q.

End ModelMethods.

(* ===================================================================== *)
(** ** survey/templatetags/survey_extras.py *)
(* ===================================================================== *)

Module TemplateTags.
Import Py PyMore.

(** A value a template passes to [make_list]. *)
Inductive value : Type :=
| VStr (s : string)
| VList (l : list string).

(** [make_list(value)] *)
Definition make_list (v : value) : value :=
  match v with
  | VStr s => VList (PyStr.split "," s)
  | VList _ => v
  end.

(** Body of [for item in value] of [unique], on the pair of [seen] and
    [result]. *)
Definition unique_step (st : list string * list string) (item : string)
  : list string * list string :=
  let '(seen, result) := st in
  if PyStr.truthy item && PyStr.truthy (PyStr.strip item)
     && negb (existsb (String.eqb item) seen)
  then (item :: seen, result ++ [item])
  else st.

(** [unique(value)] for a list of strings. *)
Definition unique (value : list string) : list string :=
  match value with
  | [] => value
  | _ => snd (fold_left unique_step value ([], []))
  end.

End TemplateTags.

(* ===================================================================== *)
(** ** survey/views.py: the pages of the administrator, the submit route *)
(* ===================================================================== *)

Module AdminViews.
Import Py PyMore Models Forms Views.

(** [request.user]: anonymous, or a user who is staff or not. *)
Inductive user : Type :=
| Anonymous
| User (user_id : nat) (is_staff : bool).

(** The dictionary [stats] of [survey_detail_view]. *)
Record stats := {
  total_invitations : nat;
  completed_invitations : nat;
  pending_invitations : nat;
  expired_invitations : nat;
  total_responses : nat;
  self_assessment_complete : bool
}.

Inductive page : Type :=
| LoginRedirect
| Forbidden
| PageNotFound
| SurveyDetail (s : stats).

Definition get_survey_by_id (id : nat) (db : DB) : option Survey :=
  find (fun s => (survey_id s =? id)%nat) (surveys db).

(** [survey_detail_view]; the two queries that compare with the clock read
    it one after the other, at [now1] and then at [now2]. *)
Definition survey_detail_view (u : user) (id : nat) (now1 now2 : datetime)
           (db : DB) : page :=
  match u with
  | Anonymous => LoginRedirect
  | User _ false => Forbidden
  | User _ true =>
      match get_survey_by_id id db with
      | None => PageNotFound
      | Some sv =>
          let responses :=
            filter (fun r => (survey r =? survey_id sv)%nat) (responses db) in
          let invitations :=
            filter (fun i => (inv_survey i =? survey_id sv)%nat) (invitations db) in
          SurveyDetail
            {| total_invitations := List.length invitations;
               completed_invitations := List.length (filter used invitations);
               pending_invitations :=
                 List.length
                   (filter (fun i => negb (used i) && (now1 <? expires_at i)%Z)
                           invitations);
               expired_invitations :=
                 List.length
                   (filter (fun i => negb (used i) && (expires_at i <=? now2)%Z)
                           invitations);
               total_responses := List.length responses;
               self_assessment_complete := leader_completed_self sv |}
      end
  end.

(** [submit_survey_view], [path] being [request.path]. *)
Definition submit_survey_view (path : string) (request : Method)
           (token : string) (now : datetime) (db : DB) : HttpResponse * DB :=
  if str_in "invitation" path
  then participant_survey_view request token now db
  else leader_self_assessment_view request token db.

(** The path of the route [survey/<str:token>/submit/] of [urls.py]. *)
Definition submit_path (token : string) : string :=
  String.append "/survey/" (String.append token "/submit/").

End AdminViews.

(* ===================================================================== *)
(** ** The report of a survey: [SurveyReport] and the views that write it *)
(* ===================================================================== *)

Module ReportViews.
Import Py Models Views AdminViews.

(** A row of [SurveyReport]; [survey] is one-to-one, [report_token] is
    unique. *)
Record SurveyReport := {
  report_id : nat;
  report_survey : nat;
  report_token : string;
  generated_at : datetime;
  generated_by : option nat;
  sent_to_leader : bool;
  sent_at : option datetime
}.

(** The messages of [send_report_view]: 'Report sent to <leader_email>',
    'Failed to send report email.' and 'Report not generated yet.'. *)
Inductive message : Type :=
| ReportSent
| SendFailed
| NotGenerated.

(** The answers of the three views. *)
Inductive answer : Type :=
| ToLogin
| HttpForbidden
| Http404Page
| MethodNotAllowed
| RedirectViewReport (token : string)
| RedirectSurveyDetail (survey_id : nat) (shown : message)
| JsonUnauthorized
| JsonReport (token : string)
| Http500 (e : exn).

(** [survey.report], and the lookup of [get_or_create(survey=survey, ...)]. *)
Definition get_report (sid : nat) (reports : list SurveyReport)
  : option SurveyReport :=
  find (fun r => (report_survey r =? sid)%nat) reports.

(** [report.save()] of a row that exists: update by primary key. *)
Definition save_report (report : SurveyReport) (reports : list SurveyReport)
  : list SurveyReport :=
  map (fun r => if (report_id r =? report_id report)%nat then report else r) reports.

(** [SurveyReport.objects.get_or_create(survey=survey,
    defaults={'generated_by': request.user})]; [token] is what the default
    of [report_token] draws, [generated_at] has [auto_now_add]. *)
Definition get_or_create (sid uid : nat) (now : datetime) (token : string)
           (reports : list SurveyReport)
  : result (SurveyReport * bool * list SurveyReport) :=
  match get_report sid reports with
  | Some report => Ok (report, false, reports)
  | None =>
      if existsb (fun r => String.eqb (report_token r) token) reports
      then Raise IntegrityError
      else
        let report :=
          {| report_id := next_id (map report_id reports);
             report_survey := sid; report_token := token;
             generated_at := now; generated_by := Some uid;
             sent_to_leader := false; sent_at := None |} in
        Ok (report, true, reports ++ [report])
  end.

(** The statements [generate_report_view] and [api_generate_report] share:
    [get_or_create], and the update of a report that existed. *)
Definition generate_report (sid uid : nat) (now : datetime) (token : string)
           (reports : list SurveyReport)
  : result (SurveyReport * list SurveyReport) :=
  x <- get_or_create sid uid now token reports ;;
  let '(report, created, reports1) := x in
  if negb created then
    let report' :=
      {| report_id := report_id report; report_survey := report_survey report;
         report_token := report_token report;
         generated_at := now; generated_by := Some uid;
         sent_to_leader := sent_to_leader report; sent_at := sent_at report |} in
    Ok (report', save_report report' reports1)
  else Ok (report, reports1).

(** [generate_report_view], for a request of any method. *)
Definition generate_report_view (u : user) (sid : nat) (now : datetime)
           (token : string) (db : DB) (reports : list SurveyReport)
  : answer * list SurveyReport :=
  match u with
  | Anonymous => (ToLogin, reports)
  | User _ false => (HttpForbidden, reports)
  | User uid true =>
      match get_survey_by_id sid db with
      | None => (Http404Page, reports)
      | Some sv =>
          match generate_report (survey_id sv) uid now token reports with
          | Raise e => (Http500 e, reports)
          | Ok (report, reports') =>
              (RedirectViewReport (report_token report), reports')
          end
      end
  end.

(** [api_generate_report]; [is_post] tells whether the method is POST. *)
Definition api_generate_report (u : user) (is_post : bool) (sid : nat)
           (now : datetime) (token : string) (db : DB)
           (reports : list SurveyReport) : answer * list SurveyReport :=
  match u with
  | Anonymous => (ToLogin, reports)
  | User uid is_staff =>
      if negb is_post then (MethodNotAllowed, reports)
      else if negb is_staff then (JsonUnauthorized, reports)
      else
        match get_survey_by_id sid db with
        | None => (Http404Page, reports)
        | Some sv =>
            match generate_report (survey_id sv) uid now token reports with
            | Raise e => (Http500 e, reports)
            | Ok (report, reports') => (JsonReport (report_token report), reports')
            end
        end
  end.

(** [SurveyReport.mark_as_sent] *)
Definition mark_as_sent (now : datetime) (self : SurveyReport)
           (reports : list SurveyReport) : list SurveyReport :=
  save_report
    {| report_id := report_id self; report_survey := report_survey self;
       report_token := report_token self;
       generated_at := generated_at self; generated_by := generated_by self;
       sent_to_leader := true; sent_at := Some now |}
    reports.

(** [send_report_to_leader]; [mail_sent] tells whether [send_mail] returned
    without an exception. *)
Definition send_report_to_leader (mail_sent : bool) (now : datetime)
           (report : SurveyReport) (reports : list SurveyReport)
  : bool * list SurveyReport :=
  if mail_sent then (true, mark_as_sent now report reports)
  else (false, reports).

(** [send_report_view] *)
Definition send_report_view (u : user) (sid : nat) (mail_sent : bool)
           (now : datetime) (db : DB) (reports : list SurveyReport)
  : answer * list SurveyReport :=
  match u with
  | Anonymous => (ToLogin, reports)
  | User _ false => (HttpForbidden, reports)
  | User _ true =>
      match get_survey_by_id sid db with
      | None => (Http404Page, reports)
      | Some sv =>
          match get_report (survey_id sv) reports with
          | Some report =>
              match send_report_to_leader mail_sent now report reports with
              | (true, reports') =>
                  (RedirectSurveyDetail sid ReportSent, reports')
              | (false, reports') =>
                  (RedirectSurveyDetail sid SendFailed, reports')
              end
          | None => (RedirectSurveyDetail sid NotGenerated, reports)
          end
      end
  end.

End ReportViews.

(* ===================================================================== *)
(** ** What the other functions are expected to do *)
(* ===================================================================== *)

Module CodeSpec.
Import Py Utils Models Report ReportSpec Forms Views FormSpec SubmissionSpec.
Import ReportViews.

(** The items [unique] keeps: those with something else than blanks. *)
Definition not_blank (item : string) : bool := PyStr.truthy (PyStr.strip item).

(** The number of [c] in [s]. *)
Fixpoint count_char (c : ascii) (s : string) : nat :=
  match s with
  | EmptyString => 0
  | String d s' => (if Ascii.eqb d c then 1 else 0) + count_char c s'
  end.

(** An average of the report, absent or on the scale from 1 to 7. *)
Definition on_scale (v : option Q) : Prop :=
  match v with
  | None => True
  | Some q => (1 <= q)%Q /\ (q <= 7)%Q
  end.

(** What an entry of a ranked list says about its label. *)
Definition entry_of (rows : list (string * Z)) (e : ranked) : Prop :=
  ranks_of (ranked_label e) rows <> [] /\
  avg_rank e = float_round (mean (ranks_of (ranked_label e) rows)) /\
  snd e = List.length (ranks_of (ranked_label e) rows).

(** What a ranked list [top] says about the rankings [rows]: no label
    twice; for each entry, the mean of the ranks of its label, as a float,
    and their number; means within any bounds the ranks keep, for bounds that
    are floats themselves; and, with at most ten distinct labels, numbers
    that add up to the number of rankings. *)
Definition describes (rows : list (string * Z)) (top : list ranked) : Prop :=
  NoDup (map ranked_label top) /\
  Forall (entry_of rows) top /\
  (forall lo hi,
     (- 2 ^ 53 <= lo)%Z -> (hi <= 2 ^ 53)%Z ->
     Forall (fun p => (lo <= snd p <= hi)%Z) rows ->
     Forall (fun e => (inject_Z lo <= avg_rank e)%Q /\ (avg_rank e <= inject_Z hi)%Q)
            top) /\
  ((List.length (first_occurrences (map fst rows)) <= 10)%nat ->
   list_sum (map snd top) = List.length rows).

(** Five choices of the list [choices], by their keys. *)
Definition five_of (choices : list string) (value : list string) : Prop :=
  List.length value = 5%nat /\ Forall (fun id => In id (choice_ids choices)) value.

(** The text of an open question holds no null character once stripped. *)
Definition clean_text (value : string) : Prop :=
  PyStr.contains "000" (PyStr.strip value) = false.

(** What the fields both forms share must hold for the form to be valid. *)
Definition well_filled (post : PostData) : Prop :=
  (forall q_num, In q_num question_numbers -> In (post_q post q_num) LIKERT_CHOICES) /\
  clean_text (post_continue_doing post) /\
  clean_text (post_stop_doing post) /\
  clean_text (post_start_doing post) /\
  five_of get_strength_choices (post_strengths post) /\
  five_of get_opportunity_choices (post_opportunities post).

(** The tables with other responses. *)
Definition with_responses (db : DB) (rs : list SurveyResponse) : DB :=
  {| surveys := surveys db; invitations := invitations db; responses := rs |}.

(** The label of the choice of key [id]. *)
Definition choice_text (choices : list string) (id : string) : string :=
  match (n <- int_of_str id ;; getitem choices n) with
  | Ok text => text
  | Raise _ => EmptyString
  end.

(** The rank stored for the [i]-th selected choice, posted under [key]. *)
Definition rank_value (post : PostData) (key : string) (i : nat) : Z :=
  match posted_rank post key i with
  | Ok z => z
  | Raise _ => 0%Z
  end.

(** Every rank posted for the selection is an integer literal. *)
Fixpoint ranks_parse (post : PostData) (prefix : string) (i : nat)
         (ids : list string) : bool :=
  match ids with
  | [] => true
  | id :: rest =>
      match posted_rank post (String.append prefix id) i with
      | Ok _ => ranks_parse post prefix (S i) rest
      | Raise _ => false
      end
  end.

(** Every rank posted for the selection is an integer literal, of a value
    the column takes. *)
Fixpoint ranks_storable (post : PostData) (prefix : string) (i : nat)
         (ids : list string) : bool :=
  match ids with
  | [] => true
  | id :: rest =>
      match posted_rank post (String.append prefix id) i with
      | Ok z => fits_integer_column z && ranks_storable post prefix (S i) rest
      | Raise _ => false
      end
  end.

(** The rankings a selection asks for, from index [i] on. *)
Fixpoint expected_strengths (post : PostData) (i : nat) (ids : list string)
  : list StrengthRanking :=
  match ids with
  | [] => []
  | id :: rest =>
      {| strength := choice_text get_strength_choices id;
         s_rank := rank_value post (String.append "strength_rank_" id) i |}
      :: expected_strengths post (S i) rest
  end.

Fixpoint expected_opportunities (post : PostData) (i : nat) (ids : list string)
  : list OpportunityRanking :=
  match ids with
  | [] => []
  | id :: rest =>
      {| opportunity := choice_text get_opportunity_choices id;
         o_rank := rank_value post (String.append "opportunity_rank_" id) i |}
      :: expected_opportunities post (S i) rest
  end.

(** A decision procedure for the absence of duplicates. *)
Fixpoint nodupb (l : list string) : bool :=
  match l with
  | [] => true
  | x :: l' => negb (existsb (String.eqb x) l') && nodupb l'
  end.

(** The response a participant's submission asks to store. *)
Definition submitted_response (post : PostData) (inv : SurveyInvitation) (db : DB)
  : SurveyResponse :=
  {| resp_id := next_id (map resp_id (responses db));
     survey := inv_survey inv;
     invitation := Some (inv_id inv);
     relationship := post_relationship post;
     is_leader_self_assessment := false;
     q_response := post_q post;
     continue_doing := PyStr.strip (post_continue_doing post);
     stop_doing := PyStr.strip (post_stop_doing post);
     start_doing := PyStr.strip (post_start_doing post);
     strength_rankings := expected_strengths post 0 (post_strengths post);
     opportunity_rankings := expected_opportunities post 0 (post_opportunities post) |}.

Definition api_without_relationship : ApiData :=
  {| invitation_token := Some "tok"; api_relationship := None;
     api_q := fun _ => Some "above";
     api_continue_doing := ""; api_stop_doing := ""; api_start_doing := "";
     api_strengths := []; api_opportunities := [] |}.

(** The response a leader's self-assessment asks to store. *)
Definition self_response (post : PostData) (sv : Survey) (db : DB) : SurveyResponse :=
  {| resp_id := next_id (map resp_id (responses db));
     survey := survey_id sv;
     invitation := None;
     relationship := "self";
     is_leader_self_assessment := true;
     q_response := post_q post;
     continue_doing := PyStr.strip (post_continue_doing post);
     stop_doing := PyStr.strip (post_stop_doing post);
     start_doing := PyStr.strip (post_start_doing post);
     strength_rankings := expected_strengths post 0 (post_strengths post);
     opportunity_rankings := expected_opportunities post 0 (post_opportunities post) |}.

(** [survey.responses], the responses of the survey of key [sid]. *)
Definition responses_of (sid : nat) (db : DB) : list SurveyResponse :=
  filter (fun r => (survey r =? sid)%nat) (responses db).

(** The columns of a response the counters of a survey read. *)
Definition counted_fields (r : SurveyResponse) : nat * bool :=
  (survey r, is_leader_self_assessment r).

(** A response with one strength and one opportunity. *)
Definition response_ranking (id : nat) (label : string) (s o : Z) : SurveyResponse :=
  {| resp_id := id; survey := 1; invitation := Some id; relationship := "peer";
     is_leader_self_assessment := false; q_response := fun _ => "meets";
     continue_doing := ""; stop_doing := ""; start_doing := "";
     strength_rankings := [ {| strength := label; s_rank := s |} ];
     opportunity_rankings := [ {| opportunity := label; o_rank := o |} ] |}.

(** Three responses: the strengths of the first two have the ranks 2^53 and
    2^53 + 1, the opportunities the ranks 3, 5 and 4. *)
Definition responses_close_ranks : list SurveyResponse :=
  [ response_ranking 1 "first" (2 ^ 53) 3;
    response_ranking 2 "second" (2 ^ 53 + 1) 5;
    response_ranking 3 "third" 1 4 ].

(** A report of the survey of key 1, not sent yet. *)
Definition report_of_survey_one : SurveyReport :=
  {| report_id := 1; report_survey := 1; report_token := "report-token";
     generated_at := 50%Z; generated_by := Some 7%nat;
     sent_to_leader := false; sent_at := None |}.

(** One survey whose leader has not answered yet. *)
Definition db_new_survey : DB :=
  {| surveys := [ {| survey_id := 1; leader_token := "lead";
                     leader_completed_self := false |} ];
     invitations := []; responses := [] |}.

End CodeSpec.

(* ===================================================================== *)
(** * Properties *)
(* ===================================================================== *)

Import Py Utils Models Report ReportSpec Forms Views FormSpec SubmissionSpec.
Import Examples.
Import PyMore ModelMethods TemplateTags AdminViews ReportViews CodeSpec.

(** ** Likert scores *)

(** C3. [calculate_likert_score] sends the seven Likert values
    significantly_above, above, slightly_above, meets, slightly_below, below
    and significantly_below to 7, 6, 5, 4, 3, 2 and 1, and every other
    string, the empty one included, to 4. *)
Theorem calculate_likert_score_table :
  calculate_likert_score "significantly_above" = 7%Z /\
  calculate_likert_score "above" = 6%Z /\
  calculate_likert_score "slightly_above" = 5%Z /\
  calculate_likert_score "meets" = 4%Z /\
  calculate_likert_score "slightly_below" = 3%Z /\
  calculate_likert_score "below" = 2%Z /\
  calculate_likert_score "significantly_below" = 1%Z /\
  calculate_likert_score "" = 4%Z /\
  forall value : string,
    ~ In value (map fst Utils.scores) -> calculate_likert_score value = 4%Z.
Proof.
  repeat (split; [reflexivity|]).
  intros value Hnot. unfold calculate_likert_score.
  assert (H : forall d, ~ In value (map fst d) -> dict_get d value 4%Z = 4%Z).
  { induction d as [|[k v] d IH]; simpl; intros Hd; [reflexivity|].
    destruct (String.eqb_spec k value) as [->|_].
    - exfalso. apply Hd. now left.
    - apply IH. intros Hin. apply Hd. now right. }
  now apply H.
Qed.

Lemma calculate_likert_score_table_witness :
  ~ In "excellent" (map fst Utils.scores) /\ calculate_likert_score "excellent" = 4%Z.
Proof.
  assert (Hn : ~ In "excellent" (map fst Utils.scores)).
  { simpl. intros H. repeat (destruct H as [H|H]; [discriminate H|]). exact H. }
  split; [exact Hn|].
  exact (proj2 (proj2 (proj2 (proj2 (proj2 (proj2 (proj2 (proj2
           calculate_likert_score_table))))))) "excellent" Hn).
Defined.

(** ** Invitations *)

(** C5, as the code has it.  An invitation is valid exactly when it is not
    used and the current time is not after [expires_at]: the instant of
    expiry itself is still valid. *)
Theorem is_valid_iff (now : datetime) (inv : SurveyInvitation) :
  is_valid now inv = true <-> used inv = false /\ (now <= expires_at inv)%Z.
Proof.
  unfold is_valid, is_expired.
  rewrite andb_true_iff, !negb_true_iff, Z.ltb_ge. tauto.
Qed.

(** C5, as stated, fails at the instant of expiry: the invitation is valid
    although the current time is not before [expires_at]. *)
Lemma is_valid_at_expiry :
  let inv := {| inv_id := 1; inv_survey := 1; email := "a@b.c"; token := "t";
                expires_at := 1000%Z; used := false; used_at := None |} in
  is_valid 1000%Z inv = true /\
  ~ (used inv = false /\ (1000 < expires_at inv)%Z).
Proof.
  simpl. split; [reflexivity|]. intros [_ H]. lia.
Qed.

(** ** The sort of the report *)

Section SortReverse.
Context {A : Type} (key : A -> Q).

Let desc (a b : A) : Prop := (key b <= key a)%Q.
Let tied (k : Q) (e : A) : bool := Qeq_bool (key e) k.

Lemma insert_desc_perm (x : A) (l : list A) :
  Permutation (x :: l) (insert_desc key x l).
Proof.
  induction l as [|y l IH]; simpl; [reflexivity|].
  destruct (Qle_bool (key y) (key x)); [reflexivity|].
  rewrite perm_swap. now apply perm_skip.
Qed.

Lemma sort_reverse_perm (l : list A) : Permutation (sort_reverse key l) l.
Proof.
  induction l as [|x l IH]; simpl; [reflexivity|].
  rewrite <- insert_desc_perm. now apply perm_skip.
Qed.

Lemma insert_desc_sorted (x : A) (l : list A) :
  StronglySorted desc l -> StronglySorted desc (insert_desc key x l).
Proof.
  induction l as [|y l IH]; simpl; intros Hs.
  - constructor; constructor.
  - inversion Hs as [|? ? Hl Hy]; subst.
    destruct (Qle_bool (key y) (key x)) eqn:E.
    + apply Qle_bool_iff in E. constructor; [exact Hs|].
      constructor; [exact E|].
      eapply Forall_impl; [|exact Hy]. unfold desc. intros z Hz.
      now apply Qle_trans with (key y).
    + assert (Hlt : (key x < key y)%Q).
      { apply Qnot_le_lt. intros H. apply Qle_bool_iff in H. congruence. }
      constructor; [now apply IH|].
      apply Forall_forall. intros z Hz.
      apply (Permutation_in _ (Permutation_sym (insert_desc_perm x l))) in Hz.
      destruct Hz as [<-|Hz].
      * unfold desc. now apply Qlt_le_weak.
      * rewrite Forall_forall in Hy. now apply Hy.
Qed.

Lemma sort_reverse_sorted (l : list A) : StronglySorted desc (sort_reverse key l).
Proof.
  induction l as [|x l IH]; simpl; [constructor|].
  now apply insert_desc_sorted.
Qed.

Lemma insert_desc_ties (k : Q) (x : A) (l : list A) :
  filter (tied k) (insert_desc key x l) = filter (tied k) (x :: l).
Proof.
  induction l as [|y l IH]; [reflexivity|].
  cbn [insert_desc]. destruct (Qle_bool (key y) (key x)) eqn:E; [reflexivity|].
  cbn [filter] in *. rewrite IH.
  destruct (tied k x) eqn:Ex, (tied k y) eqn:Ey; try reflexivity.
  exfalso. unfold tied in *. apply Qeq_bool_iff in Ex, Ey.
  assert (H : Qle_bool (key y) (key x) = true).
  { apply Qle_bool_iff. rewrite Ex, Ey. apply Qle_refl. }
  congruence.
Qed.

(** The sort is stable: entries of equal key keep their order. *)
Lemma sort_reverse_ties (k : Q) (l : list A) :
  filter (tied k) (sort_reverse key l) = filter (tied k) l.
Proof.
  induction l as [|x l IH]; [reflexivity|].
  cbn [sort_reverse fold_right]. rewrite insert_desc_ties.
  cbn [filter]. fold (sort_reverse key l). now rewrite IH.
Qed.

(** Two lists in decreasing order of key that list the entries of each
    key in the same order are equal. *)
Lemma stable_sort_unique (l1 l2 : list A) :
  StronglySorted desc l1 -> StronglySorted desc l2 ->
  (forall k, filter (tied k) l1 = filter (tied k) l2) ->
  l1 = l2.
Proof.
  revert l2. induction l1 as [|a t1 IH]; intros [|b t2] H1 H2 Hf.
  - reflexivity.
  - specialize (Hf (key b)). cbn in Hf. unfold tied in Hf.
    rewrite (proj2 (Qeq_bool_iff _ _) (Qeq_refl _)) in Hf. discriminate.
  - specialize (Hf (key a)). cbn in Hf. unfold tied in Hf.
    rewrite (proj2 (Qeq_bool_iff _ _) (Qeq_refl _)) in Hf. discriminate.
  - inversion H1 as [|? ? Ht1 Ha]; inversion H2 as [|? ? Ht2 Hb]; subst.
    assert (Hin : forall (x : A) l l', filter (tied (key x)) l = filter (tied (key x)) l' ->
                                   In x l -> In x l').
    { intros x l l' E Hx.
      assert (Hx' : In x (filter (tied (key x)) l)).
      { apply filter_In. split; [exact Hx|].
        unfold tied. apply Qeq_bool_iff. apply Qeq_refl. }
      rewrite E in Hx'. now apply filter_In in Hx'. }
    assert (Hab : (key a <= key b)%Q).
    { destruct (Hin a _ _ (Hf (key a)) (or_introl eq_refl)) as [->|Hi].
      - apply Qle_refl.
      - rewrite Forall_forall in Hb. now apply Hb. }
    assert (Hba : (key b <= key a)%Q).
    { destruct (Hin b _ _ (eq_sym (Hf (key b))) (or_introl eq_refl)) as [->|Hi].
      - apply Qle_refl.
      - rewrite Forall_forall in Ha. now apply Ha. }
    assert (Eab : (key b == key a)%Q) by now apply Qle_antisym.
    assert (Heq : a = b).
    { specialize (Hf (key a)). cbn in Hf. unfold tied in Hf.
      rewrite (proj2 (Qeq_bool_iff _ _) (Qeq_refl _)) in Hf.
      rewrite (proj2 (Qeq_bool_iff _ _) Eab) in Hf. congruence. }
    subst b. f_equal. apply IH; trivial.
    intros k. specialize (Hf k). cbn in Hf.
    destruct (tied k a); congruence.
Qed.

End SortReverse.

(** ** Per-question statistics *)

Lemma truediv_mean (l : list Z) :
  l <> [] -> truediv (sum l) (List.length l) = Ok (mean l).
Proof. destruct l; [congruence|reflexivity]. Qed.

Lemma dict_map_other_key (d : dict (list Z)) (key : string) (x : Z) :
  ~ In key (map fst d) ->
  map (fun kv : string * list Z =>
         (fst kv, if String.eqb (fst kv) key then snd kv ++ [x] else snd kv)) d
  = d.
Proof.
  induction d as [|[k l] d IH]; intros Hk; [reflexivity|].
  cbn [map fst snd] in *. destruct (String.eqb_spec k key) as [->|_].
  - exfalso. apply Hk. now left.
  - f_equal. apply IH. intros H. apply Hk. now right.
Qed.

Lemma dict_append_map (d : dict (list Z)) (key : string) (x : Z) :
  NoDup (map fst d) ->
  (if dict_has d key then dict_append d key x else d)
  = map (fun kv => (fst kv, if String.eqb (fst kv) key
                            then snd kv ++ [x] else snd kv)) d.
Proof.
  induction d as [|[k l] d IH]; intros Hnd; [reflexivity|].
  inversion Hnd as [|? ? Hk Hd]; subst. specialize (IH Hd).
  unfold dict_has in *. cbn [existsb dict_append map fst snd].
  destruct (String.eqb_spec k key) as [->|Hne]; cbn [orb].
  - f_equal. symmetry. now apply dict_map_other_key.
  - destruct (existsb _ d); rewrite <- IH; reflexivity.
Qed.

Lemma answered_scores_cons (q_num : nat) (r : SurveyResponse) rs :
  answered_scores q_num (r :: rs)
  = (if PyStr.truthy (q_response r q_num)
     then [calculate_likert_score (q_response r q_num)] else [])
    ++ answered_scores q_num rs.
Proof.
  unfold answered_scores. cbn [filter].
  now destruct (PyStr.truthy (q_response r q_num)).
Qed.

Lemma observations_cons (q_num : nat) (rel : string) (r : SurveyResponse) rs :
  observations q_num rel (r :: rs)
  = (if String.eqb (counted_as r) rel && PyStr.truthy (q_response r q_num)
     then [calculate_likert_score (q_response r q_num)] else [])
    ++ observations q_num rel rs.
Proof.
  unfold observations. cbn [filter].
  destruct (String.eqb (counted_as r) rel); [|reflexivity].
  now rewrite answered_scores_cons.
Qed.

(** The loop over the responses, for one question. *)
Lemma collect_scores_fold (q_num : nat) (responses : list SurveyResponse) :
  forall (s : list Z) (d : dict (list Z)),
    NoDup (map fst d) ->
    fold_left (collect_scores q_num) responses (s, d)
    = (s ++ answered_scores q_num responses,
       map (fun kv => (fst kv, snd kv ++ observations q_num (fst kv) responses)) d).
Proof.
  induction responses as [|r rs IH]; intros s d Hnd.
  - cbn. rewrite app_nil_r. f_equal.
    rewrite <- (map_id d) at 1. apply map_ext. intros [k l]. cbn.
    now rewrite app_nil_r.
  - cbn [fold_left]. unfold collect_scores at 2.
    rewrite answered_scores_cons.
    destruct (PyStr.truthy (q_response r q_num)) eqn:Et.
    + fold (counted_as r). rewrite dict_append_map by assumption.
      rewrite IH.
      * rewrite <- app_assoc. f_equal.
        rewrite map_map. apply map_ext. intros [k l]. cbn [fst snd].
        rewrite observations_cons, Et, andb_true_r, (String.eqb_sym (counted_as r)).
        destruct (String.eqb k (counted_as r)); [|reflexivity].
        now rewrite <- app_assoc.
      * rewrite map_map. cbn [fst]. exact Hnd.
    + rewrite IH by assumption. f_equal.
      apply map_ext. intros [k l]. cbn [fst snd].
      now rewrite observations_cons, Et, andb_false_r.
Qed.

Lemma question_stat_entry (responses : list SurveyResponse) (q_num : nat) :
  question_stat responses q_num = Ok (question_entry q_num responses).
Proof.
  unfold question_stat, question_entry.
  rewrite collect_scores_fold
    by (cbn; repeat constructor; cbn; intuition discriminate).
  cbn [app]. destruct (answered_scores q_num responses) as [|x s] eqn:Es;
    [reflexivity|].
  cbn [is_empty negb].
  assert (Hrel : forall cats,
    map_result (fun '(rel, rel_scores) =>
        if negb (is_empty rel_scores)
        then m <- truediv (sum rel_scores) (List.length rel_scores) ;;
             Ok (rel, Some (round2 m))
        else Ok (rel, None : option Q))
      (map (fun kv : string * list Z =>
              (fst kv, snd kv ++ observations q_num (fst kv) responses))
           (map (fun rel => (rel, [])) cats))
    = Ok (map (fun rel => (rel, category_average q_num rel responses)) cats)).
  { induction cats as [|rel cats IHc]; [reflexivity|].
    cbn [map map_result fst snd app]. rewrite IHc. unfold category_average.
    destruct (observations q_num rel responses) as [|o obs]; reflexivity. }
  specialize (Hrel relationship_categories). cbn [map relationship_categories] in Hrel.
  unfold scores_by_relationship_init. cbn [map relationship_categories].
  rewrite Hrel. reflexivity.
Qed.

Lemma question_stats_of_entries (responses : list SurveyResponse) (qs : list nat) :
  question_stats_of responses qs = Ok (question_entries qs responses).
Proof.
  induction qs as [|q qs IH]; [reflexivity|].
  cbn [question_stats_of]. rewrite question_stat_entry, IH. cbn.
  now destruct (question_entry q responses).
Qed.

(** ** Strengths and opportunities *)

Lemma first_occurrences_In (x : string) (l : list string) :
  In x (first_occurrences l) <-> In x l.
Proof.
  induction l as [|y l IH]; [reflexivity|].
  cbn [first_occurrences]. split.
  - intros [->|H]; [now left|]. apply filter_In in H. right. now apply IH.
  - destruct (String.eqb_spec x y) as [->|Hne]; [now left|].
    intros [->|H]; [now left|]. right. apply filter_In. split; [now apply IH|].
    now apply negb_true_iff, String.eqb_neq.
Qed.

Lemma first_occurrences_NoDup (l : list string) : NoDup (first_occurrences l).
Proof.
  induction l as [|y l IH]; cbn [first_occurrences]; constructor.
  - intros H. apply filter_In in H. destruct H as [_ H].
    now rewrite String.eqb_refl in H.
  - now apply NoDup_filter.
Qed.

Lemma first_occurrences_snoc (l : list string) (k : string) :
  first_occurrences (l ++ [k])
  = if existsb (fun y => String.eqb y k) l then first_occurrences l
    else first_occurrences l ++ [k].
Proof.
  induction l as [|x l IH]; [reflexivity|].
  cbn [app first_occurrences existsb]. rewrite IH.
  destruct (String.eqb_spec x k) as [->|Hne]; cbn [orb].
  - destruct (existsb _ l); [reflexivity|].
    rewrite filter_app. cbn [filter]. rewrite String.eqb_refl. cbn.
    now rewrite app_nil_r.
  - destruct (existsb _ l); [reflexivity|].
    rewrite filter_app. cbn [filter].
    destruct (String.eqb_spec k x) as [->|_]; [congruence|]. reflexivity.
Qed.

Lemma existsb_eqb_In (k : string) (l : list string) :
  existsb (fun y => String.eqb y k) l = true <-> In k l.
Proof.
  rewrite existsb_exists. split.
  - intros [y [Hy E]]. apply String.eqb_eq in E. now subst.
  - intros H. exists k. split; [exact H|apply String.eqb_refl].
Qed.

Lemma dict_has_In {V} (d : dict V) (k : string) :
  dict_has d k = true <-> In k (map fst d).
Proof.
  unfold dict_has. rewrite existsb_exists, in_map_iff. split.
  - intros [kv [Hin E]]. apply String.eqb_eq in E. now exists kv.
  - intros [kv [E Hin]]. exists kv. split; [exact Hin|]. now apply String.eqb_eq.
Qed.

Lemma ranks_of_snoc (label k : string) (v : Z) (rows : list (string * Z)) :
  ranks_of label (rows ++ [(k, v)])
  = ranks_of label rows ++ (if String.eqb label k then [v] else []).
Proof.
  unfold ranks_of. rewrite filter_app, map_app. cbn [filter fst].
  rewrite (String.eqb_sym k label). now destruct (String.eqb label k).
Qed.

Lemma ranks_of_absent (label : string) (rows : list (string * Z)) :
  ~ In label (map fst rows) -> ranks_of label rows = [].
Proof.
  unfold ranks_of. induction rows as [|[k v] rows IH]; [reflexivity|].
  cbn [map fst filter]. intros H. destruct (String.eqb_spec k label) as [->|_].
  - exfalso. apply H. now left.
  - apply IH. intros Hi. apply H. now right.
Qed.

Lemma ranks_of_present (label : string) (rows : list (string * Z)) :
  In label (map fst rows) -> ranks_of label rows <> [].
Proof.
  unfold ranks_of. induction rows as [|[k v] rows IH]; [intros []|].
  cbn [map fst filter]. destruct (String.eqb_spec k label) as [->|Hne].
  - discriminate.
  - intros [H|H]; [congruence|]. now apply IH.
Qed.

Lemma dict_append_last (d : dict (list Z)) (k : string) (l : list Z) (v : Z) :
  ~ In k (map fst d) -> dict_append (d ++ [(k, l)]) k v = d ++ [(k, l ++ [v])].
Proof.
  induction d as [|[k' l'] d IH]; cbn [app dict_append map fst]; intros H.
  - now rewrite String.eqb_refl.
  - destruct (String.eqb_spec k' k) as [->|_].
    + exfalso. apply H. now left.
    + f_equal. apply IH. intros Hi. apply H. now right.
Qed.

Lemma ranks_by_label_keys (rows : list (string * Z)) :
  map fst (ranks_by_label rows) = first_occurrences (map fst rows).
Proof.
  unfold ranks_by_label. rewrite map_map. cbn [fst]. apply map_id.
Qed.

(** One more ranking: what the body of the loop does to the dictionary. *)
Lemma dict_setdefault_append_snoc (rows : list (string * Z)) (k : string) (v : Z) :
  dict_setdefault_append (ranks_by_label rows) k v
  = ranks_by_label (rows ++ [(k, v)]).
Proof.
  unfold dict_setdefault_append.
  assert (Hhas : dict_has (ranks_by_label rows) k
                 = existsb (fun y => String.eqb y k) (map fst rows)).
  { apply eq_true_iff_eq.
    rewrite dict_has_In, existsb_eqb_In, ranks_by_label_keys.
    apply first_occurrences_In. }
  unfold ranks_by_label at 4.
  rewrite map_app. cbn [map fst]. rewrite first_occurrences_snoc, <- Hhas.
  destruct (dict_has (ranks_by_label rows) k) eqn:E.
  - pose proof (dict_append_map (ranks_by_label rows) k v) as Hm.
    rewrite E in Hm. rewrite Hm
      by (rewrite ranks_by_label_keys; apply first_occurrences_NoDup).
    unfold ranks_by_label. rewrite map_map. apply map_ext. intros label.
    cbn [fst snd]. rewrite ranks_of_snoc.
    destruct (String.eqb label k); [reflexivity|now rewrite app_nil_r].
  - assert (Hk : ~ In k (map fst rows)).
    { rewrite Hhas in E. intros Hi. apply existsb_eqb_In in Hi. congruence. }
    rewrite dict_append_last
      by (rewrite ranks_by_label_keys, first_occurrences_In; exact Hk).
    rewrite map_app. cbn [map]. f_equal.
    + unfold ranks_by_label. apply map_ext_in. intros label Hl.
      rewrite ranks_of_snoc. destruct (String.eqb_spec label k) as [->|_].
      * exfalso. now apply Hk, first_occurrences_In.
      * now rewrite app_nil_r.
    + rewrite ranks_of_snoc, String.eqb_refl, (ranks_of_absent k rows Hk).
      reflexivity.
Qed.

Lemma setdefault_fold (rows0 rows : list (string * Z)) :
  fold_left (fun d p => dict_setdefault_append d (fst p) (snd p))
            rows (ranks_by_label rows0)
  = ranks_by_label (rows0 ++ rows).
Proof.
  revert rows0. induction rows as [|[k v] rows IH]; intros rows0.
  - now rewrite app_nil_r.
  - cbn [fold_left fst snd]. rewrite dict_setdefault_append_snoc, IH.
    now rewrite <- app_assoc.
Qed.

Lemma fold_left_on_map {A B C} (g : A -> B) (f : C -> B -> C) (l : list A) :
  forall c, fold_left (fun c x => f c (g x)) l c = fold_left f (map g l) c.
Proof. induction l as [|x l IH]; intros c; [reflexivity|apply IH]. Qed.

(** The loop over the responses that fills the two dictionaries. *)
Lemma collect_rankings_fold (responses : list SurveyResponse) :
  forall rows_s rows_o,
    fold_left collect_rankings responses
              (ranks_by_label rows_s, ranks_by_label rows_o)
    = (ranks_by_label (rows_s ++ strength_rows responses),
       ranks_by_label (rows_o ++ opportunity_rows responses)).
Proof.
  induction responses as [|r rs IH]; intros rows_s rows_o.
  - cbn. now rewrite !app_nil_r.
  - cbn [fold_left]. unfold collect_rankings at 2.
    rewrite (fold_left_on_map (fun s => (strength s, s_rank s))
               (fun d p => dict_setdefault_append d (fst p) (snd p))).
    rewrite (fold_left_on_map (fun o => (opportunity o, o_rank o))
               (fun d p => dict_setdefault_append d (fst p) (snd p))).
    rewrite !setdefault_fold, IH.
    unfold strength_rows, opportunity_rows. cbn [flat_map].
    now rewrite <- !app_assoc.
Qed.

Lemma map_result_ok {A B} (f : A -> result B) (g : A -> B) (l : list A) :
  (forall x, In x l -> f x = Ok (g x)) -> map_result f l = Ok (map g l).
Proof.
  induction l as [|x l IH]; intros H; [reflexivity|].
  cbn [map_result map]. rewrite (H x (or_introl eq_refl)). cbn [Py.bind].
  rewrite IH; [reflexivity|]. intros y Hy. apply H. now right.
Qed.

Lemma top_of_ranks_by_label (rows : list (string * Z)) :
  top_of (ranks_by_label rows) = Ok (sort_reverse avg_rank (mean_ranks rows)).
Proof.
  unfold top_of.
  rewrite (map_result_ok _ (fun kv => (fst kv, float_round (mean (snd kv)),
                                       List.length (snd kv)))).
  - cbn [Py.bind]. do 2 f_equal. unfold ranks_by_label, mean_ranks.
    now rewrite map_map.
  - intros [label ranks] Hin. cbn [fst snd].
    unfold ranks_by_label in Hin. apply in_map_iff in Hin.
    destruct Hin as [l [E Hl]]. inversion E; subst.
    apply (proj1 (first_occurrences_In _ _)) in Hl.
    unfold float_truediv. now rewrite truediv_mean by now apply ranks_of_present.
Qed.

(** ** The report as a whole *)

(** [view_report] raises nothing, and its context holds the quantities of
    [ReportSpec]. *)
Lemma view_report_ok (responses : list SurveyResponse) :
  exists c,
    view_report responses = Ok c /\
    question_stats c = question_entries question_numbers responses /\
    top_strengths c
    = firstn 10 (sort_reverse avg_rank (mean_ranks (strength_rows responses))) /\
    top_opportunities c
    = firstn 10 (sort_reverse avg_rank (mean_ranks (opportunity_rows responses))) /\
    overall_average c
    = match all_answered_scores responses with
      | [] => 0%Q
      | l => round2 (mean l)
      end.
Proof.
  unfold view_report.
  rewrite question_stats_of_entries. cbn [Py.bind].
  pose proof (collect_rankings_fold responses [] []) as Hf.
  change (ranks_by_label []) with (@nil (string * list Z)) in Hf.
  unfold dict in Hf |- *. rewrite Hf. cbn [app]. rewrite !top_of_ranks_by_label. cbn [Py.bind].
  fold (all_answered_scores responses).
  destruct (all_answered_scores responses) as [|x l] eqn:E;
    cbn [is_empty negb Py.bind truediv List.length];
    eexists; repeat split; reflexivity.
Qed.

Lemma sort_reverse_top_ten (rows : list (string * Z)) :
  top_ten_by_mean_rank rows
    (firstn 10 (sort_reverse avg_rank (mean_ranks rows))).
Proof.
  exists (sort_reverse avg_rank (mean_ranks rows)). repeat split.
  - apply sort_reverse_perm.
  - apply sort_reverse_sorted.
  - intros k. apply sort_reverse_ties.
Qed.

(** The report is determined by [top_ten_by_mean_rank]. *)
Lemma top_ten_by_mean_rank_unique (rows : list (string * Z)) (top1 top2 : list ranked) :
  top_ten_by_mean_rank rows top1 -> top_ten_by_mean_rank rows top2 -> top1 = top2.
Proof.
  intros [s1 [_ [Hd1 [Ht1 ->]]]] [s2 [_ [Hd2 [Ht2 ->]]]]. f_equal.
  apply (stable_sort_unique avg_rank); trivial.
  intros k. now rewrite (Ht1 k), (Ht2 k).
Qed.

(** The entries of [mean_ranks] are those of the distinct labels. *)
Lemma mean_ranks_labels (rows : list (string * Z)) :
  map ranked_label (mean_ranks rows) = first_occurrences (map fst rows) /\
  NoDup (map ranked_label (mean_ranks rows)) /\
  forall label, In label (map ranked_label (mean_ranks rows))
                <-> In label (map fst rows).
Proof.
  assert (E : map ranked_label (mean_ranks rows) = first_occurrences (map fst rows)).
  { unfold mean_ranks. rewrite map_map. apply map_id. }
  rewrite E. split; [reflexivity|]. split.
  - apply first_occurrences_NoDup.
  - intros label. apply first_occurrences_In.
Qed.

(** C2. For strengths and for opportunities, the report holds one entry per
    distinct label with the mean of the ranks given to it, which is the
    float nearest to their arithmetic mean, sorted by decreasing mean rank,
    entries of equal mean rank in the order of first encounter, cut after the
    tenth entry.  The order is that of the floats: two arithmetic means that
    round to one float are a tie. *)
Theorem view_report_top_rankings (responses : list SurveyResponse) :
  exists c,
    view_report responses = Ok c /\
    top_ten_by_mean_rank (strength_rows responses) (top_strengths c) /\
    top_ten_by_mean_rank (opportunity_rows responses) (top_opportunities c) /\
    (List.length (top_strengths c) <= 10)%nat /\
    (List.length (top_opportunities c) <= 10)%nat.
Proof.
  destruct (view_report_ok responses) as [c [Hc [_ [Hs [Ho _]]]]].
  exists c. split; [exact Hc|]. rewrite Hs, Ho.
  repeat split; try apply sort_reverse_top_ten; apply firstn_le_length.
Qed.

(** Two labels whose ranks, 2^53 and 2^53 + 1, have one float for their
    means stay in the order of first encounter, before the label of rank 1;
    of the ranks 3, 5 and 4 the greatest comes first. *)
Lemma view_report_top_rankings_witness :
  exists c,
    view_report responses_close_ranks = Ok c /\
    top_ten_by_mean_rank (strength_rows responses_close_ranks) (top_strengths c) /\
    top_ten_by_mean_rank (opportunity_rows responses_close_ranks)
                         (top_opportunities c) /\
    map ranked_label (top_strengths c) = ["first"; "second"; "third"] /\
    map ranked_label (top_opportunities c) = ["second"; "third"; "first"].
Proof.
  destruct (view_report_top_rankings responses_close_ranks)
    as [c [Hc [Hs [Ho _]]]].
  exists c. split; [exact Hc|]. split; [exact Hs|]. split; [exact Ho|].
  assert (E : option_map (fun c' => (map ranked_label (top_strengths c'),
                                     map ranked_label (top_opportunities c')))
                (match view_report responses_close_ranks with
                 | Ok c' => Some c'
                 | Raise _ => None
                 end)
              = Some (["first"; "second"; "third"], ["second"; "third"; "first"]))
    by (vm_compute; reflexivity).
  rewrite Hc in E. cbn [option_map] in E. injection E as E1 E2. now split.
Defined.

Lemma question_entries_In (qs : list nat) (responses : list SurveyResponse)
      (q_num : nat) (st : QuestionStat) :
  In (q_num, st) (question_entries qs responses)
  <-> In q_num qs /\ question_entry q_num responses = Some st.
Proof.
  unfold question_entries. rewrite in_flat_map. split.
  - intros [q [Hq Hin]]. destruct (question_entry q responses) eqn:E; [|destruct Hin].
    destruct Hin as [Hin|[]]. inversion Hin; subst. now split.
  - intros [Hq E]. exists q_num. split; [exact Hq|]. rewrite E. now left.
Qed.

Lemma question_entry_Some (q_num : nat) (responses : list SurveyResponse)
      (st : QuestionStat) :
  question_entry q_num responses = Some st ->
  answered_scores q_num responses <> [] /\
  scores st = answered_scores q_num responses /\
  average st = round2 (mean (answered_scores q_num responses)) /\
  by_relationship st
  = map (fun rel => (rel, category_average q_num rel responses))
        relationship_categories.
Proof.
  unfold question_entry.
  destruct (answered_scores q_num responses) as [|x s]; [discriminate|].
  intros E. inversion E; subst. cbn. repeat split. discriminate.
Qed.

(** C4. The report of any set of responses is computed without an
    exception, a division by zero in particular; the empty set of responses
    gives no per-question entry at all, and a question has an entry only
    when some response answers it; within an entry, the average of a
    relationship category is [None], and not a number, exactly when the
    category has no observation. *)
Theorem view_report_absent_statistics (responses : list SurveyResponse) :
  exists c,
    view_report responses = Ok c /\
    (responses = [] -> question_stats c = []) /\
    (forall q_num,
       In q_num (map fst (question_stats c))
       <-> In q_num question_numbers /\ answered_scores q_num responses <> []) /\
    (forall q_num st,
       In (q_num, st) (question_stats c) ->
       by_relationship st
       = map (fun rel => (rel, category_average q_num rel responses))
             relationship_categories) /\
    (forall q_num rel,
       category_average q_num rel responses = None
       <-> observations q_num rel responses = []).
Proof.
  destruct (view_report_ok responses) as [c [Hc [Hq _]]].
  exists c. split; [exact Hc|]. rewrite Hq. repeat split.
  - intros ->. reflexivity.
  - apply in_map_iff in H. destruct H as [[q st] [E Hin]]. cbn in E. subst q.
    now apply question_entries_In in Hin.
  - apply in_map_iff in H. destruct H as [[q st] [E Hin]]. cbn in E. subst q.
    apply question_entries_In in Hin. destruct Hin as [_ Hin].
    now apply question_entry_Some in Hin.
  - intros [Hq' Hne]. apply in_map_iff.
    destruct (question_entry q_num responses) as [st|] eqn:E.
    + exists (q_num, st). split; [reflexivity|]. now apply question_entries_In.
    + exfalso. unfold question_entry in E.
      destruct (answered_scores q_num responses); [congruence|discriminate].
  - intros q_num st Hin. apply question_entries_In in Hin.
    destruct Hin as [_ Hin]. now apply question_entry_Some in Hin.
  - unfold category_average.
    destruct (observations q_num rel responses); congruence.
  - unfold category_average. intros ->. reflexivity.
Qed.

Lemma view_report_absent_statistics_witness :
  exists c, view_report [] = Ok c /\ question_stats c = [].
Proof.
  destruct (view_report_absent_statistics []) as [c [Hc [He _]]].
  exists c. split; [exact Hc|exact (He eq_refl)].
Defined.

(** ** Averages of constant answers *)

Lemma sum_constant (z : Z) (l : list Z) :
  Forall (eq z) l -> sum l = (z * Z.of_nat (List.length l))%Z.
Proof.
  unfold sum. intros H.
  assert (G : forall a, fold_left Z.add l a = (a + z * Z.of_nat (List.length l))%Z).
  { induction H as [|x l Hx Hl IH]; intros a; cbn [fold_left List.length].
    - lia.
    - rewrite IH. subst x. lia. }
  rewrite G. lia.
Qed.

Lemma mean_constant (z : Z) (l : list Z) :
  l <> [] -> Forall (eq z) l -> (mean l == inject_Z z)%Q.
Proof.
  intros Hne H. unfold mean. rewrite (sum_constant z l H).
  destruct l as [|x l]; [congruence|]. cbn [List.length].
  unfold Qeq, inject_Z. cbn [Qnum Qden].
  rewrite <- Pos.of_nat_succ, Zpos_P_of_succ_nat, <- Nat2Z.inj_succ. lia.
Qed.

(** Rounding leaves an integer alone. *)
Lemma round2_integer (z : Z) (x : Q) :
  (x == inject_Z z)%Q -> (round2 x == inject_Z z)%Q.
Proof.
  destruct x as [a b]. unfold Qeq, inject_Z. cbn [Qnum Qden]. intros E.
  unfold round2, round_half_even, Qmult. cbn [Qnum Qden].
  rewrite Pos.mul_1_r.
  assert (Ea : (a * 100 = (z * 100) * Zpos b)%Z) by lia.
  rewrite Ea, Z.div_mul, Z.mod_mul by discriminate.
  cbn [Z.mul Z.compare]. lia.
Qed.

Lemma answered_scores_all_meets (responses : list SurveyResponse) (q_num : nat) :
  all_meets responses -> In q_num question_numbers ->
  answered_scores q_num responses = map (fun _ => 4%Z) responses.
Proof.
  intros Hall Hq. induction responses as [|r rs IH]; [reflexivity|].
  rewrite answered_scores_cons, (Hall r (or_introl eq_refl) q_num Hq).
  cbn. f_equal. apply IH. intros r' Hr'. apply Hall. now right.
Qed.

Lemma Forall_constant_map {A} (z : Z) (l : list A) :
  Forall (eq z) (map (fun _ => z) l).
Proof. induction l; constructor; auto. Qed.

(** With every answer at 'meets', every question has an entry, of average
    4 and of scores all equal to 4. *)
Lemma question_entries_all_meets (responses : list SurveyResponse) (qs : list nat) :
  responses <> [] -> all_meets responses -> incl qs question_numbers ->
  map fst (question_entries qs responses) = qs /\
  Forall (fun qs => (average (snd qs) == 4)%Q) (question_entries qs responses) /\
  Forall (eq 4%Z) (flat_map (fun qs => scores (snd qs)) (question_entries qs responses)) /\
  (qs <> [] -> flat_map (fun qs => scores (snd qs)) (question_entries qs responses) <> []).
Proof.
  intros Hne Hall. induction qs as [|q qs IH]; intros Hincl.
  - cbn. repeat split; try constructor. congruence.
  - destruct IH as [IH1 [IH2 [IH3 _]]].
    { intros x Hx. apply Hincl. now right. }
    assert (Hq : In q question_numbers) by (apply Hincl; now left).
    pose proof (answered_scores_all_meets responses q Hall Hq) as Ea.
    assert (Hs : answered_scores q responses <> []).
    { rewrite Ea. destruct responses; [congruence|discriminate]. }
    unfold question_entries in *. cbn [flat_map].
    unfold question_entry at 1 3 5 7.
    destruct (answered_scores q responses) as [|x s] eqn:Es; [congruence|].
    cbn [app map fst snd flat_map scores]. repeat split.
    + now rewrite IH1.
    + constructor; [|exact IH2]. cbn [snd average].
      apply (round2_integer 4). apply mean_constant; [discriminate|].
      rewrite Ea. apply Forall_constant_map.
    + rewrite app_comm_cons. apply Forall_app. split; [|exact IH3].
      rewrite Ea. apply Forall_constant_map.
    + discriminate.
Qed.

(** C1.  When every response of a set of responses answers every question
    with 'meets', each of the 54 questions has an entry whose average is 4,
    and the overall average is 4. *)
Theorem view_report_all_meets (responses : list SurveyResponse) :
  responses <> [] -> all_meets responses ->
  exists c,
    view_report responses = Ok c /\
    map fst (question_stats c) = question_numbers /\
    Forall (fun qs => (average (snd qs) == 4)%Q) (question_stats c) /\
    (overall_average c == 4)%Q.
Proof.
  intros Hne Hall.
  destruct (view_report_ok responses) as [c [Hc [Hq [_ [_ Ho]]]]].
  destruct (question_entries_all_meets responses question_numbers Hne Hall
              (incl_refl _)) as [H1 [H2 [H3 H4]]].
  exists c. rewrite Hq, Ho. repeat split; trivial.
  unfold all_answered_scores.
  destruct (flat_map _ (question_entries question_numbers responses))
    as [|x l] eqn:E.
  - exfalso. apply H4; [discriminate|reflexivity].
  - apply (round2_integer 4). apply mean_constant; [discriminate|exact H3].
Qed.

Lemma view_report_all_meets_witness :
  exists c,
    view_report [response_all_meets] = Ok c /\
    map fst (question_stats c) = question_numbers /\
    Forall (fun qs => (average (snd qs) == 4)%Q) (question_stats c) /\
    (overall_average c == 4)%Q.
Proof.
  apply (view_report_all_meets [response_all_meets]).
  - discriminate.
  - intros r [<-|[]] q_num _. reflexivity.
Defined.

(** The survey without responses, which has no answer at all: no question
    has an average, and the overall average is shown as 0. *)
Lemma view_report_no_response_average :
  all_meets [] /\
  exists c, view_report [] = Ok c /\
            question_stats c = [] /\
            overall_average c = 0%Q /\
            ~ (overall_average c == 4)%Q.
Proof.
  split; [intros r []|].
  destruct (view_report_ok []) as [c [Hc [Hq [_ [_ Ho]]]]].
  exists c. split; [exact Hc|].
  change (all_answered_scores []) with (@nil Z) in Ho.
  rewrite Hq, Ho. repeat split. discriminate.
Qed.

(** ** Validation of the rankings of a submission *)

Lemma strengths_cleaned_cases (post : PostData) :
  (strengths_cleaned post = Ok (post_strengths post) /\
   List.length (post_strengths post) = 5%nat) \/
  (exists message, strengths_cleaned post = Raise (ValidationError message) /\
                   (List.length (post_strengths post) = 5%nat ->
                    message <> "Please select exactly 5 strengths.")).
Proof.
  unfold strengths_cleaned, multiple_choice_field_clean.
  destruct (post_strengths post) as [|x l] eqn:E.
  - right. eexists. split; [reflexivity|]. discriminate.
  - destruct (find _ (x :: l)) as [v|].
    + right. eexists. split; [reflexivity|]. intros _. discriminate.
    + cbn [Py.bind]. unfold clean_strengths.
      destruct (List.length (x :: l) =? 5)%nat eqn:El; cbn [negb].
      * left. split; [reflexivity|]. now apply Nat.eqb_eq.
      * right. eexists. split; [reflexivity|]. intros H.
        apply Nat.eqb_neq in El. congruence.
Qed.

Lemma opportunities_cleaned_cases (post : PostData) :
  (opportunities_cleaned post = Ok (post_opportunities post) /\
   List.length (post_opportunities post) = 5%nat) \/
  (exists message, opportunities_cleaned post = Raise (ValidationError message) /\
                   (List.length (post_opportunities post) = 5%nat ->
                    message
                    <> "Please select exactly 5 opportunities for improvement.")).
Proof.
  unfold opportunities_cleaned, multiple_choice_field_clean.
  destruct (post_opportunities post) as [|x l] eqn:E.
  - right. eexists. split; [reflexivity|]. discriminate.
  - destruct (find _ (x :: l)) as [v|].
    + right. eexists. split; [reflexivity|]. intros _. discriminate.
    + cbn [Py.bind]. unfold clean_opportunities.
      destruct (List.length (x :: l) =? 5)%nat eqn:El; cbn [negb].
      * left. split; [reflexivity|]. now apply Nat.eqb_eq.
      * right. eexists. split; [reflexivity|]. intros H.
        apply Nat.eqb_neq in El. congruence.
Qed.

Lemma form_is_valid_nil (errors : form_errors) :
  form_is_valid errors = true <-> errors = [].
Proof. destruct errors; cbn; split; congruence. Qed.

(** The errors of the two ranking fields are errors of both forms. *)
Lemma ranking_errors_in_forms (post : PostData) (e : string * string) :
  In e (field_errors "strengths" (strengths_cleaned post)) \/
  In e (field_errors "opportunities" (opportunities_cleaned post)) ->
  In e (SurveyResponseForm_errors post) /\
  In e (LeaderSelfAssessmentForm_errors post).
Proof.
  unfold SurveyResponseForm_errors, LeaderSelfAssessmentForm_errors, common_errors.
  rewrite !in_app_iff. tauto.
Qed.

(** A form that is not valid changes nothing in the tables. *)
Lemma participant_survey_view_invalid (post : PostData) (t : string)
      (now : datetime) (db : DB) :
  form_is_valid (SurveyResponseForm_errors post) = false ->
  snd (participant_survey_view (POST post) t now db) = db.
Proof.
  intros H. unfold participant_survey_view.
  destruct (get_invitation t db) as [inv|]; [|reflexivity].
  destruct (used inv || is_expired now inv); [reflexivity|].
  now rewrite H.
Qed.

Lemma leader_self_assessment_view_invalid (post : PostData) (t : string) (db : DB) :
  form_is_valid (LeaderSelfAssessmentForm_errors post) = false ->
  snd (leader_self_assessment_view (POST post) t db) = db.
Proof.
  intros H. unfold leader_self_assessment_view.
  destruct (get_survey t db) as [sv|]; [|reflexivity].
  destruct (leader_completed_self sv); [reflexivity|].
  now rewrite H.
Qed.

(** C7. Both survey forms are valid only with exactly 5 strengths and
    exactly 5 opportunities selected.  With another number of either, 4 and
    6 included, the field carries an error, the form is not valid, and the
    handler that receives the submission leaves the tables as they are: no
    response is created. *)
Theorem exactly_five_rankings_required (post : PostData) :
  (form_is_valid (SurveyResponseForm_errors post) = true \/
   form_is_valid (LeaderSelfAssessmentForm_errors post) = true ->
   List.length (post_strengths post) = 5%nat /\
   List.length (post_opportunities post) = 5%nat) /\
  (List.length (post_strengths post) <> 5%nat ->
   exists message,
     In ("strengths", message) (SurveyResponseForm_errors post) /\
     In ("strengths", message) (LeaderSelfAssessmentForm_errors post)) /\
  (List.length (post_opportunities post) <> 5%nat ->
   exists message,
     In ("opportunities", message) (SurveyResponseForm_errors post) /\
     In ("opportunities", message) (LeaderSelfAssessmentForm_errors post)) /\
  (List.length (post_strengths post) <> 5%nat \/
   List.length (post_opportunities post) <> 5%nat ->
   form_is_valid (SurveyResponseForm_errors post) = false /\
   form_is_valid (LeaderSelfAssessmentForm_errors post) = false /\
   forall (t : string) (now : datetime) (db : DB),
     snd (participant_survey_view (POST post) t now db) = db /\
     snd (leader_self_assessment_view (POST post) t db) = db).
Proof.
  assert (Hs : List.length (post_strengths post) <> 5%nat ->
               exists message,
                 In ("strengths", message) (SurveyResponseForm_errors post) /\
                 In ("strengths", message) (LeaderSelfAssessmentForm_errors post)).
  { intros Hn. destruct (strengths_cleaned_cases post) as [[_ H]|[m [E _]]];
      [congruence|].
    exists m. apply ranking_errors_in_forms. left. rewrite E. now left. }
  assert (Ho : List.length (post_opportunities post) <> 5%nat ->
               exists message,
                 In ("opportunities", message) (SurveyResponseForm_errors post) /\
                 In ("opportunities", message) (LeaderSelfAssessmentForm_errors post)).
  { intros Hn. destruct (opportunities_cleaned_cases post) as [[_ H]|[m [E _]]];
      [congruence|].
    exists m. apply ranking_errors_in_forms. right. rewrite E. now left. }
  assert (Hinv : List.length (post_strengths post) <> 5%nat \/
                 List.length (post_opportunities post) <> 5%nat ->
                 form_is_valid (SurveyResponseForm_errors post) = false /\
                 form_is_valid (LeaderSelfAssessmentForm_errors post) = false).
  { intros [Hn|Hn]; [destruct (Hs Hn) as [m [H1 H2]]|destruct (Ho Hn) as [m [H1 H2]]];
      split;
      match goal with
      | H : In _ ?l |- form_is_valid ?l = false =>
          destruct l; [destruct H|reflexivity]
      end. }
  split; [|split; [exact Hs|split; [exact Ho|]]].
  - intros Hv.
    destruct (Nat.eq_dec (List.length (post_strengths post)) 5) as [E1|N1];
      [destruct (Nat.eq_dec (List.length (post_opportunities post)) 5) as [E2|N2]|].
    + now split.
    + destruct (Hinv (or_intror N2)) as [H1 H2]. destruct Hv; congruence.
    + destruct (Hinv (or_introl N1)) as [H1 H2]. destruct Hv; congruence.
  - intros Hn. destruct (Hinv Hn) as [H1 H2]. repeat split; trivial.
    + now apply participant_survey_view_invalid.
    + now apply leader_self_assessment_view_invalid.
Qed.

(** ** Validation of the invitation list *)

Lemma split_unfold (c : ascii) (s : string) :
  PyStr.split c s
  = up_to c s :: match after_first c s with
                 | Some post => PyStr.split c post
                 | None => []
                 end.
Proof.
  induction s as [|d s IH]; [reflexivity|].
  cbn [PyStr.split up_to after_first].
  destruct (Ascii.eqb d c); [reflexivity|]. now rewrite IH.
Qed.

Lemma contains_after_first (c : ascii) (s : string) :
  PyStr.contains c s
  = match after_first c s with Some _ => true | None => false end.
Proof.
  induction s as [|d s IH]; [reflexivity|].
  cbn [PyStr.contains after_first]. now destruct (Ascii.eqb d c).
Qed.

Lemma getitem_second {A} (x y : A) (l : list A) : getitem (x :: y :: l) 1 = Ok y.
Proof.
  unfold getitem. cbn [Z.ltb Z.compare List.length].
  destruct (Z.of_nat (S (S (List.length l))) <=? 1)%Z eqn:E.
  - apply Z.leb_le in E. lia.
  - reflexivity.
Qed.

(** The test of [clean_emails] raises nothing and rejects what [accepts]
    does not accept. *)
Lemma is_invalid_email_accepts (email : string) :
  is_invalid_email email = Ok (negb (accepts email)).
Proof.
  unfold is_invalid_email, accepts.
  rewrite contains_after_first, (split_unfold "@" email).
  destruct (after_first "@" email) as [post|]; [|reflexivity].
  cbn [negb]. rewrite (split_unfold "@" post), getitem_second. reflexivity.
Qed.

Lemma clean_emails_loop (lines : list string) :
  forall emails,
    for_each clean_emails_line lines emails
    = match find (fun e => negb (accepts e))
                 (filter PyStr.truthy (map PyStr.strip lines)) with
      | Some e =>
          Raise (ValidationError (String.append "Invalid email address: " e))
      | None =>
          Ok (emails ++ map PyStr.lower
                          (filter PyStr.truthy (map PyStr.strip lines)))
      end.
Proof.
  induction lines as [|line lines IH]; intros emails.
  - cbn. now rewrite app_nil_r.
  - cbn [for_each map filter]. unfold clean_emails_line at 1.
    destruct (PyStr.truthy (PyStr.strip line)); cbn [Py.bind].
    + rewrite is_invalid_email_accepts. cbn [Py.bind find].
      destruct (negb (accepts (PyStr.strip line))); [reflexivity|].
      cbn [Py.bind]. rewrite IH.
      destruct (find _ _); [reflexivity|]. cbn [map].
      now rewrite <- app_assoc.
    + apply IH.
Qed.

(** The outcome of [clean_emails] in terms of the candidate lines. *)
Lemma clean_emails_cases (emails_text : string) :
  clean_emails emails_text
  = match find (fun e => negb (accepts e)) (candidate_lines emails_text) with
    | Some e => Raise (ValidationError (String.append "Invalid email address: " e))
    | None =>
        match candidate_lines emails_text with
        | [] => Raise (ValidationError "Please enter at least one email address")
        | lines => Ok (map PyStr.lower lines)
        end
    end.
Proof.
  unfold clean_emails, candidate_lines. rewrite clean_emails_loop.
  destruct (find _ _); [reflexivity|]. cbn [Py.bind app].
  destruct (filter PyStr.truthy _); reflexivity.
Qed.

Lemma after_first_split (c : ascii) (s post : string) :
  after_first c s = Some post ->
  exists pre, s = String.append pre (String c post) /\ PyStr.contains c pre = false.
Proof.
  revert post. induction s as [|d s IH]; intros post; [discriminate|].
  cbn [after_first]. destruct (Ascii.eqb_spec d c) as [->|Hne].
  - intros E. inversion E; subst. now exists EmptyString.
  - intros E. destruct (IH post E) as [pre [-> Hpre]].
    exists (String d pre). split; [reflexivity|].
    cbn [PyStr.contains]. rewrite Hpre.
    destruct (Ascii.eqb_spec d c); [contradiction|reflexivity].
Qed.

Lemma after_first_app (c : ascii) (pre post : string) :
  PyStr.contains c pre = false ->
  after_first c (String.append pre (String c post)) = Some post.
Proof.
  induction pre as [|d pre IH]; cbn [String.append after_first PyStr.contains].
  - now rewrite Ascii.eqb_refl.
  - destruct (Ascii.eqb d c); [discriminate|]. exact IH.
Qed.

(** A text is what precedes its first [c], followed by nothing or by [c]
    and the rest. *)
Lemma up_to_split (c : ascii) (s : string) :
  PyStr.contains c (up_to c s) = false /\
  exists rest, s = String.append (up_to c s) rest /\
               (rest = EmptyString \/ exists r, rest = String c r).
Proof.
  induction s as [|d s [IH1 [rest [IH2 IH3]]]].
  - split; [reflexivity|]. exists EmptyString. split; [reflexivity|now left].
  - cbn [up_to]. destruct (Ascii.eqb_spec d c) as [->|Hne].
    + split; [reflexivity|]. exists (String c s). split; [reflexivity|].
      right. now exists s.
    + split.
      * cbn [PyStr.contains]. rewrite IH1.
        destruct (Ascii.eqb_spec d c); [contradiction|reflexivity].
      * exists rest. split; [|exact IH3]. cbn [String.append]. now rewrite <- IH2.
Qed.

Lemma up_to_app (c : ascii) (seg rest : string) :
  PyStr.contains c seg = false ->
  rest = EmptyString \/ (exists r, rest = String c r) ->
  up_to c (String.append seg rest) = seg.
Proof.
  intros Hseg Hrest. induction seg as [|d seg IH]; cbn [String.append up_to].
  - destruct Hrest as [->|[r ->]]; [reflexivity|].
    cbn [up_to]. now rewrite Ascii.eqb_refl.
  - cbn [PyStr.contains] in Hseg. destruct (Ascii.eqb d c); [discriminate|].
    now rewrite IH.
Qed.

(** C8, as the code has it.  Blank lines are skipped.  The first line that
    is not blank and whose stripped text is not accepted rejects the form,
    with an error that names this text.  Without any line left the form is
    rejected as well; otherwise the field cleans to the accepted texts in
    lower case.  A text is accepted exactly when it has an '@' and a '.'
    between its first '@' and the next '@' or its end. *)
Theorem clean_emails_outcome (emails_text : string) :
  clean_emails emails_text
  = match find (fun e => negb (accepts e)) (candidate_lines emails_text) with
    | Some e => Raise (ValidationError (String.append "Invalid email address: " e))
    | None =>
        match candidate_lines emails_text with
        | [] => Raise (ValidationError "Please enter at least one email address")
        | lines => Ok (map PyStr.lower lines)
        end
    end /\
  forall email,
    accepts email = true <->
    exists pre seg rest,
      email = String.append pre (String "@" (String.append seg rest)) /\
      PyStr.contains "@" pre = false /\
      PyStr.contains "@" seg = false /\
      (rest = EmptyString \/ exists r, rest = String "@" r) /\
      PyStr.contains "." seg = true.
Proof.
  split; [apply clean_emails_cases|].
  intros email. unfold accepts. split.
  - destruct (after_first "@" email) as [post|] eqn:E; [|discriminate].
    intros Hdot. destruct (after_first_split _ _ _ E) as [pre [-> Hpre]].
    destruct (up_to_split "@" post) as [Hseg [rest [Hpost Hrest]]].
    exists pre, (up_to "@" post), rest. rewrite <- Hpost. now repeat split.
  - intros [pre [seg [rest [-> [Hpre [Hseg [Hrest Hdot]]]]]]].
    rewrite (after_first_app _ _ _ Hpre), (up_to_app _ _ _ Hseg Hrest).
    exact Hdot.
Qed.

(** C8, as stated, fails on a second '@': the address has an '@' and a '.'
    after it, and the form is rejected for it.  It fails on blank lines as
    well: a blank line has no '@', and the form is accepted with it. *)
Lemma clean_emails_second_at :
  at_then_dot "a@b@c.d" /\
  clean_emails "a@b@c.d"
  = Raise (ValidationError "Invalid email address: a@b@c.d") /\
  ~ at_then_dot "  " /\
  clean_emails (String.append "a@b.c" (String "010" "  ")) = Ok ["a@b.c"].
Proof.
  split; [|split; [|split]].
  - exists "a", "b@c.d". split; reflexivity.
  - reflexivity.
  - intros [pre [post [E _]]].
    destruct pre as [|c1 [|c2 [|c3 pre]]]; cbn in E; try discriminate.
  - reflexivity.
Qed.

Lemma exactly_five_rankings_required_witness :
  form_is_valid (SurveyResponseForm_errors post_four_strengths) = false /\
  exists message,
    In ("strengths", message) (SurveyResponseForm_errors post_four_strengths).
Proof.
  pose proof (exactly_five_rankings_required post_four_strengths)
    as [_ [Hs [_ Hv]]].
  assert (Hn : List.length (post_strengths post_four_strengths) <> 5%nat)
    by (cbn; lia).
  split.
  - exact (proj1 (Hv (or_introl Hn))).
  - destruct (Hs Hn) as [message [H _]]. now exists message.
Defined.

(** ** The tables under the handlers *)

Lemma only_rankings_refl (db : DB) : only_rankings db db.
Proof. now repeat split. Qed.

Lemma only_rankings_trans (db1 db2 db3 : DB) :
  only_rankings db1 db2 -> only_rankings db2 db3 -> only_rankings db1 db3.
Proof. unfold only_rankings. intros [? [? ?]] [? [? ?]]. repeat split; congruence. Qed.

Lemma update_response_only_rankings (rid : nat) f (db : DB) :
  only_rankings db (update_response rid f db).
Proof. unfold only_rankings. cbn. now rewrite length_map. Qed.

Lemma create_strength_ranking_only (rid : nat) (text : string) (rank : Z)
      (db db' : DB) :
  create_strength_ranking rid text rank db = Ok db' -> only_rankings db db'.
Proof.
  unfold create_strength_ranking.
  destruct (negb (fits_integer_column rank)); [discriminate|].
  destruct (get_response rid db); [|discriminate].
  destruct (existsb _ _); [discriminate|]. intros E. inversion E.
  apply update_response_only_rankings.
Qed.

Lemma create_opportunity_ranking_only (rid : nat) (text : string) (rank : Z)
      (db db' : DB) :
  create_opportunity_ranking rid text rank db = Ok db' -> only_rankings db db'.
Proof.
  unfold create_opportunity_ranking.
  destruct (negb (fits_integer_column rank)); [discriminate|].
  destruct (get_response rid db); [|discriminate].
  destruct (existsb _ _); [discriminate|]. intros E. inversion E.
  apply update_response_only_rankings.
Qed.

(** One iteration of a ranking loop: the creation is the last thing it
    does. *)
Ltac ranking_loop IH :=
  match goal with
  | |- only_rankings ?db (snd match ?body with _ => _ end) =>
      let E := fresh "E" in
      destruct body as [db'|e] eqn:E;
      [ eapply only_rankings_trans; [|apply IH];
        repeat match type of E with
               | Py.bind ?m _ = Ok _ =>
                   destruct m; cbn [Py.bind] in E; [|discriminate E]
               end;
        first [ eapply create_strength_ranking_only; exact E
              | eapply create_opportunity_ranking_only; exact E ]
      | apply only_rankings_refl ]
  end.

Lemma save_strength_rankings_only (post : PostData) (rid : nat)
      (strengths : list string) :
  forall i db, only_rankings db (snd (save_strength_rankings post rid i strengths db)).
Proof.
  induction strengths as [|x l IH]; intros i db; cbn [save_strength_rankings].
  - apply only_rankings_refl.
  - ranking_loop IH.
Qed.

Lemma save_opportunity_rankings_only (post : PostData) (rid : nat)
      (opportunities : list string) :
  forall i db,
    only_rankings db (snd (save_opportunity_rankings post rid i opportunities db)).
Proof.
  induction opportunities as [|x l IH]; intros i db; cbn [save_opportunity_rankings].
  - apply only_rankings_refl.
  - ranking_loop IH.
Qed.

Lemma api_save_strengths_only (rid : nat) (l : list ApiRanking) :
  forall db, only_rankings db (snd (api_save_strengths rid l db)).
Proof.
  induction l as [|x l IH]; intros db; cbn [api_save_strengths].
  - apply only_rankings_refl.
  - ranking_loop IH.
Qed.

Lemma api_save_opportunities_only (rid : nat) (l : list ApiRanking) :
  forall db, only_rankings db (snd (api_save_opportunities rid l db)).
Proof.
  induction l as [|x l IH]; intros db; cbn [api_save_opportunities].
  - apply only_rankings_refl.
  - ranking_loop IH.
Qed.

(** ** Invitations under the handlers *)

Lemma list_max_fresh (l : list nat) : ~ In (next_id l) l.
Proof.
  unfold next_id. intros H.
  assert (Hle : Forall (fun k => k <= list_max l)%nat l)
    by now apply list_max_le.
  rewrite Forall_forall in Hle. apply Hle in H. lia.
Qed.

Lemma rows_evolve_refl (l : list SurveyInvitation) : Forall2 row_evolves l l.
Proof. induction l; constructor; auto. now repeat split. Qed.

Lemma evolves_refl (db : DB) : evolves db db.
Proof.
  exists (invitations db), []. rewrite app_nil_r. repeat split.
  - apply rows_evolve_refl.
  - constructor.
  - constructor.
Qed.

Lemma evolves_same_invitations (db db' : DB) :
  invitations db' = invitations db -> evolves db db'.
Proof.
  intros E. destruct (evolves_refl db) as [rows [new H]].
  exists rows, new. now rewrite E.
Qed.

Lemma row_evolves_ids (l rows : list SurveyInvitation) :
  Forall2 row_evolves l rows -> map inv_id rows = map inv_id l.
Proof.
  induction 1 as [|i i' l rows [Hid _] _ IH]; [reflexivity|].
  cbn. now rewrite Hid, IH.
Qed.

Lemma evolves_well_formed (db db' : DB) :
  well_formed db -> evolves db db' -> well_formed db'.
Proof.
  unfold well_formed. intros Hwf [rows [new [E [Hrows [Hfresh Hnd]]]]].
  rewrite E, map_app, (row_evolves_ids _ _ Hrows).
  apply NoDup_app; trivial.
  intros id Hin Hnew. apply in_map_iff in Hnew. destruct Hnew as [i [<- Hi]].
  rewrite Forall_forall in Hfresh. now apply (Hfresh i Hi).
Qed.

Lemma find_row_evolves (t : string) (l rows new : list SurveyInvitation)
      (inv : SurveyInvitation) :
  Forall2 row_evolves l rows ->
  find (fun i => String.eqb (token i) t) l = Some inv ->
  exists inv', find (fun i => String.eqb (token i) t) (rows ++ new) = Some inv'
               /\ row_evolves inv inv'.
Proof.
  induction 1 as [|i i' l rows Hr _ IH]; [discriminate|].
  cbn [find app]. destruct Hr as [Hid [Htok Hused]]. rewrite Htok.
  destruct (String.eqb (token i) t).
  - intros E. inversion E; subst. exists i'. now repeat split.
  - exact IH.
Qed.

(** A used invitation stays used. *)
Lemma evolves_used_up (t : string) (db db' : DB) :
  evolves db db' -> used_up t db -> used_up t db'.
Proof.
  intros [rows [new [E [Hrows _]]]] [inv [Hget Hused]].
  unfold used_up, get_invitation in *. rewrite E.
  destruct (find_row_evolves t _ _ new inv Hrows Hget) as [inv' [Hf [_ [_ Hu]]]].
  exists inv'. split; [exact Hf|now apply Hu].
Qed.

Lemma same_id_same_row (l : list SurveyInvitation) (i j : SurveyInvitation) :
  NoDup (map inv_id l) -> In i l -> In j l -> inv_id i = inv_id j -> i = j.
Proof.
  induction l as [|x l IH]; [intros _ []|].
  cbn [map]. intros Hnd Hi Hj E. inversion Hnd as [|? ? Hx Hl]; subst.
  destruct Hi as [->|Hi], Hj as [->|Hj]; trivial.
  - exfalso. apply Hx. rewrite E. now apply in_map.
  - exfalso. apply Hx. rewrite <- E. now apply in_map.
  - now apply IH.
Qed.

(** Saving the invitation a request has loaded and marked used. *)
Lemma mark_used_evolves (now : datetime) (inv : SurveyInvitation) (db db' : DB) :
  well_formed db -> In inv (invitations db) ->
  invitations db' = map (mark_used_by_id now inv) (invitations db) ->
  evolves db db'.
Proof.
  intros Hwf Hin E. exists (invitations db'), []. rewrite app_nil_r.
  repeat split; try constructor. rewrite E.
  assert (H : forall l, (forall i, In i l -> In i (invitations db)) ->
                        Forall2 row_evolves l (map (mark_used_by_id now inv) l)).
  { induction l as [|i l IH]; intros Hl; constructor.
    - unfold mark_used_by_id. destruct (Nat.eqb_spec (inv_id i) (inv_id inv)) as [Ei|_].
      + rewrite (same_id_same_row _ i inv Hwf (Hl i (or_introl eq_refl)) Hin Ei).
        now repeat split.
      + now repeat split.
    - apply IH. intros j Hj. apply Hl. now right. }
  apply H. auto.
Qed.

Lemma mark_used_found (now : datetime) (inv : SurveyInvitation) (t : string)
      (db db' : DB) :
  well_formed db -> get_invitation t db = Some inv ->
  invitations db' = map (mark_used_by_id now inv) (invitations db) ->
  get_invitation t db' = Some (mark_used now inv).
Proof.
  unfold well_formed, get_invitation. intros Hwf Hget E. rewrite E. clear E.
  induction (invitations db) as [|x l IH]; [discriminate|].
  cbn [find map] in *. inversion Hwf as [|? ? Hx Hl]; subst.
  destruct (String.eqb (token x) t) eqn:Et.
  - inversion Hget; subst. unfold mark_used_by_id. rewrite Nat.eqb_refl.
    cbn [token mark_used]. now rewrite Et.
  - unfold mark_used_by_id at 1.
    destruct (Nat.eqb_spec (inv_id x) (inv_id inv)) as [Ei|_].
    + exfalso. apply Hx. rewrite Ei. apply in_map.
      now apply find_some in Hget.
    + rewrite Et. now apply IH.
Qed.

Ltac not_accepted := let H := fresh in intros [H|H]; discriminate H.

Lemma insert_response_fields (r : SurveyResponse) (db : DB) :
  invitations (snd (insert_response r db)) = invitations db /\
  surveys (snd (insert_response r db)) = surveys db /\
  List.length (responses (snd (insert_response r db)))
  = S (List.length (responses db)).
Proof. cbn. rewrite length_app. cbn. repeat split. lia. Qed.

(** What [participant_survey_view] does to the tables: nothing to the
    invitations unless it answers with the redirection to the thank-you
    page, and then the invitation of the token, unused so far, is marked
    used and one response is added. *)
Lemma participant_survey_view_outcome (request : Method) (t : string)
      (now : datetime) (db : DB) :
  (~ accepted (fst (participant_survey_view request t now db)) /\
   invitations (snd (participant_survey_view request t now db)) = invitations db) \/
  (fst (participant_survey_view request t now db) = Redirect "thank_you" /\
   exists inv,
     get_invitation t db = Some inv /\ used inv = false /\
     invitations (snd (participant_survey_view request t now db))
     = map (mark_used_by_id now inv) (invitations db) /\
     List.length (responses (snd (participant_survey_view request t now db)))
     = S (List.length (responses db))).
Proof.
  unfold participant_survey_view.
  destruct (get_invitation t db) as [inv|] eqn:Hget;
    [|left; split; [not_accepted|reflexivity]].
  destruct (used inv) eqn:Hused; cbn [orb];
    [left; split; [not_accepted|reflexivity]|].
  destruct (is_expired now inv); [left; split; [not_accepted|reflexivity]|].
  destruct request as [|post]; [left; split; [not_accepted|reflexivity]|].
  destruct (form_is_valid _); [|left; split; [not_accepted|reflexivity]].
  match goal with |- context [insert_response ?r db] =>
    pose proof (insert_response_fields r db) as [Hi [Hs Hl]];
    destruct (insert_response r db) as [rid db1] end.
  cbn [snd] in Hi, Hs, Hl.
  pose proof (save_strength_rankings_only post rid (post_strengths post) 0 db1)
    as [Hi2 [_ Hl2]].
  destruct (save_strength_rankings post rid 0 (post_strengths post) db1)
    as [[e|] db2]; cbn [snd] in Hi2, Hl2;
    [left; split; [not_accepted|cbn; congruence]|].
  pose proof (save_opportunity_rankings_only post rid (post_opportunities post) 0 db2)
    as [Hi3 [_ Hl3]].
  destruct (save_opportunity_rankings post rid 0 (post_opportunities post) db2)
    as [[e|] db3]; cbn [snd] in Hi3, Hl3;
    [left; split; [not_accepted|cbn; congruence]|].
  right. split; [reflexivity|]. exists inv.
  split; [reflexivity|split; [exact Hused|split]]; cbn.
  - rewrite Hi3, Hi2, Hi. reflexivity.
  - congruence.
Qed.

(** The same for [api_submit_survey], when the body names an invitation. *)
Lemma api_submit_survey_outcome (data : ApiData) (url_token t : string)
      (now : datetime) (db : DB) :
  invitation_token data = Some t ->
  (~ accepted (fst (api_submit_survey (Some data) url_token now db)) /\
   invitations (snd (api_submit_survey (Some data) url_token now db))
   = invitations db) \/
  (fst (api_submit_survey (Some data) url_token now db)
   = JsonSuccess "Survey submitted successfully" /\
   exists inv,
     get_invitation t db = Some inv /\ used inv = false /\
     invitations (snd (api_submit_survey (Some data) url_token now db))
     = map (mark_used_by_id now inv) (invitations db) /\
     List.length (responses (snd (api_submit_survey (Some data) url_token now db)))
     = S (List.length (responses db))).
Proof.
  intros Htok. unfold api_submit_survey, api_target. rewrite Htok.
  destruct (get_invitation t db) as [inv|] eqn:Hget;
    [|left; split; [not_accepted|reflexivity]].
  destruct (used inv) eqn:Hused; [left; split; [not_accepted|reflexivity]|].
  destruct (is_expired now inv); [left; split; [not_accepted|reflexivity]|].
  cbn [option_map]. unfold api_create_response.
  destruct (api_relationship data); [|left; split; [not_accepted|reflexivity]].
  destruct (forallb _ _); [|left; split; [not_accepted|reflexivity]].
  match goal with |- context [insert_response ?r db] =>
    pose proof (insert_response_fields r db) as [Hi [Hs Hl]];
    destruct (insert_response r db) as [rid db1] end.
  cbn [snd] in Hi, Hs, Hl.
  pose proof (api_save_strengths_only rid (api_strengths data) db1) as [Hi2 [_ Hl2]].
  destruct (api_save_strengths rid (api_strengths data) db1) as [[e|] db2];
    cbn [snd] in Hi2, Hl2; [left; split; [not_accepted|cbn; congruence]|].
  pose proof (api_save_opportunities_only rid (api_opportunities data) db2)
    as [Hi3 [_ Hl3]].
  destruct (api_save_opportunities rid (api_opportunities data) db2) as [[e|] db3];
    cbn [snd] in Hi3, Hl3; [left; split; [not_accepted|cbn; congruence]|].
  right. split; [reflexivity|]. exists inv.
  split; [reflexivity|split; [exact Hused|split]]; cbn.
  - rewrite Hi3, Hi2, Hi. reflexivity.
  - congruence.
Qed.

(** Without an invitation token in the body, and in the view of the
    self-assessment, the invitations are left alone. *)
Lemma api_submit_survey_leader (data : ApiData) (url_token : string)
      (now : datetime) (db : DB) :
  invitation_token data = None ->
  invitations (snd (api_submit_survey (Some data) url_token now db))
  = invitations db.
Proof.
  intros Htok. unfold api_submit_survey, api_target. rewrite Htok.
  destruct (get_survey url_token db) as [sv|]; [|reflexivity].
  destruct (leader_completed_self sv); [reflexivity|].
  cbn [option_map]. unfold api_create_response.
  destruct (api_relationship data); [|reflexivity].
  destruct (forallb _ _); [|reflexivity].
  match goal with |- context [insert_response ?r db] =>
    pose proof (insert_response_fields r db) as [Hi _];
    destruct (insert_response r db) as [rid db1] end.
  cbn [snd] in Hi.
  pose proof (api_save_strengths_only rid (api_strengths data) db1) as [Hi2 _].
  destruct (api_save_strengths rid (api_strengths data) db1) as [[e|] db2];
    cbn [snd] in Hi2; [cbn; congruence|].
  pose proof (api_save_opportunities_only rid (api_opportunities data) db2)
    as [Hi3 _].
  destruct (api_save_opportunities rid (api_opportunities data) db2) as [[e|] db3];
    cbn [snd] in Hi3; cbn; congruence.
Qed.

Lemma leader_self_assessment_view_invitations (request : Method) (t : string)
      (db : DB) :
  invitations (snd (leader_self_assessment_view request t db)) = invitations db.
Proof.
  unfold leader_self_assessment_view.
  destruct (get_survey t db) as [sv|]; [|reflexivity].
  destruct (leader_completed_self sv); [reflexivity|].
  destruct request as [|post]; [reflexivity|].
  destruct (form_is_valid _); [|reflexivity].
  match goal with |- context [insert_response ?r db] =>
    pose proof (insert_response_fields r db) as [Hi _];
    destruct (insert_response r db) as [rid db1] end.
  cbn [snd] in Hi.
  pose proof (save_strength_rankings_only post rid (post_strengths post) 0 db1)
    as [Hi2 _].
  destruct (save_strength_rankings post rid 0 (post_strengths post) db1)
    as [[e|] db2]; cbn [snd] in Hi2; [cbn; congruence|].
  pose proof (save_opportunity_rankings_only post rid (post_opportunities post) 0 db2)
    as [Hi3 _].
  destruct (save_opportunity_rankings post rid 0 (post_opportunities post) db2)
    as [[e|] db3]; cbn [snd] in Hi3; cbn; congruence.
Qed.

(** ** Stripping and lower case *)

Lemma lower_char_idempotent (c : ascii) :
  PyStr.lower_char (PyStr.lower_char c) = PyStr.lower_char c.
Proof. destruct c as [[] [] [] [] [] [] [] []]; vm_compute; reflexivity. Qed.

Lemma isspace_lower_char (c : ascii) :
  PyStr.isspace (PyStr.lower_char c) = PyStr.isspace c.
Proof. destruct c as [[] [] [] [] [] [] [] []]; vm_compute; reflexivity. Qed.

Lemma lower_idempotent (s : string) : PyStr.lower (PyStr.lower s) = PyStr.lower s.
Proof.
  induction s as [|c s IH]; [reflexivity|].
  cbn [PyStr.lower]. now rewrite lower_char_idempotent, IH.
Qed.

Lemma lstrip_lower (s : string) :
  PyStr.lstrip (PyStr.lower s) = PyStr.lower (PyStr.lstrip s).
Proof.
  induction s as [|c s IH]; [reflexivity|].
  cbn [PyStr.lower PyStr.lstrip]. rewrite isspace_lower_char.
  now destruct (PyStr.isspace c).
Qed.

Lemma rstrip_lower (s : string) :
  PyStr.rstrip (PyStr.lower s) = PyStr.lower (PyStr.rstrip s).
Proof.
  induction s as [|c s IH]; [reflexivity|].
  cbn [PyStr.lower PyStr.rstrip]. rewrite IH, isspace_lower_char.
  destruct (PyStr.rstrip s); cbn [PyStr.lower]; [|reflexivity].
  now destruct (PyStr.isspace c).
Qed.

Lemma strip_lower (s : string) :
  PyStr.strip (PyStr.lower s) = PyStr.lower (PyStr.strip s).
Proof. unfold PyStr.strip. now rewrite lstrip_lower, rstrip_lower. Qed.

Lemma lstrip_head (s : string) :
  PyStr.lstrip s = EmptyString \/
  exists c r, PyStr.lstrip s = String c r /\ PyStr.isspace c = false.
Proof.
  induction s as [|c s IH]; [now left|].
  cbn [PyStr.lstrip]. destruct (PyStr.isspace c) eqn:E; [exact IH|].
  right. now exists c, s.
Qed.

Lemma rstrip_idempotent (s : string) :
  PyStr.rstrip (PyStr.rstrip s) = PyStr.rstrip s.
Proof.
  induction s as [|c s IH]; [reflexivity|].
  cbn [PyStr.rstrip]. destruct (PyStr.rstrip s) as [|d r] eqn:E.
  - destruct (PyStr.isspace c) eqn:Ec; [reflexivity|].
    cbn [PyStr.rstrip]. now rewrite Ec.
  - cbn [PyStr.rstrip] in *. now rewrite IH.
Qed.

Lemma strip_idempotent (s : string) :
  PyStr.strip (PyStr.strip s) = PyStr.strip s.
Proof.
  unfold PyStr.strip.
  destruct (lstrip_head s) as [->|[c [r [-> Hc]]]]; [reflexivity|].
  assert (H : exists r', PyStr.rstrip (String c r) = String c r').
  { cbn [PyStr.rstrip]. destruct (PyStr.rstrip r); [|eauto].
    rewrite Hc. eauto. }
  destruct H as [r' Hr]. rewrite Hr. cbn [PyStr.lstrip]. rewrite Hc.
  rewrite <- Hr. apply rstrip_idempotent.
Qed.

(** The tables of the capitals and of the white space, against
    [str.lower] and [str.isspace]. *)
Lemma is_blank_isspace (c : ascii) : is_blank c = PyStr.isspace c.
Proof. destruct c as [[] [] [] [] [] [] [] []]; vm_compute; reflexivity. Qed.

Lemma lower_char_small (c : ascii) :
  is_capital (PyStr.lower_char c) = false /\
  same_letter c (PyStr.lower_char c) = true.
Proof. destruct c as [[] [] [] [] [] [] [] []]; vm_compute; split; reflexivity. Qed.

Lemma lower_small (s : string) :
  no_capital (PyStr.lower s) = true /\ same_up_to_case s (PyStr.lower s) = true.
Proof.
  induction s as [|c s [IH1 IH2]]; [split; reflexivity|].
  cbn [PyStr.lower no_capital same_up_to_case].
  destruct (lower_char_small c) as [H1 H2]. rewrite H1, H2, IH1, IH2.
  split; reflexivity.
Qed.

Lemma lstrip_split (s : string) :
  exists pre, s = String.append pre (PyStr.lstrip s) /\ all_blank pre = true.
Proof.
  induction s as [|c s [pre [E Hp]]]; [exists EmptyString; split; reflexivity|].
  cbn [PyStr.lstrip]. destruct (PyStr.isspace c) eqn:Ec.
  - exists (String c pre). cbn [String.append all_blank].
    rewrite <- E, is_blank_isspace, Ec. split; [reflexivity|exact Hp].
  - exists EmptyString. split; reflexivity.
Qed.

Lemma rstrip_split (s : string) :
  exists suf, s = String.append (PyStr.rstrip s) suf /\ all_blank suf = true.
Proof.
  induction s as [|c s [suf [E Hs]]]; [exists EmptyString; split; reflexivity|].
  cbn [PyStr.rstrip]. destruct (PyStr.rstrip s) as [|d r] eqn:Er.
  - cbn [String.append] in E. subst suf. destruct (PyStr.isspace c) eqn:Ec.
    + exists (String c s). cbn [String.append all_blank].
      rewrite is_blank_isspace, Ec. split; [reflexivity|exact Hs].
    + exists s. split; [reflexivity|exact Hs].
  - exists suf. cbn [String.append]. cbn [String.append] in E. rewrite <- E.
    split; [reflexivity|exact Hs].
Qed.

Lemma last_char_cons (c : ascii) (s : string) :
  exists d, last_char (String c s) = Some d.
Proof. cbn [last_char]. destruct (last_char s); eauto. Qed.

Lemma rstrip_last (s : string) :
  match last_char (PyStr.rstrip s) with
  | Some d => is_blank d = false
  | None => True
  end.
Proof.
  induction s as [|c s IH]; [exact I|].
  cbn [PyStr.rstrip]. destruct (PyStr.rstrip s) as [|d r] eqn:Er.
  - destruct (PyStr.isspace c) eqn:Ec; [exact I|].
    cbn [last_char]. now rewrite is_blank_isspace.
  - destruct (last_char_cons d r) as [x Ex]. rewrite Ex in IH.
    change (last_char (String c (String d r)))
      with (match last_char (String d r) with
            | Some y => Some y
            | None => Some c
            end).
    now rewrite Ex.
Qed.

Lemma rstrip_head (c : ascii) (r : string) :
  PyStr.isspace c = false -> exists r', PyStr.rstrip (String c r) = String c r'.
Proof.
  intros Hc. cbn [PyStr.rstrip]. destruct (PyStr.rstrip r); [|eauto].
  rewrite Hc. eauto.
Qed.

Lemma strip_trimmed (s : string) : trimmed (PyStr.strip s) = true.
Proof.
  unfold trimmed. pose proof (rstrip_last (PyStr.lstrip s)) as Hl.
  unfold PyStr.strip.
  destruct (lstrip_head s) as [E|[c [r [E Hc]]]]; rewrite E in *; [reflexivity|].
  destruct (rstrip_head c r Hc) as [r' Er]. rewrite Er in *.
  cbn [first_char]. destruct (last_char (String c r')) as [d|]; [|reflexivity].
  now rewrite is_blank_isspace, Hc, Hl.
Qed.

Lemma strip_truthy_blank (s : string) :
  PyStr.truthy (PyStr.strip s) = negb (all_blank s).
Proof.
  unfold PyStr.strip. induction s as [|c s IH]; [reflexivity|].
  cbn [PyStr.lstrip all_blank]. rewrite is_blank_isspace.
  destruct (PyStr.isspace c) eqn:Ec; [exact IH|].
  destruct (rstrip_head c s Ec) as [r' ->]. reflexivity.
Qed.

Lemma filter_map_swap {A B} (p : B -> bool) (f : A -> B) (l : list A) :
  filter p (map f l) = map f (filter (fun x => p (f x)) l).
Proof.
  induction l as [|x l IH]; [reflexivity|]. cbn [map filter].
  destruct (p (f x)); cbn [map]; now rewrite IH.
Qed.

Lemma candidate_lines_stripped (text : string) :
  candidate_lines text = map PyStr.strip (lines_with_text text).
Proof.
  unfold candidate_lines, lines_with_text. rewrite filter_map_swap. f_equal.
  apply filter_ext. intros line. apply strip_truthy_blank.
Qed.

(** What the form keeps of a line is the normal form of the line. *)
Lemma lower_strip_normal_form (line : string) :
  all_blank line = false -> normal_form_of line (PyStr.lower (PyStr.strip line)).
Proof.
  intros Hb. destruct (lstrip_split line) as [pre [E1 Hp]].
  destruct (rstrip_split (PyStr.lstrip line)) as [suf [E2 Hs]].
  exists pre, (PyStr.strip line), suf.
  destruct (lower_small (PyStr.strip line)) as [H1 H2].
  split; [unfold PyStr.strip; now rewrite <- E2|].
  split; [exact Hp|]. split; [exact Hs|]. split.
  - intros E. pose proof (strip_truthy_blank line) as Ht.
    rewrite E, Hb in Ht. discriminate.
  - split; [apply strip_trimmed|]. now split.
Qed.

Lemma lower_strip_normalised (line : string) :
  normalised (PyStr.lower (PyStr.strip line)).
Proof.
  split.
  - rewrite <- strip_lower. apply strip_trimmed.
  - apply lower_small.
Qed.

Lemma clean_emails_normal_forms (emails_text : string) (emails : list string) :
  clean_emails emails_text = Ok emails ->
  Forall2 normal_form_of (lines_with_text emails_text) emails /\
  Forall normalised emails.
Proof.
  rewrite clean_emails_cases. destruct (find _ _); [discriminate|].
  intros H.
  assert (E : emails = map PyStr.lower (candidate_lines emails_text)).
  { destruct (candidate_lines emails_text); [discriminate|]. now inversion H. }
  clear H. subst emails. rewrite candidate_lines_stripped. split.
  - unfold lines_with_text.
    induction (PyStr.split "010" emails_text) as [|line lines IH];
      [constructor|].
    cbn [filter]. destruct (all_blank line) eqn:Hb; cbn [negb map]; [exact IH|].
    constructor; [now apply lower_strip_normal_form|exact IH].
  - apply Forall_forall. intros e He. apply in_map_iff in He.
    destruct He as [y [<- Hy]]. apply in_map_iff in Hy.
    destruct Hy as [line [<- _]]. apply lower_strip_normalised.
Qed.

Lemma emails_cleaned_normalised (post : InvitationPost) (emails : list string) :
  emails_cleaned post = Ok emails ->
  Forall2 normal_form_of (lines_with_text (PyStr.strip (post_emails post))) emails /\
  Forall normalised emails.
Proof.
  unfold emails_cleaned, char_field_clean.
  destruct (PyStr.contains _ _); [discriminate|]. cbn [Py.bind].
  destruct (negb _); [discriminate|]. apply clean_emails_normal_forms.
Qed.

(** ** Invitations sent from the dashboard *)

Lemma create_invitation_ok (env : Env) (sid : nat) (e : string)
      (expires : datetime) (db db' : DB) :
  create_invitation env sid e expires db = Ok db' ->
  invitation_exists sid e db = false /\
  surveys db' = surveys db /\ responses db' = responses db /\
  exists row,
    invitations db' = invitations db ++ [row] /\
    inv_id row = next_id (map inv_id (invitations db)) /\
    inv_survey row = sid /\ email row = e /\ used row = false.
Proof.
  unfold create_invitation.
  destruct (existsb _ _); [discriminate|]. cbn [orb].
  destruct (invitation_exists sid e db); [discriminate|].
  intros H. inversion H; subst; clear H. cbn.
  repeat split. eexists. repeat split.
Qed.

Lemma invitation_exists_false (sid : nat) (e : string) (db : DB) :
  invitation_exists sid e db = false -> ~ In e (survey_emails sid db).
Proof.
  unfold invitation_exists, survey_emails. intros H Hin.
  apply in_map_iff in Hin. destruct Hin as [i [<- Hi]].
  apply filter_In in Hi. destruct Hi as [Hi Hs].
  assert (Ht : existsb (fun i0 => (inv_survey i0 =? sid)%nat
                                && String.eqb (email i0) (email i))
                       (invitations db) = true).
  { apply existsb_exists. exists i. split; [exact Hi|].
    now rewrite Hs, String.eqb_refl. }
  congruence.
Qed.

Lemma survey_emails_app (sid : nat) (db db' : DB) (row : SurveyInvitation) :
  invitations db' = invitations db ++ [row] ->
  survey_emails sid db'
  = survey_emails sid db
    ++ (if (inv_survey row =? sid)%nat then [email row] else []).
Proof.
  unfold survey_emails. intros ->. rewrite filter_app, map_app. cbn [filter].
  now destruct (inv_survey row =? sid)%nat.
Qed.

(** The rows the loop adds: new keys, for this survey, with addresses of
    the list. *)
Lemma send_invitations_rows (env : Env) (sid : nat) (expires : datetime)
      (emails : list string) :
  forall created failed db,
    surveys (snd (send_invitations env sid expires emails created failed db))
    = surveys db /\
    responses (snd (send_invitations env sid expires emails created failed db))
    = responses db /\
    exists new,
      invitations (snd (send_invitations env sid expires emails created failed db))
      = invitations db ++ new /\
      Forall (fun i => inv_survey i = sid /\ In (email i) emails /\ used i = false)
             new /\
      Forall (fun i => ~ In (inv_id i) (map inv_id (invitations db))) new /\
      NoDup (map inv_id new).
Proof.
  induction emails as [|e rest IH]; intros created failed db;
    cbn [send_invitations snd].
  - repeat split. exists []. rewrite app_nil_r. repeat split; constructor.
  - assert (Hnone : surveys db = surveys db /\ responses db = responses db /\
                    exists new : list SurveyInvitation,
                      invitations db = invitations db ++ new /\
                      Forall (fun i => inv_survey i = sid /\ In (email i) (e :: rest)
                                       /\ used i = false) new /\
                      Forall (fun i => ~ In (inv_id i) (map inv_id (invitations db))) new /\
                      NoDup (map inv_id new)).
    { repeat split. exists []. rewrite app_nil_r. repeat split; constructor. }
    assert (Hweak : forall new : list SurveyInvitation,
               Forall (fun i => inv_survey i = sid /\ In (email i) rest
                                /\ used i = false) new ->
               Forall (fun i => inv_survey i = sid /\ In (email i) (e :: rest)
                                /\ used i = false) new).
    { intros new. apply Forall_impl. intros i [? [? ?]]. repeat split; trivial.
      now right. }
    destruct (invitation_exists sid e db) eqn:Hex; cbn [negb].
    + destruct (IH created failed db) as [Hs [Hr [new [Hi [Hn [Hf Hd]]]]]].
      split; [exact Hs|split; [exact Hr|]]. exists new. repeat split; auto.
    + destruct (create_invitation env sid e expires db) as [db1|ex] eqn:Hc;
        [|exact Hnone].
      apply create_invitation_ok in Hc.
      destruct Hc as [_ [Hs1 [Hr1 [row [Hi1 [Hid [Hsid [Hem Hus]]]]]]]].
      assert (Hrest : forall c f,
        surveys (snd (send_invitations env sid expires rest c f db1)) = surveys db /\
        responses (snd (send_invitations env sid expires rest c f db1)) = responses db /\
        exists new,
          invitations (snd (send_invitations env sid expires rest c f db1))
          = invitations db ++ new /\
          Forall (fun i => inv_survey i = sid /\ In (email i) (e :: rest)
                           /\ used i = false) new /\
          Forall (fun i => ~ In (inv_id i) (map inv_id (invitations db))) new /\
          NoDup (map inv_id new)).
      { intros c f. destruct (IH c f db1) as [Hs [Hr [new [Hi [Hn [Hf Hd]]]]]].
        split; [congruence|split; [congruence|]].
        exists (row :: new). rewrite Hi1, <- app_assoc in Hi.
        rewrite Hi1, map_app in Hf. cbn [map] in Hf.
        repeat split.
        - exact Hi.
        - constructor; [|now apply Hweak]. repeat split; trivial. left. now rewrite Hem.
        - constructor.
          + rewrite Hid. apply list_max_fresh.
          + eapply Forall_impl; [|exact Hf]. cbn. intros i H Hin. apply H.
            apply in_or_app. now left.
        - cbn [map]. constructor; [|exact Hd].
          intros Hin. apply in_map_iff in Hin. destruct Hin as [i [Ei Hin]].
          rewrite Forall_forall in Hf. apply (Hf i Hin).
          apply in_or_app. right. left. now rewrite Ei. }
      destruct (send_survey_invitation env e); apply Hrest.
Qed.

(** The loop keeps the addresses of every survey normalised and pairwise
    distinct. *)
Lemma send_invitations_unique (env : Env) (sid : nat) (expires : datetime)
      (emails : list string) (sid' : nat) :
  Forall normalised emails ->
  forall created failed db,
    Forall normalised (survey_emails sid' db) -> NoDup (survey_emails sid' db) ->
    Forall normalised
      (survey_emails sid'
         (snd (send_invitations env sid expires emails created failed db))) /\
    NoDup
      (survey_emails sid'
         (snd (send_invitations env sid expires emails created failed db))).
Proof.
  induction 1 as [|e rest He Hrest IH]; intros created failed db Hn Hd;
    cbn [send_invitations snd]; [now split|].
  destruct (invitation_exists sid e db) eqn:Hex; cbn [negb]; [now apply IH|].
  destruct (create_invitation env sid e expires db) as [db1|ex] eqn:Hc;
    [|now split].
  apply create_invitation_ok in Hc.
  destruct Hc as [_ [_ [_ [row [Hi1 [_ [Hsid [Hem _]]]]]]]].
  pose proof (survey_emails_app sid' db db1 row Hi1) as E.
  assert (H1 : Forall normalised (survey_emails sid' db1) /\
               NoDup (survey_emails sid' db1)).
  { rewrite E. destruct (Nat.eqb_spec (inv_survey row) sid') as [Es|_].
    - split.
      + apply Forall_app. split; [exact Hn|]. constructor; [|constructor].
        now rewrite Hem.
      + apply NoDup_app; trivial; [repeat constructor; intros []|].
        intros x Hx [<-|[]]. rewrite Hem, <- Es, Hsid in Hx.
        now apply (invitation_exists_false sid e db Hex).
    - rewrite app_nil_r. now split. }
  destruct H1 as [Hn1 Hd1].
  destruct (send_survey_invitation env e); now apply IH.
Qed.

Lemma same_up_to_case_small (a b : string) :
  no_capital a = true -> no_capital b = true ->
  same_up_to_case a b = true -> a = b.
Proof.
  revert b.
  induction a as [|x a IH]; intros [|y b]; cbn [no_capital same_up_to_case];
    trivial; try discriminate.
  intros Ha Hb H. apply andb_true_iff in Ha, Hb, H.
  destruct Ha as [Hx Ha], Hb as [Hy Hb], H as [Hxy H].
  apply negb_true_iff in Hx, Hy. unfold same_letter in Hxy.
  rewrite Hx, Hy in Hxy. cbn [andb orb] in Hxy. rewrite !orb_false_r in Hxy.
  apply Ascii.eqb_eq in Hxy. subst y. f_equal. now apply IH.
Qed.

(** Distinct normalised addresses are distinct up to case. *)
Lemma normalised_distinct (l : list string) :
  Forall normalised l -> NoDup l -> distinct_up_to_case l.
Proof.
  intros Hn Hd. induction Hd as [|x l Hx Hd IH]; [constructor|].
  inversion Hn as [|? ? [_ Hnx] Hnl]; subst. constructor; [|now apply IH].
  apply Forall_forall. intros y Hy. apply not_true_is_false. intros E.
  rewrite Forall_forall in Hnl. destruct (Hnl y Hy) as [_ Hny].
  apply Hx. now rewrite (same_up_to_case_small x y Hnx Hny E).
Qed.

(** The rows the loop adds have pairwise distinct addresses, none of which
    the survey had. *)
Lemma send_invitations_fresh (env : Env) (sid : nat) (expires : datetime)
      (emails : list string) :
  forall created failed db,
  exists new,
    invitations (snd (send_invitations env sid expires emails created failed db))
    = invitations db ++ new /\
    NoDup (map email new) /\
    Forall (fun i => invitation_exists sid (email i) db = false /\
                     In (email i) emails) new.
Proof.
  induction emails as [|e rest IH]; intros created failed db;
    cbn [send_invitations snd].
  - exists []. rewrite app_nil_r. repeat split; constructor.
  - destruct (invitation_exists sid e db) eqn:Hex; cbn [negb].
    + destruct (IH created failed db) as [new [Hi [Hd Hf]]].
      exists new. split; [exact Hi|]. split; [exact Hd|].
      apply Forall_forall. intros i Hin. rewrite Forall_forall in Hf.
      destruct (Hf i Hin) as [H1 H2]. split; [exact H1|now right].
    + destruct (create_invitation env sid e expires db) as [db1|ex] eqn:Hc.
      2:{ exists []. rewrite app_nil_r. repeat split; constructor. }
      apply create_invitation_ok in Hc.
      destruct Hc as [_ [_ [_ [row [Hi1 [_ [Hsid [Hem _]]]]]]]].
      assert (Hrow : invitation_exists sid e db1 = true).
      { unfold invitation_exists. rewrite Hi1, existsb_app. cbn [existsb].
        now rewrite Hsid, Hem, Nat.eqb_refl, String.eqb_refl, orb_true_r. }
      assert (Hrest : forall created' failed',
        exists new,
          invitations (snd (send_invitations env sid expires rest created' failed'
                              db1))
          = invitations db ++ new /\
          NoDup (map email new) /\
          Forall (fun i => invitation_exists sid (email i) db = false /\
                           In (email i) (e :: rest)) new).
      { intros created' failed'.
        destruct (IH created' failed' db1) as [new [Hi [Hd Hf]]].
        exists (row :: new). rewrite Hi, Hi1, <- app_assoc.
        split; [reflexivity|]. rewrite Forall_forall in Hf. split.
        - cbn [map]. constructor; [|exact Hd]. intros Hin.
          apply in_map_iff in Hin. destruct Hin as [i [Ei Hin]].
          destruct (Hf i Hin) as [H1 _]. rewrite Ei, Hem in H1. congruence.
        - constructor; [rewrite Hem; split; [exact Hex|now left]|].
          apply Forall_forall. intros i Hin. destruct (Hf i Hin) as [H1 H2].
          split; [|now right]. unfold invitation_exists in *.
          rewrite Hi1, existsb_app in H1. now apply orb_false_iff in H1. }
      destruct (send_survey_invitation env e); apply Hrest.
Qed.

(** C10. The addresses the invitation form yields are the lines of the
    text that hold more than white space, each without the white space
    around it and with small letters for its capitals.  The handler checks
    for an existing invitation and creates the new one with these addresses:
    every invitation it adds has such an address, no two of those it adds
    have the same address up to case, and where the addresses of a survey
    have neither capitals nor white space around them and are pairwise
    distinct, no two of them are the same up to case afterwards. *)
Theorem invitation_emails_normalised (env : Env) (post : InvitationPost)
        (t : string) (db : DB) :
  (forall emails,
     emails_cleaned post = Ok emails ->
     Forall2 normal_form_of (lines_with_text (PyStr.strip (post_emails post)))
             emails /\
     Forall normalised emails) /\
  (exists new,
     invitations (snd (leader_dashboard_view env (DashPOST post) t db))
     = invitations db ++ new /\
     Forall (fun i => normalised (email i)) new /\
     distinct_up_to_case (map email new)) /\
  (forall sid,
     Forall normalised (survey_emails sid db) -> NoDup (survey_emails sid db) ->
     Forall normalised
       (survey_emails sid (snd (leader_dashboard_view env (DashPOST post) t db))) /\
     NoDup
       (survey_emails sid (snd (leader_dashboard_view env (DashPOST post) t db))) /\
     case_insensitively_unique sid
       (snd (leader_dashboard_view env (DashPOST post) t db))).
Proof.
  split; [apply emails_cleaned_normalised|].
  assert (Hsame : forall db' : DB, db' = db ->
            (exists new, invitations db' = invitations db ++ new /\
                         Forall (fun i => normalised (email i)) new /\
                         distinct_up_to_case (map email new)) /\
            (forall sid,
               Forall normalised (survey_emails sid db) -> NoDup (survey_emails sid db) ->
               Forall normalised (survey_emails sid db') /\
               NoDup (survey_emails sid db') /\
               case_insensitively_unique sid db')).
  { intros db' ->. split.
    - exists []. rewrite app_nil_r. repeat split; constructor.
    - intros sid Hn Hd. repeat split; trivial. now apply normalised_distinct. }
  unfold leader_dashboard_view.
  destruct (get_survey t db) as [sv|]; [|now apply Hsame].
  destruct (negb (leader_completed_self sv)); [now apply Hsame|].
  destruct (emails_cleaned post) as [emails|e] eqn:Ee.
  - destruct (expires_at_cleaned post) as [expires|e'];
      [|destruct e'; now apply Hsame].
    destruct (emails_cleaned_normalised post emails Ee) as [_ Hnorm].
    assert (Hloop :
      (exists new,
         invitations (snd (send_invitations env (survey_id sv) expires emails 0 []
                             db))
         = invitations db ++ new /\
         Forall (fun i => normalised (email i)) new /\
         distinct_up_to_case (map email new)) /\
      (forall sid,
         Forall normalised (survey_emails sid db) -> NoDup (survey_emails sid db) ->
         Forall normalised
           (survey_emails sid
              (snd (send_invitations env (survey_id sv) expires emails 0 [] db))) /\
         NoDup
           (survey_emails sid
              (snd (send_invitations env (survey_id sv) expires emails 0 [] db))) /\
         case_insensitively_unique sid
           (snd (send_invitations env (survey_id sv) expires emails 0 [] db)))).
    { split.
      - destruct (send_invitations_fresh env (survey_id sv) expires emails 0 [] db)
          as [new [Hi [Hd Hf]]].
        assert (Hn : Forall (fun i => normalised (email i)) new).
        { apply Forall_forall. intros i Hin. rewrite Forall_forall in Hf, Hnorm.
          apply Hnorm. now apply Hf. }
        exists new. split; [exact Hi|]. split; [exact Hn|].
        apply normalised_distinct; [|exact Hd].
        apply Forall_forall. intros a Ha. apply in_map_iff in Ha.
        destruct Ha as [i [<- Hin]]. rewrite Forall_forall in Hn. now apply Hn.
      - intros sid Hn Hd.
        destruct (send_invitations_unique env (survey_id sv) expires emails sid
                    Hnorm 0%nat [] db Hn Hd) as [H1 H2].
        repeat split; trivial. now apply normalised_distinct. }
    destruct (send_invitations env (survey_id sv) expires emails 0 [] db)
      as [[[[ex|] created] failed] db']; cbn [snd] in *; exact Hloop.
  - destruct e; now apply Hsame.
Qed.

(** ** An invitation is consumed once *)

Lemma leader_dashboard_view_evolves (env : Env) (request : DashboardMethod)
      (t : string) (db : DB) :
  evolves db (snd (leader_dashboard_view env request t db)).
Proof.
  unfold leader_dashboard_view.
  destruct (get_survey t db) as [sv|]; [|apply evolves_refl].
  destruct (negb (leader_completed_self sv)); [apply evolves_refl|].
  destruct request as [|post]; [apply evolves_refl|].
  destruct (emails_cleaned post) as [emails|e];
    [|destruct e; apply evolves_refl].
  destruct (expires_at_cleaned post) as [expires|e];
    [|destruct e; apply evolves_refl].
  pose proof (send_invitations_rows env (survey_id sv) expires emails 0 [] db)
    as [_ [_ [new [Hi [_ [Hf Hd]]]]]].
  assert (He : evolves db
                 (snd (send_invitations env (survey_id sv) expires emails 0 [] db))).
  { exists (invitations db), new. repeat split; trivial.
    apply rows_evolve_refl. }
  destruct (send_invitations env (survey_id sv) expires emails 0 [] db)
    as [[[[ex|] created] failed] db']; exact He.
Qed.

(** Every request lets the invitations evolve. *)
Lemma handle_evolves (now : datetime) (req : Request) (db : DB) :
  well_formed db -> evolves db (snd (handle now req db)).
Proof.
  intros Hwf. destruct req as [request t|body t|request t|env request t];
    cbn [handle].
  - destruct (participant_survey_view_outcome request t now db)
      as [[_ H]|[_ [inv [Hget [_ [H _]]]]]].
    + now apply evolves_same_invitations.
    + apply (mark_used_evolves now inv); trivial.
      unfold get_invitation in Hget. now apply find_some in Hget.
  - destruct body as [data|]; [|apply evolves_refl].
    destruct (invitation_token data) as [t'|] eqn:Et.
    + destruct (api_submit_survey_outcome data t t' now db Et)
        as [[_ H]|[_ [inv [Hget [_ [H _]]]]]].
      * now apply evolves_same_invitations.
      * apply (mark_used_evolves now inv); trivial.
        unfold get_invitation in Hget. now apply find_some in Hget.
    + apply evolves_same_invitations. now apply api_submit_survey_leader.
  - apply evolves_same_invitations. apply leader_self_assessment_view_invitations.
  - apply leader_dashboard_view_evolves.
Qed.

(** A submission with the token of a used invitation is turned away, and
    changes nothing. *)
Lemma handle_rejects (t : string) (now : datetime) (req : Request) (db : DB) :
  used_up t db -> submits t req ->
  rejected req (fst (handle now req db)) /\ snd (handle now req db) = db.
Proof.
  intros [inv [Hget Hused]] Hsub.
  destruct req as [request t'|[data|] t'|request t'|env request t'];
    cbn [submits] in Hsub; try contradiction; cbn [handle rejected].
  - subst t'. unfold participant_survey_view. rewrite Hget, Hused. now split.
  - unfold api_submit_survey, api_target. rewrite Hsub, Hget, Hused. now split.
Qed.

(** A submission that succeeds finds its invitation unused, leaves it used
    and adds one response. *)
Lemma handle_accepts (t : string) (now : datetime) (req : Request) (db : DB) :
  well_formed db -> submits t req -> accepted (fst (handle now req db)) ->
  (exists inv, get_invitation t db = Some inv /\ used inv = false) /\
  used_up t (snd (handle now req db)) /\
  List.length (responses (snd (handle now req db)))
  = S (List.length (responses db)).
Proof.
  intros Hwf Hsub Hacc.
  destruct req as [request t'|[data|] t'|request t'|env request t'];
    cbn [submits] in Hsub; try contradiction; cbn [handle] in *.
  - subst t'.
    destruct (participant_survey_view_outcome request t now db)
      as [[H _]|[_ [inv [Hget [Hused [Hi Hl]]]]]]; [contradiction|].
    split; [now exists inv|]. split; [|exact Hl].
    exists (mark_used now inv). split; [|reflexivity].
    now apply (mark_used_found now inv t db).
  - destruct (api_submit_survey_outcome data t' t now db Hsub)
      as [[H _]|[_ [inv [Hget [Hused [Hi Hl]]]]]]; [contradiction|].
    split; [now exists inv|]. split; [|exact Hl].
    exists (mark_used now inv). split; [|reflexivity].
    now apply (mark_used_found now inv t db).
Qed.

Lemma reachable_used_up (t : string) (db db2 : DB) :
  well_formed db -> used_up t db -> reachable db db2 ->
  well_formed db2 /\ used_up t db2.
Proof.
  intros Hwf Hused. induction 1 as [|db1 now req _ [IHw IHu]]; [now split|].
  pose proof (handle_evolves now req db1 IHw) as He. split.
  - now apply (evolves_well_formed db1).
  - now apply (evolves_used_up t db1).
Qed.

(** C6. A submission that succeeds with the invitation token [t], on the
    web path or on the API path, finds the invitation unused, marks it used
    and creates one response.  From then on, whichever requests are served
    in between, the invitation stays used, and every submission with the
    same token is turned away, to the invalid-link page on the web path and
    with an error in JSON on the API path, without any change to the tables:
    the invitation is marked used once and no second response is
    created. *)
Theorem invitation_consumed_once (t : string) (now : datetime) (req : Request)
        (db : DB) :
  well_formed db -> submits t req -> accepted (fst (handle now req db)) ->
  (exists inv, get_invitation t db = Some inv /\ used inv = false) /\
  used_up t (snd (handle now req db)) /\
  List.length (responses (snd (handle now req db)))
  = S (List.length (responses db)) /\
  forall db2,
    reachable (snd (handle now req db)) db2 ->
    used_up t db2 /\
    forall now' req',
      submits t req' ->
      rejected req' (fst (handle now' req' db2)) /\
      ~ accepted (fst (handle now' req' db2)) /\
      snd (handle now' req' db2) = db2.
Proof.
  intros Hwf Hsub Hacc.
  destruct (handle_accepts t now req db Hwf Hsub Hacc) as [H1 [H2 H3]].
  split; [exact H1|split; [exact H2|split; [exact H3|]]].
  intros db2 Hreach.
  assert (Hwf1 : well_formed (snd (handle now req db)))
    by (eapply evolves_well_formed; [exact Hwf|now apply handle_evolves]).
  destruct (reachable_used_up t _ db2 Hwf1 H2 Hreach) as [_ Hu2].
  split; [exact Hu2|]. intros now' req' Hsub'.
  destruct (handle_rejects t now' req' db2 Hu2 Hsub') as [Hr Hs].
  split; [exact Hr|split; [|exact Hs]].
  destruct req' as [request t'|[data|] t'|request t'|env request t'];
    cbn [submits rejected] in *; try contradiction; rewrite Hr; not_accepted.
Qed.

Lemma invitation_consumed_once_witness :
  let req := ParticipantSurvey (POST post_default_ranks) "tok" in
  let db1 := snd (handle 5%Z req db_one_invitation) in
  used_up "tok" db1 /\
  rejected req (fst (handle 6%Z req db1)) /\
  snd (handle 6%Z req db1) = db1.
Proof.
  intros req db1.
  assert (Hwf : well_formed db_one_invitation).
  { unfold well_formed. cbn. constructor; [intros []|constructor]. }
  assert (Hsub : submits "tok" req) by reflexivity.
  assert (Hacc : accepted (fst (handle 5%Z req db_one_invitation)))
    by (left; vm_compute; reflexivity).
  destruct (invitation_consumed_once "tok" 5%Z req db_one_invitation Hwf Hsub Hacc)
    as [_ [Hu [_ Hlater]]].
  split; [exact Hu|].
  destruct (Hlater db1 (reachable_refl db1)) as [_ H].
  destruct (H 6%Z req Hsub) as [Hr [_ Hs]]. now split.
Defined.

Lemma invitation_emails_normalised_witness :
  let db' := snd (leader_dashboard_view env_of_ids
                    (DashPOST post_same_address_twice) "lead" db_one_invitation) in
  map email (invitations db') = ["a@b.c"; "ann@example.org"] /\
  case_insensitively_unique 1 db'.
Proof.
  intros db'. split; [vm_compute; reflexivity|].
  assert (Hn : Forall normalised (survey_emails 1 db_one_invitation)).
  { cbn. constructor; [|constructor]. split; reflexivity. }
  assert (Hd : NoDup (survey_emails 1 db_one_invitation)).
  { cbn. constructor; [intros []|constructor]. }
  destruct (invitation_emails_normalised env_of_ids post_same_address_twice
              "lead" db_one_invitation) as [_ [_ H]].
  exact (proj2 (proj2 (H 1%nat Hn Hd))).
Defined.

(** ** Ranks of a stored response *)

(** Ranks that are not posted default to 5, 4, 3, 2, 1 in the order of
    the selection. *)
Lemma posted_rank_default (post : PostData) (key : string) (i : nat) :
  post_get post key = None -> posted_rank post key i = Ok (5 - Z.of_nat i)%Z.
Proof. unfold posted_rank. now intros ->. Qed.

Lemma default_ranks_stored :
  fst (participant_survey_view (POST post_default_ranks) "tok" 5%Z db_one_invitation)
  = Redirect "thank_you" /\
  Forall ranking_invariant
    (responses (snd (participant_survey_view (POST post_default_ranks) "tok" 5%Z
                       db_one_invitation))).
Proof.
  split; [vm_compute; reflexivity|].
  vm_compute. constructor; [|constructor].
  split; (split; [reflexivity|split;
    [repeat constructor; discriminate
    |repeat (constructor; [cbn; intuition discriminate|]); constructor]]).
Qed.

(** C9 does not hold of the code.  The form path stores whatever integer
    is posted as a rank: with [strength_rank_1=9] the submission succeeds and
    its response holds the ranks 5, 9, 3, 2, 1.  The API path stores the
    rankings of the body as they are: without strengths and with one
    opportunity of rank 77 the submission succeeds as well. *)
Theorem stored_ranks_unchecked :
  (fst (participant_survey_view (POST post_rank_nine) "tok" 5%Z db_one_invitation)
   = Redirect "thank_you" /\
   exists r,
     In r (responses (snd (participant_survey_view (POST post_rank_nine) "tok" 5%Z
                             db_one_invitation))) /\
     map s_rank (strength_rankings r) = [5; 9; 3; 2; 1]%Z /\
     ~ ranking_invariant r) /\
  (fst (api_submit_survey (Some api_one_opportunity) "" 5%Z db_one_invitation)
   = JsonSuccess "Survey submitted successfully" /\
   exists r,
     In r (responses (snd (api_submit_survey (Some api_one_opportunity) "" 5%Z
                             db_one_invitation))) /\
     strength_rankings r = [] /\
     map o_rank (opportunity_rankings r) = [77%Z] /\
     ~ ranking_invariant r).
Proof.
  split.
  - split; [vm_compute; reflexivity|].
    eexists. split; [vm_compute; left; reflexivity|].
    split; [reflexivity|].
    intros [[_ [H _]] _]. cbn in H.
    inversion H as [|? ? _ H1]; subst. inversion H1 as [|? ? H9 _]; subst. lia.
  - split; [vm_compute; reflexivity|].
    eexists. split; [vm_compute; left; reflexivity|].
    split; [reflexivity|split; [reflexivity|]].
    intros [[H _] _]. discriminate H.
Qed.

(** ** The accepted addresses and the '.' after the '@' *)

Lemma contains_up_to (d c : ascii) (s : string) :
  PyStr.contains d (up_to c s) = true -> PyStr.contains d s = true.
Proof.
  induction s as [|a s IH]; [discriminate|].
  cbn [up_to]. destruct (Ascii.eqb a c); [discriminate|].
  cbn [PyStr.contains]. destruct (Ascii.eqb a d); [reflexivity|exact IH].
Qed.

(** What the form accepts has an '@' and a '.' after it; the converse
    fails. *)
Lemma accepts_at_then_dot (email : string) :
  accepts email = true -> at_then_dot email.
Proof.
  unfold accepts, at_then_dot.
  destruct (after_first "@" email) as [post|] eqn:E; [|discriminate].
  intros H. destruct (after_first_split _ _ _ E) as [pre [-> _]].
  exists pre, post. split; [reflexivity|]. now apply contains_up_to in H.
Qed.

(** * Further properties of the code *)

(** ** Completion rate of a survey *)

Lemma filter_length_le {A} (f : A -> bool) (l : list A) :
  (List.length (filter f l) <= List.length l)%nat.
Proof.
  induction l as [|x l IH]; [reflexivity|].
  cbn [filter]. destruct (f x); cbn [List.length]; lia.
Qed.

Lemma filter_length_all {A} (f : A -> bool) (l : list A) :
  List.length (filter f l) = List.length l <-> Forall (fun x => f x = true) l.
Proof.
  induction l as [|x l IH]; [split; [constructor|reflexivity]|].
  cbn [filter]. pose proof (filter_length_le f l) as Hle.
  destruct (f x) eqn:E; cbn [List.length]; split.
  - intros Hlen. constructor; [exact E|]. apply IH. lia.
  - intros Hall. inversion Hall as [|? ? _ Hl]; subst. f_equal. now apply IH.
  - intros Hlen. lia.
  - intros Hall. inversion Hall as [|? ? Hx _]; subst. congruence.
Qed.

Lemma filter_length_none {A} (f : A -> bool) (l : list A) :
  List.length (filter f l) = 0%nat <-> Forall (fun x => f x = false) l.
Proof.
  induction l as [|x l IH]; [split; [constructor|reflexivity]|].
  cbn [filter]. destruct (f x) eqn:E; cbn [List.length]; split.
  - discriminate.
  - intros Hall. inversion Hall as [|? ? Hx _]; subst. congruence.
  - intros Hlen. constructor; [exact E|]. now apply IH.
  - intros Hall. inversion Hall as [|? ? _ Hl]; subst. now apply IH.
Qed.

Lemma Zpos_of_nat_succ (n : nat) : Zpos (Pos.of_nat (S n)) = Z.of_nat (S n).
Proof. now rewrite <- Pos.of_nat_succ, Zpos_P_of_succ_nat, <- Nat2Z.inj_succ. Qed.

(** The completion rate is computed without a division by zero and lies
    between 0 and 100: 0 without invitations or without a used one, 100
    exactly when every invitation is used. *)
Theorem get_completion_rate_range (self_invitations : list SurveyInvitation) :
  exists rate,
    get_completion_rate self_invitations = Ok rate /\
    (0 <= rate)%Q /\ (rate <= 100)%Q /\
    (self_invitations = [] -> rate = 0%Q) /\
    (self_invitations <> [] ->
     ((rate == 100)%Q <-> Forall (fun i => used i = true) self_invitations) /\
     ((rate == 0)%Q <-> Forall (fun i => used i = false) self_invitations)).
Proof.
  unfold get_completion_rate.
  destruct self_invitations as [|i l]; cbn [List.length Nat.eqb].
  - exists 0%Q. repeat split; try discriminate; congruence.
  - cbn [truediv Py.bind]. eexists. split; [reflexivity|].
    pose proof (filter_length_le used (i :: l)) as Hle.
    pose proof (filter_length_all used (i :: l)) as Hall.
    pose proof (filter_length_none used (i :: l)) as Hnone.
    cbn [List.length] in Hle, Hall, Hnone.
    remember (List.length (filter used (i :: l))) as c eqn:Ec.
    remember (List.length l) as n eqn:En.
    unfold Qle, Qeq, Qmult. cbn [Qnum Qden].
    rewrite Pos.mul_1_r, Zpos_of_nat_succ.
    split; [lia|split; [lia|split; [discriminate|]]].
    intros _. split; split; intros Hr.
    + apply Hall. lia.
    + apply Hall in Hr. lia.
    + apply Hnone. lia.
    + apply Hnone in Hr. lia.
Qed.

(** ** Counts of the survey page *)

Lemma count_partition {A} (f g h : A -> bool) (l : list A) :
  (forall x, In x l -> f x || g x || h x = true) ->
  (List.length l
   <= List.length (filter f l) + List.length (filter g l)
      + List.length (filter h l))%nat.
Proof.
  induction l as [|x l IH]; intros H; [reflexivity|].
  assert (Hx := H x (or_introl eq_refl)).
  assert (Hl : forall y, In y l -> f y || g y || h y = true)
    by (intros y Hy; apply H; now right).
  specialize (IH Hl). cbn [filter].
  destruct (f x), (g x), (h x); cbn [List.length]; try discriminate; lia.
Qed.

Lemma count_exact_partition {A} (f g h : A -> bool) (l : list A) :
  (forall x, In x l ->
     (f x = true /\ g x = false /\ h x = false) \/
     (f x = false /\ g x = true /\ h x = false) \/
     (f x = false /\ g x = false /\ h x = true)) ->
  List.length l
  = (List.length (filter f l) + List.length (filter g l)
     + List.length (filter h l))%nat.
Proof.
  induction l as [|x l IH]; intros H; [reflexivity|].
  assert (Hx := H x (or_introl eq_refl)).
  assert (Hl : forall y, In y l ->
     (f y = true /\ g y = false /\ h y = false) \/
     (f y = false /\ g y = true /\ h y = false) \/
     (f y = false /\ g y = false /\ h y = true))
    by (intros y Hy; apply H; now right).
  specialize (IH Hl). cbn [filter].
  destruct Hx as [[-> [-> ->]]|[[-> [-> ->]]|[-> [-> ->]]]];
    cbn [List.length]; lia.
Qed.

(** The page of a survey that exists, for a staff user whose two clock
    readings are in order: every invitation is counted as completed, pending
    or expired, and exactly once when the two readings agree; the pending
    ones are the valid ones that do not expire at this very instant, which
    the page counts as expired although they can still be used. *)
Theorem survey_detail_view_counts (uid id : nat) (now1 now2 : datetime) (db : DB)
        (sv : Survey) :
  get_survey_by_id id db = Some sv -> (now1 <= now2)%Z ->
  exists s,
    survey_detail_view (User uid true) id now1 now2 db = SurveyDetail s /\
    (total_invitations s
     <= completed_invitations s + pending_invitations s + expired_invitations s)%nat /\
    (now1 = now2 ->
     total_invitations s
     = (completed_invitations s + pending_invitations s + expired_invitations s)%nat) /\
    pending_invitations s
    = List.length
        (filter (fun i => Models.is_valid now1 i && negb (expires_at i =? now1)%Z)
                (filter (fun i => (inv_survey i =? survey_id sv)%nat)
                        (invitations db))).
Proof.
  intros Hget Hle. unfold survey_detail_view. rewrite Hget.
  eexists. split; [reflexivity|]. cbn.
  split; [|split].
  - apply count_partition. intros i _.
    destruct (used i); [reflexivity|]. cbn.
    destruct (now1 <? expires_at i)%Z eqn:E1; [reflexivity|].
    apply Z.ltb_ge in E1. apply Z.leb_le. lia.
  - intros <-. apply count_exact_partition. intros i _.
    destruct (used i); [now left|]. right. cbn.
    destruct (now1 <? expires_at i)%Z eqn:E1.
    + left. repeat split. apply Z.leb_gt. now apply Z.ltb_lt.
    + right. repeat split. apply Z.leb_le. now apply Z.ltb_ge.
  - f_equal. apply filter_ext. intros i.
    unfold Models.is_valid, is_expired.
    destruct (used i); [reflexivity|]. cbn.
    destruct (now1 <? expires_at i)%Z eqn:E1.
    + apply Z.ltb_lt in E1.
      replace (expires_at i <? now1)%Z with false by (symmetry; apply Z.ltb_ge; lia).
      replace (expires_at i =? now1)%Z with false by (symmetry; apply Z.eqb_neq; lia).
      reflexivity.
    + apply Z.ltb_ge in E1.
      destruct (expires_at i <? now1)%Z eqn:E2; [reflexivity|].
      apply Z.ltb_ge in E2.
      replace (expires_at i =? now1)%Z with true by (symmetry; apply Z.eqb_eq; lia).
      reflexivity.
Qed.

Lemma survey_detail_view_counts_witness :
  exists s,
    survey_detail_view (User 1 true) 1 1000%Z 1000%Z db_one_invitation
    = SurveyDetail s /\
    total_invitations s = 1%nat /\ pending_invitations s = 0%nat /\
    expired_invitations s = 1%nat.
Proof.
  destruct (survey_detail_view_counts 1 1 1000%Z 1000%Z db_one_invitation
              {| survey_id := 1; leader_token := "lead";
                 leader_completed_self := true |} eq_refl (Z.le_refl _))
    as [s [Hs _]].
  exists s. split; [exact Hs|].
  vm_compute in Hs. inversion Hs. repeat split.
Defined.

(** ** Template filters *)

Lemma first_occurrences_NoDup_id (l : list string) :
  NoDup l -> first_occurrences l = l.
Proof.
  induction 1 as [|x l Hx Hl IH]; [reflexivity|].
  cbn [first_occurrences]. rewrite IH. f_equal.
  apply forallb_filter_id. apply forallb_forall. intros y Hy.
  apply negb_true_iff, String.eqb_neq. intros ->. contradiction.
Qed.

Lemma strip_truthy (item : string) :
  PyStr.truthy (PyStr.strip item) = true -> PyStr.truthy item = true.
Proof. destruct item; [discriminate|reflexivity]. Qed.

Lemma unique_fold (value : list string) :
  forall pre,
    fold_left unique_step value
      (rev (first_occurrences (filter not_blank pre)),
       first_occurrences (filter not_blank pre))
    = (rev (first_occurrences (filter not_blank (pre ++ value))),
       first_occurrences (filter not_blank (pre ++ value))).
Proof.
  induction value as [|item value IH]; intros pre.
  - now rewrite app_nil_r.
  - cbn [fold_left].
    replace (pre ++ item :: value) with ((pre ++ [item]) ++ value)
      by now rewrite <- app_assoc.
    rewrite <- IH. f_equal.
    unfold unique_step. rewrite filter_app. cbn [filter]. fold (not_blank item).
    destruct (not_blank item) eqn:Eb.
    + rewrite (strip_truthy item Eb). cbn [andb].
      rewrite first_occurrences_snoc.
      assert (Es : existsb (String.eqb item)
                     (rev (first_occurrences (filter not_blank pre)))
                   = existsb (fun y => String.eqb y item) (filter not_blank pre)).
      { apply eq_true_iff_eq. rewrite existsb_eqb_In, existsb_exists. split.
        - intros [y [Hy E]]. apply String.eqb_eq in E. subst y.
          apply in_rev in Hy. exact (proj1 (first_occurrences_In _ _) Hy).
        - intros Hin. exists item. split; [|apply String.eqb_refl].
          apply in_rev. rewrite rev_involutive.
          exact (proj2 (first_occurrences_In _ _) Hin). }
      rewrite Es.
      destruct (existsb _ (filter not_blank pre)); cbn [negb].
      * reflexivity.
      * rewrite rev_app_distr. reflexivity.
    + rewrite andb_false_r. cbn [andb]. now rewrite app_nil_r.
Qed.

(** The filter [unique] keeps of a list of strings the items that are not
    blank, each once, at its first place: no item twice, the same items as
    the list up to the blank ones, and nothing to do on its own result. *)
Theorem unique_first_occurrences (value : list string) :
  unique value = first_occurrences (filter not_blank value) /\
  NoDup (unique value) /\
  (forall item, In item (unique value) <-> In item value /\ not_blank item = true) /\
  unique (unique value) = unique value.
Proof.
  assert (E : forall v, unique v = first_occurrences (filter not_blank v)).
  { intros [|x v]; [reflexivity|]. unfold unique.
    pose proof (unique_fold (x :: v) []) as H. cbn [filter first_occurrences rev app] in H.
    unfold dict in *. now rewrite H. }
  split; [apply E|]. rewrite (E (unique value)), !E.
  split; [apply first_occurrences_NoDup|]. split.
  - intros item. rewrite first_occurrences_In. apply filter_In.
  - assert (Hf : filter not_blank (first_occurrences (filter not_blank value))
                 = first_occurrences (filter not_blank value)).
    { apply forallb_filter_id. apply forallb_forall. intros y Hy.
      apply (proj1 (first_occurrences_In _ _)) in Hy. now apply filter_In in Hy. }
    rewrite Hf. apply first_occurrences_NoDup_id, first_occurrences_NoDup.
Qed.

Lemma split_cons (c : ascii) (s : string) :
  exists h t, PyStr.split c s = h :: t.
Proof.
  destruct s as [|d s]; cbn [PyStr.split]; [eauto|].
  destruct (Ascii.eqb d c); [eauto|]. destruct (PyStr.split c s); eauto.
Qed.

Lemma split_join (c : ascii) (s : string) :
  join c (PyStr.split c s) = s /\
  Forall (fun piece => PyStr.contains c piece = false) (PyStr.split c s) /\
  List.length (PyStr.split c s) = S (count_char c s).
Proof.
  induction s as [|d s [IHj [IHf IHl]]]; cbn [PyStr.split count_char].
  - repeat split. repeat constructor.
  - destruct (split_cons c s) as [h [t E]]. rewrite E in *.
    destruct (Ascii.eqb_spec d c) as [->|Hne].
    + split; [|split].
      * cbn [join]. cbn [join] in IHj. now rewrite IHj.
      * constructor; [reflexivity|exact IHf].
      * cbn [List.length]. cbn [List.length] in IHl. now rewrite IHl.
    + split; [|split].
      * cbn [join] in *. destruct t; cbn [String.append]; now rewrite IHj.
      * inversion IHf as [|? ? Hh Ht]; subst. constructor; [|exact Ht].
        cbn [PyStr.contains]. rewrite Hh.
        destruct (Ascii.eqb_spec d c); [contradiction|reflexivity].
      * exact IHl.
Qed.

(** A string handed to [make_list] is cut at its commas: joining the
    pieces with commas gives the string back, no piece holds a comma, and
    there is one piece more than there are commas, so never none.  A list
    is returned as it is. *)
Theorem make_list_round_trip (s : string) (l : list string) :
  make_list (VList l) = VList l /\
  exists pieces,
    make_list (VStr s) = VList pieces /\
    join "," pieces = s /\
    Forall (fun piece => PyStr.contains "," piece = false) pieces /\
    List.length pieces = S (count_char "," s).
Proof.
  split; [reflexivity|]. exists (PyStr.split "," s).
  split; [reflexivity|]. apply split_join.
Qed.

(** ** Tokens *)

Lemma getitem_in_range {A} (l : list A) (k : nat) :
  (k < List.length l)%nat ->
  exists x, getitem l (Z.of_nat k) = Ok x /\ In x l.
Proof.
  intros Hk. unfold getitem.
  replace (Z.of_nat k <? 0)%Z with false by (symmetry; apply Z.ltb_ge; lia).
  replace ((Z.of_nat k <? 0) || (Z.of_nat (List.length l) <=? Z.of_nat k))%Z
    with false.
  - rewrite Nat2Z.id. destruct (nth_error l k) as [x|] eqn:E.
    + exists x. split; [reflexivity|]. now apply nth_error_In in E.
    + apply nth_error_None in E. lia.
  - symmetry. apply orb_false_iff. split; [apply Z.ltb_ge|apply Z.leb_gt]; lia.
Qed.

Lemma random_string_length (randbelow : nat -> nat -> nat) (alphabet : list ascii)
      (length : nat) :
  (forall draw n, (0 < n)%nat -> (randbelow draw n < n)%nat) ->
  alphabet <> [] ->
  forall draw,
  exists t,
    random_string randbelow alphabet draw length = Ok t /\
    String.length t = length /\
    Forall (fun c => In c alphabet) (list_ascii_of_string t).
Proof.
  intros Hrand Hne. induction length as [|n IH]; intros draw; cbn [random_string].
  - exists EmptyString. repeat split. constructor.
  - assert (Hlen : (0 < List.length alphabet)%nat)
      by (destruct alphabet; [congruence|cbn; lia]).
    unfold choice.
    destruct (getitem_in_range alphabet _ (Hrand draw _ Hlen)) as [c [Ec Hc]].
    rewrite Ec. cbn [Py.bind].
    destruct (IH (S draw)) as [t [Et [Hl Hf]]]. rewrite Et. cbn [Py.bind].
    exists (String c t). repeat split.
    + cbn. now rewrite Hl.
    + cbn. now constructor.
Qed.

(** With a random source that stays below its bound, [generate_token]
    raises nothing and returns a string of the length asked for, 64 by
    default, made of ASCII letters and digits only. *)
Theorem generate_token_shape (randbelow : nat -> nat -> nat) (length : nat) :
  (forall draw n, (0 < n)%nat -> (randbelow draw n < n)%nat) ->
  exists t,
    generate_token randbelow length = Ok t /\
    String.length t = length /\
    Forall (fun c => In c ascii_letters_digits) (list_ascii_of_string t).
Proof.
  intros Hrand. apply random_string_length; [exact Hrand|discriminate].
Qed.

Lemma generate_token_shape_witness :
  exists t,
    generate_token (fun _ _ => 0%nat) 64 = Ok t /\
    String.length t = 64%nat /\
    Forall (fun c => In c ascii_letters_digits) (list_ascii_of_string t).
Proof.
  apply (generate_token_shape (fun _ _ => 0%nat) 64). intros _ n Hn. exact Hn.
Defined.

(** ** The submit route *)

Lemma startswith_slash (p a b : string) :
  PyStr.contains "/" p = false ->
  startswith p (String.append a (String "/" b)) = startswith p a.
Proof.
  revert a. induction p as [|c p IH]; intros a Hp; [now destruct a|].
  cbn [PyStr.contains] in Hp. apply orb_false_iff in Hp. destruct Hp as [Hc Hp].
  destruct a as [|d a]; cbn [String.append startswith].
  - now rewrite Hc.
  - now rewrite IH.
Qed.

Lemma str_in_slash (p a b : string) :
  PyStr.contains "/" p = false ->
  str_in p (String.append a (String "/" b)) = str_in p a || str_in p b.
Proof.
  intros Hp. induction a as [|d a IH].
  - pose proof (startswith_slash p EmptyString b Hp) as H.
    cbn [String.append] in *. cbn [str_in]. rewrite H. now rewrite orb_false_r.
  - pose proof (startswith_slash p (String d a) b Hp) as H.
    cbn [String.append] in *. cbn [str_in]. rewrite H, IH.
    now rewrite orb_assoc.
Qed.

(** On its route [survey/<token>/submit/], [submit_survey_view] serves the
    request as a participant's only when the token itself contains the text
    'invitation'; with any other token, the token of an invitation included,
    the request goes to the self-assessment of the leader. *)
Theorem submit_survey_view_route (request : Method) (token : string)
        (now : datetime) (db : DB) :
  submit_survey_view (submit_path token) request token now db
  = if str_in "invitation" token
    then participant_survey_view request token now db
    else leader_self_assessment_view request token db.
Proof.
  unfold submit_survey_view, submit_path.
  assert (E : str_in "invitation"
                (String.append "/survey/" (String.append token "/submit/"))
              = str_in "invitation" token).
  { change (String.append "/survey/" (String.append token "/submit/"))
      with (String.append EmptyString
              (String "/" (String.append "survey"
                 (String "/" (String.append token (String "/" "submit/")))))).
    rewrite !str_in_slash by reflexivity.
    change (str_in "invitation" "") with false.
    change (str_in "invitation" "survey") with false.
    change (str_in "invitation" "submit/") with false.
    now rewrite orb_false_r. }
  now rewrite E.
Qed.

(** ** The scale of the averages *)

Lemma dict_get_range (d : list (string * Z)) (key : string) (default lo hi : Z) :
  Forall (fun kv => (lo <= snd kv <= hi)%Z) d -> (lo <= default <= hi)%Z ->
  (lo <= dict_get d key default <= hi)%Z.
Proof.
  intros Hd Hdef. induction Hd as [|[k v] d Hv _ IH]; [exact Hdef|].
  cbn [dict_get]. destruct (String.eqb k key); [exact Hv|exact IH].
Qed.

Lemma calculate_likert_score_range (value : string) :
  (1 <= calculate_likert_score value <= 7)%Z.
Proof.
  apply dict_get_range; [|lia].
  repeat (constructor; [cbn; lia|]). constructor.
Qed.

Lemma sum_range (lo hi : Z) (l : list Z) :
  Forall (fun x => (lo <= x <= hi)%Z) l ->
  (lo * Z.of_nat (List.length l) <= sum l <= hi * Z.of_nat (List.length l))%Z.
Proof.
  unfold sum. intros H.
  assert (G : forall a,
    (a + lo * Z.of_nat (List.length l) <= fold_left Z.add l a
     <= a + hi * Z.of_nat (List.length l))%Z).
  { induction H as [|x l Hx _ IH]; intros a; cbn [fold_left List.length].
    - lia.
    - specialize (IH (a + x)%Z). lia. }
  specialize (G 0%Z). lia.
Qed.

Lemma mean_range (lo hi : Z) (l : list Z) :
  l <> [] -> Forall (fun x => (lo <= x <= hi)%Z) l ->
  (inject_Z lo <= mean l)%Q /\ (mean l <= inject_Z hi)%Q.
Proof.
  intros Hne H. pose proof (sum_range lo hi l H) as Hs.
  destruct l as [|x l]; [congruence|]. unfold mean, Qle, inject_Z.
  cbn [Qnum Qden List.length] in *. rewrite Zpos_of_nat_succ. lia.
Qed.

(** Rounding to two decimals stays between two integers. *)
Lemma round2_range (lo hi : Z) (x : Q) :
  (inject_Z lo <= x)%Q -> (x <= inject_Z hi)%Q ->
  (inject_Z lo <= round2 x)%Q /\ (round2 x <= inject_Z hi)%Q.
Proof.
  destruct x as [a b]. unfold Qle, inject_Z. cbn [Qnum Qden]. intros Hlo Hhi.
  unfold round2, round_half_even, Qmult. cbn [Qnum Qden]. rewrite Pos.mul_1_r.
  pose proof (Z.div_mod (a * 100) (Zpos b) ltac:(discriminate)) as Hdm.
  pose proof (Z.mod_pos_bound (a * 100) (Zpos b) ltac:(reflexivity)) as Hr.
  remember ((a * 100) / Zpos b)%Z as f eqn:Ef.
  remember ((a * 100) mod Zpos b)%Z as r eqn:Er.
  assert (Hf1 : (100 * lo <= f)%Z) by nia.
  assert (Hf2 : (f < 100 * hi \/ (f = 100 * hi /\ r = 0))%Z) by nia.
  destruct (2 * r ?= Zpos b)%Z eqn:Ec.
  - apply Z.compare_eq in Ec.
    assert (Hrn : (r <> 0)%Z) by lia.
    destruct (Z.even f); lia.
  - lia.
  - apply Z.compare_gt_iff in Ec. lia.
Qed.

Lemma answered_scores_range (q_num : nat) (responses : list SurveyResponse) :
  Forall (fun x => (1 <= x <= 7)%Z) (answered_scores q_num responses).
Proof.
  unfold answered_scores. apply Forall_forall. intros x Hx.
  apply in_map_iff in Hx. destruct Hx as [r [<- _]].
  apply calculate_likert_score_range.
Qed.

Lemma category_average_on_scale (q_num : nat) (rel : string)
      (responses : list SurveyResponse) :
  on_scale (category_average q_num rel responses).
Proof.
  unfold category_average.
  pose proof (answered_scores_range q_num
                (filter (fun r => String.eqb (counted_as r) rel) responses)) as H.
  fold (observations q_num rel responses) in H.
  destruct (observations q_num rel responses) as [|x l]; [exact I|].
  apply (round2_range 1 7); apply (mean_range 1 7); trivial; discriminate.
Qed.

Lemma all_answered_scores_range (responses : list SurveyResponse) :
  Forall (fun x => (1 <= x <= 7)%Z) (all_answered_scores responses).
Proof.
  unfold all_answered_scores. apply Forall_forall. intros x Hx.
  apply in_flat_map in Hx. destruct Hx as [[q st] [Hin Hx]].
  apply question_entries_In in Hin. destruct Hin as [_ Hin].
  apply question_entry_Some in Hin. destruct Hin as [_ [Hs _]].
  cbn [snd] in Hx. rewrite Hs in Hx.
  pose proof (answered_scores_range q responses) as Hr.
  rewrite Forall_forall in Hr. now apply Hr.
Qed.

(** Whatever the stored answers are, every average of the report is on
    the scale of the scores: the average of a question, the average of each
    relationship category that has one, and the overall average lie between
    1 and 7; the overall average is 0 only when no question has an entry. *)
Theorem view_report_averages_on_scale (responses : list SurveyResponse) :
  exists c,
    view_report responses = Ok c /\
    Forall (fun qs =>
              on_scale (Some (average (snd qs))) /\
              Forall (fun x => (1 <= x <= 7)%Z) (scores (snd qs)) /\
              Forall (fun kv => on_scale (snd kv)) (by_relationship (snd qs)))
           (question_stats c) /\
    (question_stats c = [] -> overall_average c = 0%Q) /\
    (question_stats c <> [] -> on_scale (Some (overall_average c))).
Proof.
  destruct (view_report_ok responses) as [c [Hc [Hq [_ [_ Ho]]]]].
  exists c. split; [exact Hc|]. rewrite Hq, Ho. split; [|split].
  - apply Forall_forall. intros [q st] Hin.
    apply question_entries_In in Hin. destruct Hin as [_ Hin].
    apply question_entry_Some in Hin. destruct Hin as [Hne [Hs [Ha Hb]]].
    cbn [snd]. rewrite Ha, Hs, Hb. split; [|split].
    + apply (round2_range 1 7); apply (mean_range 1 7); trivial;
        apply answered_scores_range.
    + apply answered_scores_range.
    + apply Forall_forall. intros [rel v] Hv. apply in_map_iff in Hv.
      destruct Hv as [rel' [E _]]. inversion E; subst.
      apply category_average_on_scale.
  - intros E. unfold all_answered_scores. now rewrite E.
  - intros Hne. pose proof (all_answered_scores_range responses) as Hr.
    destruct (all_answered_scores responses) as [|x l] eqn:E.
    + exfalso. unfold all_answered_scores in E.
      destruct (question_entries question_numbers responses) as [|[q st] rest] eqn:Eq;
        [congruence|].
      assert (Hin : In (q, st) (question_entries question_numbers responses))
        by (rewrite Eq; now left).
      apply question_entries_In in Hin. destruct Hin as [_ Hin].
      apply question_entry_Some in Hin. destruct Hin as [Hn [Hs _]].
      cbn [flat_map snd] in E. rewrite Hs in E.
      destruct (answered_scores q responses); [congruence|discriminate].
    + apply (round2_range 1 7); apply (mean_range 1 7); trivial; discriminate.
Qed.

(** ** The entries of the ranked lists *)

Lemma round_half_even_between (q : Q) (z : Z) :
  ((inject_Z z <= q)%Q -> (z <= round_half_even q)%Z) /\
  ((q <= inject_Z z)%Q -> (round_half_even q <= z)%Z).
Proof.
  destruct q as [a b]. unfold Qle, inject_Z, round_half_even. cbn [Qnum Qden].
  pose proof (Z.div_mod a (Zpos b) ltac:(discriminate)) as Hdm.
  pose proof (Z.mod_pos_bound a (Zpos b) ltac:(reflexivity)) as Hr.
  remember (a / Zpos b)%Z as f eqn:Ef.
  remember (a mod Zpos b)%Z as r eqn:Er.
  split; intros H.
  - assert (Hf : (z <= f)%Z) by nia.
    destruct (2 * r ?= Zpos b)%Z; [destruct (Z.even f)| |]; lia.
  - assert (Hf : (f < z \/ (f = z /\ r = 0))%Z) by nia.
    destruct (2 * r ?= Zpos b)%Z eqn:Ec.
    + apply Z.compare_eq in Ec. destruct (Z.even f); lia.
    + lia.
    + apply Z.compare_gt_iff in Ec. lia.
Qed.

Lemma two_power_pos (e : Z) : (0 < Qpower 2 e)%Q.
Proof. now apply Qpower_0_lt. Qed.

Lemma ilog2_le (x : Q) : (0 < x)%Q -> (Qpower 2 (ilog2 x) <= x)%Q.
Proof.
  intros Hx. unfold ilog2.
  destruct (Qle_bool _ x) eqn:E; [now apply Qle_bool_iff|]. clear E.
  destruct x as [a b]. cbn [Qnum Qden].
  assert (Ha : (0 < a)%Z) by (unfold Qlt in Hx; cbn in Hx; lia).
  pose proof (Z.log2_spec a Ha) as [Ha1 _].
  pose proof (Z.log2_spec (Zpos b) ltac:(reflexivity)) as [_ Hb2].
  pose proof (Z.log2_nonneg a) as Hla.
  pose proof (Z.log2_nonneg (Zpos b)) as Hlb.
  replace (Z.log2 a - Z.log2 (Zpos b) - 1)%Z
    with (Z.log2 a - Z.succ (Z.log2 (Zpos b)))%Z by lia.
  rewrite Qpower_minus by discriminate.
  rewrite <- !(Zpower_Qpower 2) by lia.
  assert (Hp : (0 < 2 ^ Z.succ (Z.log2 (Zpos b)))%Z) by (apply Z.pow_pos_nonneg; lia).
  apply Qle_shift_div_r.
  - rewrite <- (Zlt_Qlt 0). exact Hp.
  - unfold Qle, Qmult, inject_Z. cbn [Qnum Qden]. 
    rewrite Z.mul_1_r, Pos.mul_1_r.
    nia.
Qed.

Lemma two_power_Z (n : Z) : (0 <= n)%Z -> (inject_Z (2 ^ n) == Qpower 2 n)%Q.
Proof. intros H. now rewrite (Zpower_Qpower 2 n H). Qed.

Lemma float_round_pos_between (x : Q) (k : Z) :
  (0 < x)%Q -> (k <= 2 ^ 53)%Z ->
  ((inject_Z k <= x)%Q -> (inject_Z k <= float_round_pos x)%Q) /\
  ((x <= inject_Z k)%Q -> (float_round_pos x <= inject_Z k)%Q).
Proof.
  intros Hx Hk. unfold float_round_pos.
  set (e := Z.max (ilog2 x) (-1022)).
  set (ulp := Qpower 2 (e - 52)).
  assert (Hulp : (0 < ulp)%Q) by apply two_power_pos.
  set (m := round_half_even (x / ulp)).
  destruct (Z.le_gt_cases e 52) as [He|He].
  - set (c := (2 ^ (52 - e))%Z).
    assert (Hc : (inject_Z c * ulp == 1)%Q).
    { unfold c, ulp. rewrite two_power_Z by lia.
      rewrite <- Qpower_plus by discriminate.
      replace (52 - e + (e - 52))%Z with 0%Z by lia. reflexivity. }
    assert (Hkc : (inject_Z (k * c) * ulp == inject_Z k)%Q).
    { rewrite inject_Z_mult, <- Qmult_assoc, Hc. apply Qmult_1_r. }
    split; intros H; rewrite Qred_correct.
    + assert (Hm : (k * c <= m)%Z).
      { apply (proj1 (round_half_even_between (x / ulp) (k * c))).
        apply Qle_shift_div_l; [exact Hulp|]. now rewrite Hkc. }
      rewrite <- Hkc. apply Qmult_le_compat_r; [|now apply Qlt_le_weak].
      now rewrite <- Zle_Qle.
    + assert (Hm : (m <= k * c)%Z).
      { apply (proj2 (round_half_even_between (x / ulp) (k * c))).
        apply Qle_shift_div_r; [exact Hulp|]. now rewrite Hkc. }
      rewrite <- Hkc. apply Qmult_le_compat_r; [|now apply Qlt_le_weak].
      now rewrite <- Zle_Qle.
  - assert (Ee : e = ilog2 x) by (unfold e in *; lia).
    assert (Hex : (Qpower 2 e <= x)%Q) by (rewrite Ee; now apply ilog2_le).
    assert (H53 : (inject_Z (2 ^ 53) <= Qpower 2 e)%Q).
    { rewrite two_power_Z by lia. apply Qpower_le_compat_l; [lia|discriminate]. }
    assert (H52 : (inject_Z (2 ^ 52) * ulp == Qpower 2 e)%Q).
    { unfold ulp. rewrite two_power_Z by lia.
      rewrite <- Qpower_plus by discriminate.
      replace (52 + (e - 52))%Z with e by lia. reflexivity. }
    assert (Hk53 : (inject_Z k <= inject_Z (2 ^ 53))%Q) by now rewrite <- Zle_Qle.
    split; intros H; rewrite Qred_correct.
    + assert (Hm : (2 ^ 52 <= m)%Z).
      { apply (proj1 (round_half_even_between (x / ulp) (2 ^ 52))).
        apply Qle_shift_div_l; [exact Hulp|]. now rewrite H52. }
      apply (Qle_trans _ (Qpower 2 e)); [now apply (Qle_trans _ _ _ Hk53)|].
      rewrite <- H52. apply Qmult_le_compat_r; [|now apply Qlt_le_weak].
      now rewrite <- Zle_Qle.
    + assert (Hxe : (x <= Qpower 2 e)%Q).
      { apply (Qle_trans _ _ _ H). now apply (Qle_trans _ _ _ Hk53). }
      assert (Hm : (m <= 2 ^ 52)%Z).
      { apply (proj2 (round_half_even_between (x / ulp) (2 ^ 52))).
        apply Qle_shift_div_r; [exact Hulp|]. now rewrite H52. }
      apply (Qle_trans _ x); [|exact H].
      apply (Qle_trans _ (Qpower 2 e)); [|exact Hex].
      rewrite <- H52. apply Qmult_le_compat_r; [|now apply Qlt_le_weak].
      now rewrite <- Zle_Qle.
Qed.

Lemma float_round_pos_nonneg (x : Q) : (0 < x)%Q -> (0 <= float_round_pos x)%Q.
Proof.
  intros Hx. apply (proj1 (float_round_pos_between x 0 Hx ltac:(lia))).
  now apply Qlt_le_weak.
Qed.

(** A double lies between the integers its quotient lies between, as long
    as these are doubles themselves. *)
Lemma float_round_between (lo hi : Z) (x : Q) :
  (- 2 ^ 53 <= lo)%Z -> (hi <= 2 ^ 53)%Z ->
  (inject_Z lo <= x)%Q -> (x <= inject_Z hi)%Q ->
  (inject_Z lo <= float_round x)%Q /\ (float_round x <= inject_Z hi)%Q.
Proof.
  intros Hlo Hhi Hl Hh. unfold float_round.
  assert (Hlh : (lo <= hi)%Z) by (rewrite Zle_Qle; now apply (Qle_trans _ x)).
  destruct x as [a b]. cbn [Qnum]. destruct a as [|a|a].
  - unfold Qle, inject_Z in *. cbn [Qnum Qden] in *. lia.
  - assert (Hx : (0 < Zpos a # b)%Q) by reflexivity. split.
    + destruct (Z.le_gt_cases lo 0) as [H0|H0].
      * apply (Qle_trans _ 0); [change 0%Q with (inject_Z 0); now rewrite <- Zle_Qle|].
        now apply float_round_pos_nonneg.
      * apply (float_round_pos_between _ lo Hx); [lia|exact Hl].
    + now apply (float_round_pos_between _ hi Hx).
  - assert (Hx : (0 < - (Zneg a # b))%Q) by reflexivity.
    assert (Hl' : (- (Zneg a # b) <= inject_Z (- lo))%Q).
    { unfold Qle, inject_Z, Qopp in *. cbn [Qnum Qden] in *. lia. }
    assert (Hh' : (inject_Z (- hi) <= - (Zneg a # b))%Q).
    { unfold Qle, inject_Z, Qopp in *. cbn [Qnum Qden] in *. lia. }
    split.
    + assert (H : (float_round_pos (- (Zneg a # b)) <= inject_Z (- lo))%Q).
      { apply (float_round_pos_between _ (- lo) Hx); [lia|exact Hl']. }
      apply Qopp_le_compat in H. rewrite inject_Z_opp, Qopp_involutive in H.
      exact H.
    + assert (H : (inject_Z (- hi) <= float_round_pos (- (Zneg a # b)))%Q).
      { destruct (Z.le_gt_cases (- hi) 0) as [H0|H0].
        - apply (Qle_trans _ 0); [change 0%Q with (inject_Z 0); now rewrite <- Zle_Qle|].
          now apply float_round_pos_nonneg.
        - apply (float_round_pos_between _ (- hi) Hx); [lia|exact Hh']. }
      apply Qopp_le_compat in H. rewrite inject_Z_opp, Qopp_involutive in H.
      exact H.
Qed.

Lemma firstn_In {A} (n : nat) (l : list A) (x : A) : In x (firstn n l) -> In x l.
Proof.
  intros H. rewrite <- (firstn_skipn n l). apply in_or_app. now left.
Qed.

Lemma firstn_NoDup {A} (n : nat) (l : list A) : NoDup l -> NoDup (firstn n l).
Proof.
  intros H. rewrite <- (firstn_skipn n l) in H. now apply NoDup_app_remove_r in H.
Qed.

Lemma once_in_NoDup (k : string) (l : list string) :
  NoDup l -> In k l ->
  List.length (filter (fun label => String.eqb label k) l) = 1%nat.
Proof.
  induction 1 as [|x l Hx Hl IH]; [intros []|]. cbn [filter].
  destruct (String.eqb_spec x k) as [->|Hne].
  - intros _. cbn [List.length]. f_equal.
    apply filter_length_none. apply Forall_forall. intros y Hy.
    apply String.eqb_neq. intros ->. contradiction.
  - intros [->|Hin]; [congruence|]. now apply IH.
Qed.

(** The counts of the labels add up to the number of rankings. *)
Lemma ranks_by_label_total (rows : list (string * Z)) :
  list_sum (map (fun label => List.length (ranks_of label rows))
                (first_occurrences (map fst rows)))
  = List.length rows.
Proof.
  induction rows as [|[k v] rows IH] using rev_ind; [reflexivity|].
  rewrite map_app. cbn [map fst]. rewrite first_occurrences_snoc, length_app.
  cbn [List.length].
  assert (Hsnoc : forall label,
    List.length (ranks_of label (rows ++ [(k, v)]))
    = (List.length (ranks_of label rows)
       + (if String.eqb label k then 1 else 0))%nat).
  { intros label. rewrite ranks_of_snoc, length_app.
    now destruct (String.eqb label k). }
  assert (Hsum : forall l : list string,
    list_sum (map (fun label => List.length (ranks_of label (rows ++ [(k, v)]))) l)
    = (list_sum (map (fun label => List.length (ranks_of label rows)) l)
       + List.length (filter (fun label => String.eqb label k) l))%nat).
  { induction l as [|x l IHl]; [reflexivity|].
    unfold list_sum in *. cbn [map fold_right filter]. rewrite IHl, Hsnoc.
    destruct (String.eqb x k); cbn [List.length]; lia. }
  destruct (existsb (fun y => String.eqb y k) (map fst rows)) eqn:Ex.
  - rewrite Hsum, IH. f_equal.
    apply existsb_eqb_In in Ex.
    apply (proj2 (first_occurrences_In _ _)) in Ex.
    apply once_in_NoDup; [apply first_occurrences_NoDup|exact Ex].
  - rewrite map_app, list_sum_app, Hsum, IH. cbn [map list_sum].
    rewrite Hsnoc, String.eqb_refl.
    assert (Hk : ~ In k (map fst rows))
      by (intros Hi; apply existsb_eqb_In in Hi; congruence).
    rewrite (ranks_of_absent k rows Hk). cbn [List.length].
    assert (Hz : List.length (filter (fun label => String.eqb label k)
                                (first_occurrences (map fst rows))) = 0%nat).
    { apply filter_length_none. apply Forall_forall. intros y Hy.
      apply String.eqb_neq. intros ->.
      now apply Hk, (proj1 (first_occurrences_In _ _)). }
    rewrite Hz. cbn. lia.
Qed.

Lemma mean_ranks_entries (rows : list (string * Z)) :
  Forall (entry_of rows) (mean_ranks rows).
Proof.
  apply Forall_forall. intros e He. unfold mean_ranks in He.
  apply in_map_iff in He. destruct He as [label [<- Hl]].
  apply (proj1 (first_occurrences_In _ _)) in Hl.
  split; [now apply ranks_of_present|]. split; reflexivity.
Qed.

Lemma ranks_of_range (lo hi : Z) (label : string) (rows : list (string * Z)) :
  Forall (fun p => (lo <= snd p <= hi)%Z) rows ->
  Forall (fun x => (lo <= x <= hi)%Z) (ranks_of label rows).
Proof.
  intros H. unfold ranks_of. apply Forall_forall. intros x Hx.
  apply in_map_iff in Hx. destruct Hx as [p [<- Hp]].
  apply filter_In in Hp. rewrite Forall_forall in H. now apply H.
Qed.

Lemma sorted_top_describes (rows : list (string * Z)) :
  describes rows (firstn 10 (sort_reverse avg_rank (mean_ranks rows))).
Proof.
  pose proof (sort_reverse_perm avg_rank (mean_ranks rows)) as Hp.
  assert (Hent : Forall (entry_of rows) (sort_reverse avg_rank (mean_ranks rows))).
  { apply Forall_forall. intros e He.
    pose proof (mean_ranks_entries rows) as H. rewrite Forall_forall in H.
    apply H. now apply (Permutation_in _ Hp). }
  split; [|split; [|split]].
  - rewrite <- firstn_map. apply firstn_NoDup.
    apply (Permutation_NoDup (Permutation_sym (Permutation_map ranked_label Hp))).
    destruct (mean_ranks_labels rows) as [_ [H _]]. exact H.
  - apply Forall_forall. intros e He. apply firstn_In in He.
    rewrite Forall_forall in Hent. now apply Hent.
  - intros lo hi Hlo Hhi Hr. apply Forall_forall. intros e He.
    apply firstn_In in He.
    rewrite Forall_forall in Hent. destruct (Hent e He) as [Hne [Ha _]].
    rewrite Ha.
    destruct (mean_range lo hi (ranks_of (ranked_label e) rows) Hne
                (ranks_of_range lo hi _ rows Hr)) as [Hm1 Hm2].
    now apply float_round_between.
  - intros Hlen.
    assert (Hl : List.length (sort_reverse avg_rank (mean_ranks rows))
                 = List.length (first_occurrences (map fst rows))).
    { rewrite (Permutation_length Hp). unfold mean_ranks. apply length_map. }
    rewrite firstn_all2 by lia.
    rewrite (Permutation_list_sum (Permutation_map snd Hp)).
    unfold mean_ranks. rewrite map_map. cbn [snd]. apply ranks_by_label_total.
Qed.

(** In the lists of strengths and of opportunities of the report no label
    comes twice; an entry carries the mean of the ranks given to its label,
    as the float nearest to their arithmetic mean, and their number, at
    least one; when all stored ranks lie between two bounds that are floats
    themselves, 1 and 5 say, so does every mean shown; and with at most ten
    distinct labels the numbers of the entries add up to the number of
    rankings. *)
Theorem view_report_top_entries (responses : list SurveyResponse) :
  exists c,
    view_report responses = Ok c /\
    describes (strength_rows responses) (top_strengths c) /\
    describes (opportunity_rows responses) (top_opportunities c).
Proof.
  destruct (view_report_ok responses) as [c [Hc [_ [Hs [Ho _]]]]].
  exists c. split; [exact Hc|]. rewrite Hs, Ho.
  split; apply sorted_top_describes.
Qed.

Lemma view_report_top_entries_witness :
  exists c,
    view_report responses_close_ranks = Ok c /\
    Forall (fun e => (1 <= avg_rank e)%Q /\ (avg_rank e <= 5)%Q)
           (top_opportunities c) /\
    list_sum (map snd (top_opportunities c)) = 3%nat.
Proof.
  destruct (view_report_top_entries responses_close_ranks)
    as [c [Hc [_ [_ [_ [Hb Hn]]]]]].
  exists c. split; [exact Hc|]. split.
  - apply (Hb 1%Z 5%Z); [lia|lia|].
    repeat (constructor; [cbn; lia|]). constructor.
  - apply Hn. vm_compute. lia.
Defined.

(** ** What a valid survey form holds *)

Lemma choice_field_clean_ok (choices : list string) (value : string) :
  field_errors "x" (choice_field_clean choices value) = [] <->
  In value choices /\ value <> EmptyString.
Proof.
  unfold choice_field_clean.
  destruct value as [|c v]; cbn [PyStr.truthy negb field_errors].
  - split; [discriminate|]. intros [_ H]. congruence.
  - destruct (existsb (String.eqb (String c v)) choices) eqn:E;
      cbn [field_errors]; split.
    + intros _. split; [|discriminate].
      apply existsb_exists in E. destruct E as [y [Hy E]].
      apply String.eqb_eq in E. now subst.
    + reflexivity.
    + discriminate.
    + intros [Hin _]. exfalso.
      assert (Ht : existsb (String.eqb (String c v)) choices = true).
      { apply existsb_exists. exists (String c v). split; [exact Hin|].
        apply String.eqb_refl. }
      congruence.
Qed.

Lemma field_errors_name {A} (name name' : string) (r : result A) :
  field_errors name r = [] <-> field_errors name' r = [].
Proof. destruct r as [a|[]]; cbn; split; congruence. Qed.

Lemma multiple_choice_field_clean_ok (choices value : list string) :
  (exists v, multiple_choice_field_clean choices value = Ok v) <->
  value <> [] /\ Forall (fun id => In id choices) value.
Proof.
  unfold multiple_choice_field_clean. destruct value as [|x l].
  - split; [intros [v H]; discriminate|]. intros [H _]. congruence.
  - destruct (find _ (x :: l)) as [bad|] eqn:E; split.
    + intros [v H]. discriminate.
    + intros [_ Hall]. exfalso. apply find_some in E. destruct E as [Hin Hb].
      rewrite Forall_forall in Hall. specialize (Hall bad Hin).
      apply negb_true_iff in Hb.
      assert (Ht : existsb (String.eqb bad) choices = true).
      { apply existsb_exists. exists bad. split; [exact Hall|apply String.eqb_refl]. }
      congruence.
    + intros _. split; [discriminate|]. apply Forall_forall. intros id Hid.
      pose proof (find_none _ _ E id Hid) as Hn. apply negb_false_iff in Hn.
      apply existsb_exists in Hn. destruct Hn as [y [Hy Ey]].
      apply String.eqb_eq in Ey. now subst.
    + intros _. eauto.
Qed.

Lemma strengths_cleaned_ok (post : PostData) :
  field_errors "strengths" (strengths_cleaned post) = [] <->
  five_of get_strength_choices (post_strengths post).
Proof.
  unfold strengths_cleaned, five_of.
  pose proof (multiple_choice_field_clean_ok (choice_ids get_strength_choices)
                (post_strengths post)) as Hm.
  destruct (multiple_choice_field_clean _ (post_strengths post)) as [v|e] eqn:E.
  - assert (Hv : v = post_strengths post).
    { unfold multiple_choice_field_clean in E.
      destruct (post_strengths post); [discriminate|].
      destruct (find _ _); [discriminate|]. now inversion E. }
    subst v. cbn [Py.bind]. unfold clean_strengths.
    destruct (proj1 Hm (ex_intro _ _ eq_refl)) as [_ Hall].
    destruct (Nat.eqb_spec (List.length (post_strengths post)) 5) as [El|Nl];
      cbn [negb field_errors]; split; try tauto; try discriminate.
  - cbn [Py.bind]. split.
    + intros Hnil. exfalso.
      unfold multiple_choice_field_clean in E.
      destruct (post_strengths post); [inversion E; subst; discriminate|].
      destruct (find _ _); inversion E; subst; discriminate.
    + intros [Hl Hall]. exfalso.
      assert (Hne : post_strengths post <> []) by (destruct (post_strengths post); cbn in Hl; congruence).
      destruct (proj2 Hm (conj Hne Hall)) as [v Hv]. discriminate.
Qed.

Lemma opportunities_cleaned_ok (post : PostData) :
  field_errors "opportunities" (opportunities_cleaned post) = [] <->
  five_of get_opportunity_choices (post_opportunities post).
Proof.
  unfold opportunities_cleaned, five_of.
  pose proof (multiple_choice_field_clean_ok (choice_ids get_opportunity_choices)
                (post_opportunities post)) as Hm.
  destruct (multiple_choice_field_clean _ (post_opportunities post)) as [v|e] eqn:E.
  - assert (Hv : v = post_opportunities post).
    { unfold multiple_choice_field_clean in E.
      destruct (post_opportunities post); [discriminate|].
      destruct (find _ _); [discriminate|]. now inversion E. }
    subst v. cbn [Py.bind]. unfold clean_opportunities.
    destruct (proj1 Hm (ex_intro _ _ eq_refl)) as [_ Hall].
    destruct (Nat.eqb_spec (List.length (post_opportunities post)) 5) as [El|Nl];
      cbn [negb field_errors]; split; try tauto; try discriminate.
  - cbn [Py.bind]. split.
    + intros Hnil. exfalso.
      unfold multiple_choice_field_clean in E.
      destruct (post_opportunities post); [inversion E; subst; discriminate|].
      destruct (find _ _); inversion E; subst; discriminate.
    + intros [Hl Hall]. exfalso.
      assert (Hne : post_opportunities post <> [])
        by (destruct (post_opportunities post); cbn in Hl; congruence).
      destruct (proj2 Hm (conj Hne Hall)) as [v Hv]. discriminate.
Qed.

Lemma flat_map_nil {A B} (f : A -> list B) (l : list A) :
  flat_map f l = [] <-> Forall (fun x => f x = []) l.
Proof.
  induction l as [|x l IH]; [split; [constructor|reflexivity]|].
  cbn [flat_map]. split.
  - intros H. apply app_eq_nil in H. destruct H as [Hx Hl].
    constructor; [exact Hx|now apply IH].
  - intros H. inversion H as [|? ? Hx Hl]; subst. rewrite Hx. now apply IH.
Qed.

Lemma char_field_clean_ok (name value : string) :
  field_errors name (char_field_clean value) = [] <-> clean_text value.
Proof.
  unfold char_field_clean, clean_text.
  destruct (PyStr.contains "000" (PyStr.strip value)); cbn; split; congruence.
Qed.

Lemma app_nil_both {A} (l l' : list A) : l ++ l' = [] <-> l = [] /\ l' = [].
Proof.
  split; [apply app_eq_nil|]. intros [-> ->]. reflexivity.
Qed.

Lemma common_errors_nil (post : PostData) :
  common_errors post = [] <-> well_filled post.
Proof.
  unfold common_errors, well_filled.
  assert (Hq : flat_map (fun i => field_errors (q_field_name i)
                                    (choice_field_clean LIKERT_CHOICES (post_q post i)))
                        (seq 2 54) = []
               <-> (forall q_num, In q_num question_numbers ->
                      In (post_q post q_num) LIKERT_CHOICES)).
  { rewrite flat_map_nil, Forall_forall. split; intros H q Hq.
    - specialize (H q Hq).
      apply (field_errors_name _ "x") in H. now apply choice_field_clean_ok in H.
    - apply (field_errors_name _ "x"). apply choice_field_clean_ok.
      split; [now apply H|]. intros E. specialize (H q Hq). rewrite E in H.
      cbn in H. intuition discriminate. }
  pose proof (char_field_clean_ok "continue_doing" (post_continue_doing post)) as H1.
  pose proof (char_field_clean_ok "stop_doing" (post_stop_doing post)) as H2.
  pose proof (char_field_clean_ok "start_doing" (post_start_doing post)) as H3.
  pose proof (strengths_cleaned_ok post) as H4.
  pose proof (opportunities_cleaned_ok post) as H5.
  split.
  - intros H.
    apply app_eq_nil in H. destruct H as [Ha H].
    apply app_eq_nil in H. destruct H as [Hb H].
    apply app_eq_nil in H. destruct H as [Hc H].
    apply app_eq_nil in H. destruct H as [Hd H].
    apply app_eq_nil in H. destruct H as [He Hf].
    tauto.
  - intros [Ha [Hb [Hc [Hd [He Hf]]]]].
    rewrite (proj2 Hq Ha), (proj2 H1 Hb), (proj2 H2 Hc), (proj2 H3 Hd),
      (proj2 H4 He), (proj2 H5 Hf). reflexivity.
Qed.

(** A form is valid exactly when its fields are well filled: each of the 54
    answers one of the seven Likert values, the open texts without a null
    character, five strengths and five opportunities among the choices, and,
    for a participant, a relationship among the five offered, 'self' not
    being one of them. *)
Theorem survey_forms_valid_iff (post : PostData) :
  (form_is_valid (LeaderSelfAssessmentForm_errors post) = true
   <-> well_filled post) /\
  (form_is_valid (SurveyResponseForm_errors post) = true
   <-> In (post_relationship post) participant_choices /\ well_filled post) /\
  ~ In "self" participant_choices.
Proof.
  split; [|split].
  - unfold LeaderSelfAssessmentForm_errors. rewrite form_is_valid_nil.
    apply common_errors_nil.
  - unfold SurveyResponseForm_errors. rewrite form_is_valid_nil.
    pose proof (choice_field_clean_ok participant_choices (post_relationship post))
      as Hr.
    pose proof (field_errors_name "relationship" "x"
                  (choice_field_clean participant_choices (post_relationship post)))
      as Hn.
    pose proof (common_errors_nil post) as Hc. split.
    + intros H. apply app_eq_nil in H. destruct H as [Ha Hb]. tauto.
    + intros [Ha Hb].
      assert (Hne : post_relationship post <> EmptyString).
      { intros E. rewrite E in Ha. cbn in Ha. intuition discriminate. }
      rewrite (proj2 Hn (proj2 Hr (conj Ha Hne))), (proj2 Hc Hb). reflexivity.
  - cbn. intuition discriminate.
Qed.

(** ** What a successful submission stores *)

Lemma nodupb_NoDup (l : list string) : nodupb l = true -> NoDup l.
Proof.
  induction l as [|x l IH]; [constructor|].
  cbn [nodupb]. intros H. apply andb_true_iff in H. destruct H as [Hx Hl].
  constructor; [|now apply IH]. intros Hin. apply negb_true_iff in Hx.
  assert (Ht : existsb (String.eqb x) l = true).
  { apply existsb_exists. exists x. split; [exact Hin|apply String.eqb_refl]. }
  congruence.
Qed.

(** The keys of the choices lead to their labels, which are pairwise
    distinct. *)
Lemma choice_lookup (choices : list string) :
  forallb (fun id => match (n <- int_of_str id ;; getitem choices n) with
                     | Ok _ => true
                     | Raise _ => false
                     end) (choice_ids choices) = true ->
  forall id, In id (choice_ids choices) ->
    (n <- int_of_str id ;; getitem choices n) = Ok (choice_text choices id).
Proof.
  intros H id Hid. rewrite forallb_forall in H. specialize (H id Hid).
  unfold choice_text. now destruct (n <- int_of_str id ;; getitem choices n).
Qed.

Lemma strength_lookup (id : string) :
  In id (choice_ids get_strength_choices) ->
  (n <- int_of_str id ;; getitem get_strength_choices n)
  = Ok (choice_text get_strength_choices id).
Proof. apply choice_lookup. vm_compute. reflexivity. Qed.

Lemma opportunity_lookup (id : string) :
  In id (choice_ids get_opportunity_choices) ->
  (n <- int_of_str id ;; getitem get_opportunity_choices n)
  = Ok (choice_text get_opportunity_choices id).
Proof. apply choice_lookup. vm_compute. reflexivity. Qed.

Lemma lookup_steps (choices : list string) (id text : string) :
  (n <- int_of_str id ;; getitem choices n) = Ok text ->
  exists n, int_of_str id = Ok n /\ getitem choices n = Ok text.
Proof.
  destruct (int_of_str id) as [n|e]; cbn [Py.bind]; [|discriminate]. eauto.
Qed.

Lemma strength_texts_NoDup :
  NoDup (map (choice_text get_strength_choices) (choice_ids get_strength_choices)).
Proof. apply nodupb_NoDup. vm_compute. reflexivity. Qed.

Lemma opportunity_texts_NoDup :
  NoDup (map (choice_text get_opportunity_choices)
             (choice_ids get_opportunity_choices)).
Proof. apply nodupb_NoDup. vm_compute. reflexivity. Qed.

Lemma NoDup_map_on {A B} (f : A -> B) (L l : list A) :
  NoDup (map f L) -> incl l L -> NoDup l -> NoDup (map f l).
Proof.
  intros HL Hincl Hl.
  assert (Hinj : forall x y, In x L -> In y L -> f x = f y -> x = y).
  { clear l Hincl Hl. induction L as [|a L IH]; [intros x y []|].
    cbn [map] in HL. inversion HL as [|? ? Ha HL']; subst.
    intros x y [->|Hx] [->|Hy] E; trivial.
    - exfalso. apply Ha. rewrite E. now apply in_map.
    - exfalso. apply Ha. rewrite <- E. now apply in_map.
    - now apply IH. }
  induction Hl as [|x l Hx Hl IH]; [constructor|].
  cbn [map]. constructor.
  - intros Hin. apply in_map_iff in Hin. destruct Hin as [y [E Hy]].
    apply Hx. rewrite <- (Hinj y x); trivial.
    + apply Hincl. now right.
    + apply Hincl. now left.
  - apply IH. intros y Hy. apply Hincl. now right.
Qed.

Lemma get_response_last (db : DB) (pre : list SurveyResponse) (r : SurveyResponse) :
  ~ In (resp_id r) (map resp_id pre) ->
  get_response (resp_id r) (with_responses db (pre ++ [r])) = Some r.
Proof.
  unfold get_response. cbn [responses with_responses]. intros H.
  induction pre as [|x pre IH]; cbn [app find].
  - now rewrite Nat.eqb_refl.
  - cbn [map] in H. destruct (Nat.eqb_spec (resp_id x) (resp_id r)) as [E|_].
    + exfalso. apply H. now left.
    + apply IH. intros Hin. apply H. now right.
Qed.

Lemma update_response_last (db : DB) (pre : list SurveyResponse) (r : SurveyResponse)
      (f : SurveyResponse -> SurveyResponse) :
  ~ In (resp_id r) (map resp_id pre) ->
  update_response (resp_id r) f (with_responses db (pre ++ [r]))
  = with_responses db (pre ++ [f r]).
Proof.
  unfold update_response, with_responses. cbn [responses surveys invitations].
  intros H. f_equal. rewrite map_app. cbn [map]. rewrite Nat.eqb_refl. f_equal.
  induction pre as [|x pre IH]; [reflexivity|].
  cbn [map] in *. destruct (Nat.eqb_spec (resp_id x) (resp_id r)) as [E|_].
  - exfalso. apply H. now left.
  - f_equal. apply IH. intros Hin. apply H. now right.
Qed.

Lemma save_strength_rankings_ok (post : PostData) (db : DB)
      (pre : list SurveyResponse) (ids : list string) :
  forall (i : nat) (r : SurveyResponse),
    ~ In (resp_id r) (map resp_id pre) ->
    Forall (fun id => In id (choice_ids get_strength_choices)) ids ->
    ranks_storable post "strength_rank_" i ids = true ->
    NoDup (map (choice_text get_strength_choices) ids) ->
    (forall id, In id ids ->
       ~ In (choice_text get_strength_choices id)
            (map strength (strength_rankings r))) ->
    save_strength_rankings post (resp_id r) i ids (with_responses db (pre ++ [r]))
    = (None,
       with_responses db
         (pre ++ [with_rankings r
                    (strength_rankings r ++ expected_strengths post i ids)
                    (opportunity_rankings r)])).
Proof.
  induction ids as [|id rest IH]; intros i r Hfresh Hids Hparse Hnd Hnew.
  - cbn [save_strength_rankings expected_strengths]. rewrite app_nil_r.
    now destruct r.
  - cbn [save_strength_rankings expected_strengths].
    inversion Hids as [|? ? Hid Hrest]; subst.
    cbn [map] in Hnd. inversion Hnd as [|? ? Hx Hnd']; subst.
    cbn [ranks_storable] in Hparse.
    destruct (lookup_steps _ _ _ (strength_lookup id Hid)) as [n [En Et]].
    rewrite En. cbn [Py.bind]. rewrite Et. cbn [Py.bind].
    unfold rank_value.
    destruct (posted_rank post (String.append "strength_rank_" id) i) as [z|e];
      [|discriminate]. cbn [Py.bind].
    apply andb_true_iff in Hparse. destruct Hparse as [Hfit Hparse].
    unfold create_strength_ranking. rewrite Hfit. cbn [negb]. rewrite (get_response_last db pre r Hfresh).
    assert (Hex : existsb (fun s => String.eqb (strength s)
                                      (choice_text get_strength_choices id))
                          (strength_rankings r) = false).
    { apply not_true_is_false. intros Ht. apply existsb_exists in Ht.
      destruct Ht as [s [Hs Es]]. apply String.eqb_eq in Es.
      apply (Hnew id (or_introl eq_refl)). rewrite <- Es. now apply in_map. }
    rewrite Hex, update_response_last by exact Hfresh.
    set (r' := with_rankings r
                 (strength_rankings r
                  ++ [ {| strength := choice_text get_strength_choices id;
                          s_rank := z |} ])
                 (opportunity_rankings r)).
    change (resp_id r) with (resp_id r').
    rewrite (IH (S i) r'); trivial.
    + unfold r'. cbn. now rewrite <- app_assoc.
    + intros id' Hid' Hin. unfold r' in Hin. cbn in Hin.
      rewrite map_app in Hin. apply in_app_or in Hin. destruct Hin as [Hin|Hin].
      * now apply (Hnew id' (or_intror Hid')).
      * cbn in Hin. destruct Hin as [E|[]]. apply Hx. rewrite E. now apply in_map.
Qed.

Lemma save_opportunity_rankings_ok (post : PostData) (db : DB)
      (pre : list SurveyResponse) (ids : list string) :
  forall (i : nat) (r : SurveyResponse),
    ~ In (resp_id r) (map resp_id pre) ->
    Forall (fun id => In id (choice_ids get_opportunity_choices)) ids ->
    ranks_storable post "opportunity_rank_" i ids = true ->
    NoDup (map (choice_text get_opportunity_choices) ids) ->
    (forall id, In id ids ->
       ~ In (choice_text get_opportunity_choices id)
            (map opportunity (opportunity_rankings r))) ->
    save_opportunity_rankings post (resp_id r) i ids (with_responses db (pre ++ [r]))
    = (None,
       with_responses db
         (pre ++ [with_rankings r (strength_rankings r)
                    (opportunity_rankings r ++ expected_opportunities post i ids)])).
Proof.
  induction ids as [|id rest IH]; intros i r Hfresh Hids Hparse Hnd Hnew.
  - cbn [save_opportunity_rankings expected_opportunities]. rewrite app_nil_r.
    now destruct r.
  - cbn [save_opportunity_rankings expected_opportunities].
    inversion Hids as [|? ? Hid Hrest]; subst.
    cbn [map] in Hnd. inversion Hnd as [|? ? Hx Hnd']; subst.
    cbn [ranks_storable] in Hparse.
    destruct (lookup_steps _ _ _ (opportunity_lookup id Hid)) as [n [En Et]].
    rewrite En. cbn [Py.bind]. rewrite Et. cbn [Py.bind].
    unfold rank_value.
    destruct (posted_rank post (String.append "opportunity_rank_" id) i) as [z|e];
      [|discriminate]. cbn [Py.bind].
    apply andb_true_iff in Hparse. destruct Hparse as [Hfit Hparse].
    unfold create_opportunity_ranking. rewrite Hfit. cbn [negb]. rewrite (get_response_last db pre r Hfresh).
    assert (Hex : existsb (fun o => String.eqb (opportunity o)
                                      (choice_text get_opportunity_choices id))
                          (opportunity_rankings r) = false).
    { apply not_true_is_false. intros Ht. apply existsb_exists in Ht.
      destruct Ht as [o [Ho Eo]]. apply String.eqb_eq in Eo.
      apply (Hnew id (or_introl eq_refl)). rewrite <- Eo. now apply in_map. }
    rewrite Hex, update_response_last by exact Hfresh.
    set (r' := with_rankings r (strength_rankings r)
                 (opportunity_rankings r
                  ++ [ {| opportunity := choice_text get_opportunity_choices id;
                          o_rank := z |} ])).
    change (resp_id r) with (resp_id r').
    rewrite (IH (S i) r'); trivial.
    + unfold r'. cbn. now rewrite <- app_assoc.
    + intros id' Hid' Hin. unfold r' in Hin. cbn in Hin.
      rewrite map_app in Hin. apply in_app_or in Hin. destruct Hin as [Hin|Hin].
      * now apply (Hnew id' (or_intror Hid')).
      * cbn in Hin. destruct Hin as [E|[]]. apply Hx. rewrite E. now apply in_map.
Qed.

Lemma survey_response_form_valid (post : PostData) :
  form_is_valid (SurveyResponseForm_errors post) = true ->
  In (post_relationship post) participant_choices /\ well_filled post.
Proof.
  unfold SurveyResponseForm_errors. rewrite form_is_valid_nil. intros H.
  apply app_eq_nil in H. destruct H as [Ha Hb]. split.
  - apply (field_errors_name _ "x") in Ha. now apply choice_field_clean_ok in Ha.
  - now apply common_errors_nil.
Qed.

Lemma expected_strengths_shape (post : PostData) (ids : list string) :
  forall i,
    map strength (expected_strengths post i ids)
    = map (choice_text get_strength_choices) ids /\
    ((forall id, post_get post (String.append "strength_rank_" id) = None) ->
     map s_rank (expected_strengths post i ids)
     = map (fun k => (5 - Z.of_nat k)%Z) (seq i (List.length ids))).
Proof.
  induction ids as [|id rest IH]; intros i; [now split|].
  destruct (IH (S i)) as [IH1 IH2]. cbn [expected_strengths map List.length seq].
  split; [now rewrite IH1|]. intros Hnone. rewrite (IH2 Hnone). f_equal.
  cbn [s_rank]. unfold rank_value, posted_rank. now rewrite Hnone.
Qed.

Lemma expected_opportunities_shape (post : PostData) (ids : list string) :
  forall i,
    map opportunity (expected_opportunities post i ids)
    = map (choice_text get_opportunity_choices) ids /\
    ((forall id, post_get post (String.append "opportunity_rank_" id) = None) ->
     map o_rank (expected_opportunities post i ids)
     = map (fun k => (5 - Z.of_nat k)%Z) (seq i (List.length ids))).
Proof.
  induction ids as [|id rest IH]; intros i; [now split|].
  destruct (IH (S i)) as [IH1 IH2]. cbn [expected_opportunities map List.length seq].
  split; [now rewrite IH1|]. intros Hnone. rewrite (IH2 Hnone). f_equal.
  cbn [o_rank]. unfold rank_value, posted_rank. now rewrite Hnone.
Qed.

Lemma leader_form_valid (post : PostData) :
  form_is_valid (LeaderSelfAssessmentForm_errors post) = true -> well_filled post.
Proof.
  unfold LeaderSelfAssessmentForm_errors. rewrite form_is_valid_nil.
  apply common_errors_nil.
Qed.

Lemma selected_texts_NoDup (post : PostData) :
  well_filled post ->
  NoDup (post_strengths post) -> NoDup (post_opportunities post) ->
  NoDup (map (choice_text get_strength_choices) (post_strengths post)) /\
  NoDup (map (choice_text get_opportunity_choices) (post_opportunities post)).
Proof.
  intros [_ [_ [_ [_ [[_ Hs] [_ Ho]]]]]] Hns Hno. split.
  - apply (NoDup_map_on _ (choice_ids get_strength_choices));
      [apply strength_texts_NoDup| |exact Hns].
    intros id Hid. rewrite Forall_forall in Hs. now apply Hs.
  - apply (NoDup_map_on _ (choice_ids get_opportunity_choices));
      [apply opportunity_texts_NoDup| |exact Hno].
    intros id Hid. rewrite Forall_forall in Ho. now apply Ho.
Qed.

(** The rankings of a well-filled form are all stored, on the response
    inserted for them. *)
Lemma rankings_stored (post : PostData) (db : DB) (r0 : SurveyResponse) :
  well_filled post ->
  NoDup (post_strengths post) -> NoDup (post_opportunities post) ->
  ranks_storable post "strength_rank_" 0 (post_strengths post) = true ->
  ranks_storable post "opportunity_rank_" 0 (post_opportunities post) = true ->
  resp_id r0 = next_id (map resp_id (responses db)) ->
  strength_rankings r0 = [] -> opportunity_rankings r0 = [] ->
  exists db2,
    save_strength_rankings post (resp_id r0) 0 (post_strengths post)
      (with_responses db (responses db ++ [r0])) = (None, db2) /\
    save_opportunity_rankings post (resp_id r0) 0 (post_opportunities post) db2
    = (None,
       with_responses db
         (responses db
          ++ [with_rankings r0 (expected_strengths post 0 (post_strengths post))
                (expected_opportunities post 0 (post_opportunities post))])).
Proof.
  intros Hw Hns Hno Hps Hpo Hid Es Eo.
  destruct (selected_texts_NoDup post Hw Hns Hno) as [Hnds Hndo].
  destruct Hw as [_ [_ [_ [_ [[_ Hs] [_ Ho]]]]]].
  assert (Hfresh : ~ In (resp_id r0) (map resp_id (responses db)))
    by (rewrite Hid; apply list_max_fresh).
  eexists. split.
  - apply (save_strength_rankings_ok post db (responses db) (post_strengths post)
             0 r0 Hfresh Hs Hps Hnds).
    rewrite Es. intros id _ [].
  - rewrite Es, Eo. cbn [app].
    set (r1 := with_rankings r0 _ _).
    change (resp_id r0) with (resp_id r1).
    rewrite (save_opportunity_rankings_ok post db (responses db)
               (post_opportunities post) 0 r1 Hfresh Ho Hpo Hndo)
      by (intros id _ []).
    reflexivity.
Qed.

Lemma participant_survey_view_stores (t : string) (now : datetime) (db : DB)
      (inv : SurveyInvitation) (post : PostData) :
  get_invitation t db = Some inv ->
  Models.is_valid now inv = true ->
  form_is_valid (SurveyResponseForm_errors post) = true ->
  NoDup (post_strengths post) -> NoDup (post_opportunities post) ->
  ranks_storable post "strength_rank_" 0 (post_strengths post) = true ->
  ranks_storable post "opportunity_rank_" 0 (post_opportunities post) = true ->
  participant_survey_view (POST post) t now db
  = (Redirect "thank_you",
     save_invitation (mark_used now inv)
       (with_responses db (responses db ++ [submitted_response post inv db]))).
Proof.
  intros Hget Hvalid Hform Hns Hno Hps Hpo.
  destruct (survey_response_form_valid post Hform) as [_ Hw].
  unfold participant_survey_view. rewrite Hget.
  unfold Models.is_valid in Hvalid. apply andb_true_iff in Hvalid.
  destruct Hvalid as [Hu He]. apply negb_true_iff in Hu, He.
  rewrite Hu, He, Hform. cbn [orb].
  unfold insert_response.
  set (r0 := {| resp_id := next_id (map resp_id (responses db));
                survey := inv_survey inv; invitation := Some (inv_id inv);
                relationship := post_relationship post;
                is_leader_self_assessment := false;
                q_response := post_q post;
                continue_doing := PyStr.strip (post_continue_doing post);
                stop_doing := PyStr.strip (post_stop_doing post);
                start_doing := PyStr.strip (post_start_doing post);
                strength_rankings := []; opportunity_rankings := [] |}).
  destruct (rankings_stored post db r0 Hw Hns Hno Hps Hpo eq_refl eq_refl eq_refl)
    as [db2 [E1 E2]].
  change (save_strength_rankings post (next_id (map resp_id (responses db))) 0
            (post_strengths post) _)
    with (save_strength_rankings post (resp_id r0) 0 (post_strengths post)
            (with_responses db (responses db ++ [r0]))).
  rewrite E1.
  change (next_id (map resp_id (responses db))) with (resp_id r0).
  rewrite E2. reflexivity.
Qed.

Lemma leader_self_assessment_view_stores (t : string) (db : DB) (sv : Survey)
      (post : PostData) :
  get_survey t db = Some sv ->
  leader_completed_self sv = false ->
  form_is_valid (LeaderSelfAssessmentForm_errors post) = true ->
  NoDup (post_strengths post) -> NoDup (post_opportunities post) ->
  ranks_storable post "strength_rank_" 0 (post_strengths post) = true ->
  ranks_storable post "opportunity_rank_" 0 (post_opportunities post) = true ->
  leader_self_assessment_view (POST post) t db
  = (Redirect "leader_dashboard",
     save_survey (complete_self sv)
       (with_responses db (responses db ++ [self_response post sv db]))).
Proof.
  intros Hget Hc Hform Hns Hno Hps Hpo.
  pose proof (leader_form_valid post Hform) as Hw.
  unfold leader_self_assessment_view. rewrite Hget, Hc, Hform.
  unfold insert_response.
  set (r0 := {| resp_id := next_id (map resp_id (responses db));
                survey := survey_id sv; invitation := None;
                relationship := "self";
                is_leader_self_assessment := true;
                q_response := post_q post;
                continue_doing := PyStr.strip (post_continue_doing post);
                stop_doing := PyStr.strip (post_stop_doing post);
                start_doing := PyStr.strip (post_start_doing post);
                strength_rankings := []; opportunity_rankings := [] |}).
  destruct (rankings_stored post db r0 Hw Hns Hno Hps Hpo eq_refl eq_refl eq_refl)
    as [db2 [E1 E2]].
  change (save_strength_rankings post (next_id (map resp_id (responses db))) 0
            (post_strengths post) _)
    with (save_strength_rankings post (resp_id r0) 0 (post_strengths post)
            (with_responses db (responses db ++ [r0]))).
  rewrite E1.
  change (next_id (map resp_id (responses db))) with (resp_id r0).
  rewrite E2. reflexivity.
Qed.

(** A participant's submission with a valid invitation, a valid form, no
    choice selected twice and, where ranks are posted, integer literals of
    values the 64 bits of the column take, succeeds: the response is stored
    with the answers of the form and
    with exactly five rankings per category, of pairwise distinct labels, in
    the order of the selection and with the ranks posted; the invitation is
    saved as used.  Where no rank is posted the ranks are 5, 4, 3, 2, 1. *)
Theorem participant_submission_stored (t : string) (now : datetime) (db : DB)
        (inv : SurveyInvitation) (post : PostData) :
  get_invitation t db = Some inv ->
  Models.is_valid now inv = true ->
  form_is_valid (SurveyResponseForm_errors post) = true ->
  NoDup (post_strengths post) -> NoDup (post_opportunities post) ->
  ranks_storable post "strength_rank_" 0 (post_strengths post) = true ->
  ranks_storable post "opportunity_rank_" 0 (post_opportunities post) = true ->
  let r := submitted_response post inv db in
  participant_survey_view (POST post) t now db
  = (Redirect "thank_you",
     save_invitation (mark_used now inv)
       (with_responses db (responses db ++ [r]))) /\
  List.length (strength_rankings r) = 5%nat /\
  List.length (opportunity_rankings r) = 5%nat /\
  NoDup (map strength (strength_rankings r)) /\
  NoDup (map opportunity (opportunity_rankings r)) /\
  ((forall id, post_get post (String.append "strength_rank_" id) = None) ->
   map s_rank (strength_rankings r) = [5; 4; 3; 2; 1]%Z) /\
  ((forall id, post_get post (String.append "opportunity_rank_" id) = None) ->
   map o_rank (opportunity_rankings r) = [5; 4; 3; 2; 1]%Z).
Proof.
  intros Hget Hvalid Hform Hns Hno Hps Hpo r.
  destruct (survey_response_form_valid post Hform)
    as [_ [_ [_ [_ [_ [[Hls Hs] [Hlo Ho]]]]]]].
  assert (Hnds : NoDup (map (choice_text get_strength_choices) (post_strengths post))).
  { apply (NoDup_map_on _ (choice_ids get_strength_choices));
      [apply strength_texts_NoDup| |exact Hns].
    intros id Hid. rewrite Forall_forall in Hs. now apply Hs. }
  assert (Hndo : NoDup (map (choice_text get_opportunity_choices)
                            (post_opportunities post))).
  { apply (NoDup_map_on _ (choice_ids get_opportunity_choices));
      [apply opportunity_texts_NoDup| |exact Hno].
    intros id Hid. rewrite Forall_forall in Ho. now apply Ho. }
  destruct (expected_strengths_shape post (post_strengths post) 0) as [Es1 Es2].
  destruct (expected_opportunities_shape post (post_opportunities post) 0)
    as [Eo1 Eo2].
  split; [|split; [|split; [|split; [|split; [|split]]]]].
  - now apply participant_survey_view_stores.
  - unfold r. cbn [strength_rankings submitted_response].
    rewrite <- (length_map strength), Es1, length_map. exact Hls.
  - unfold r. cbn [opportunity_rankings submitted_response].
    rewrite <- (length_map opportunity), Eo1, length_map. exact Hlo.
  - unfold r. cbn [strength_rankings submitted_response]. now rewrite Es1.
  - unfold r. cbn [opportunity_rankings submitted_response]. now rewrite Eo1.
  - intros Hnone. unfold r. cbn [strength_rankings submitted_response].
    rewrite (Es2 Hnone), Hls. reflexivity.
  - intros Hnone. unfold r. cbn [opportunity_rankings submitted_response].
    rewrite (Eo2 Hnone), Hlo. reflexivity.
Qed.

Lemma participant_submission_stored_witness :
  fst (participant_survey_view (POST post_default_ranks) "tok" 5%Z db_one_invitation)
  = Redirect "thank_you".
Proof.
  pose proof (participant_submission_stored "tok" 5%Z db_one_invitation
                {| inv_id := 1; inv_survey := 1; email := "a@b.c";
                   token := "tok"; expires_at := 1000%Z;
                   used := false; used_at := None |}
                post_default_ranks eq_refl eq_refl) as H.
  assert (Hform : form_is_valid (SurveyResponseForm_errors post_default_ranks) = true)
    by (vm_compute; reflexivity).
  assert (Hns : NoDup (post_strengths post_default_ranks))
    by (apply nodupb_NoDup; vm_compute; reflexivity).
  assert (Hno : NoDup (post_opportunities post_default_ranks))
    by (apply nodupb_NoDup; vm_compute; reflexivity).
  destruct (H Hform Hns Hno eq_refl eq_refl) as [E _]. now rewrite E.
Defined.

(** ** The guards of the submission handlers *)

(** The two handlers of a participant's submission turn a request away
    exactly when the invitation is not valid at the time of the request, as
    [is_valid] has it: the web handler with the invalid-link page, which it
    also shows for an unknown token, the API handler with status 400, an
    unknown token being answered with status 500.  A request turned away, and
    any GET request, leaves the tables as they are. *)
Theorem submission_guards (request : Method) (data : ApiData) (url_token t : string)
        (now : datetime) (db : DB) :
  (fst (participant_survey_view request t now db) = invalid_link
   <-> forall inv, get_invitation t db = Some inv -> Models.is_valid now inv = false) /\
  (fst (participant_survey_view request t now db) = invalid_link ->
   snd (participant_survey_view request t now db) = db) /\
  snd (participant_survey_view GET t now db) = db /\
  (invitation_token data = Some t ->
   ((exists message,
       fst (api_submit_survey (Some data) url_token now db) = JsonError message 400)
    <-> exists inv, get_invitation t db = Some inv /\ Models.is_valid now inv = false) /\
   (fst (api_submit_survey (Some data) url_token now db) = JsonException Http404
    <-> get_invitation t db = None) /\
   ((exists message,
       fst (api_submit_survey (Some data) url_token now db) = JsonError message 400) ->
    snd (api_submit_survey (Some data) url_token now db) = db)).
Proof.
  split; [|split; [|split]].
  - unfold participant_survey_view, Models.is_valid, invalid_link.
    destruct (get_invitation t db) as [inv|]; [|split; [discriminate|reflexivity]].
    destruct (used inv) eqn:Hu; cbn [orb negb andb].
    { split; [|reflexivity]. intros _ i E. inversion E; subst. now rewrite Hu. }
    destruct (is_expired now inv) eqn:He; cbn [negb].
    { split; [|reflexivity]. intros _ i E. inversion E; subst.
      now rewrite He, andb_false_r. }
    split; [|intros H; specialize (H inv eq_refl); rewrite Hu, He in H;
             discriminate].
    destruct request as [|post]; [discriminate|].
    destruct (form_is_valid _); [|discriminate].
    destruct (insert_response _ db) as [rid db1].
    destruct (save_strength_rankings _ _ _ _ _) as [[e|] db2]; [discriminate|].
    destruct (save_opportunity_rankings _ _ _ _ _) as [[e|] db3]; discriminate.
  - unfold participant_survey_view, invalid_link.
    destruct (get_invitation t db) as [inv|]; [|reflexivity].
    destruct (used inv || is_expired now inv); [reflexivity|].
    destruct request as [|post]; [discriminate|].
    destruct (form_is_valid _); [|discriminate].
    destruct (insert_response _ db) as [rid db1].
    destruct (save_strength_rankings _ _ _ _ _) as [[e|] db2]; [discriminate|].
    destruct (save_opportunity_rankings _ _ _ _ _) as [[e|] db3]; discriminate.
  - unfold participant_survey_view.
    destruct (get_invitation t db) as [inv|]; [|reflexivity].
    now destruct (used inv || is_expired now inv).
  - intros Htok. unfold api_submit_survey, api_target, Models.is_valid.
    rewrite Htok.
    destruct (get_invitation t db) as [inv|].
    2:{ split; [|split].
        - split; [intros [m H]; discriminate|intros [i [H _]]; discriminate].
        - split; reflexivity.
        - intros _. reflexivity. }
    destruct (used inv) eqn:Hu; cbn [negb andb].
    { split; [|split].
      - split; [|intros _; eexists; reflexivity].
        intros _. exists inv. split; [reflexivity|now rewrite Hu].
      - split; discriminate.
      - intros _. reflexivity. }
    destruct (is_expired now inv) eqn:He; cbn [negb].
    { split; [|split].
      - split; [|intros _; eexists; reflexivity].
        intros _. exists inv. split; [reflexivity|now rewrite He, andb_false_r].
      - split; discriminate.
      - intros _. reflexivity. }
    assert (Hother :
      forall answer : HttpResponse * DB,
        (exists e, fst answer = JsonException e /\ e <> Http404)
        \/ (exists m, fst answer = JsonSuccess m) ->
        ((exists message, fst answer = JsonError message 400)
         <-> exists inv0, Some inv = Some inv0
                          /\ negb (used inv0) && negb (is_expired now inv0) = false) /\
        (fst answer = JsonException Http404 <-> Some inv = None) /\
        ((exists message, fst answer = JsonError message 400) -> snd answer = db)).
    { intros answer [[e [E Hne]]|[m E]]; rewrite E;
        (split; [split; [intros [m' H]; discriminate
                        |intros [i [Ei H]]; inversion Ei; subst;
                         rewrite Hu, He in H; discriminate]|]);
        (split; [split; [intros H; inversion H; congruence|discriminate]|]);
        intros [m' H]; discriminate. }
    cbn [option_map]. unfold api_create_response.
    destruct (api_relationship data);
      [|apply Hother; left; exists IntegrityError; split; [reflexivity|discriminate]].
    destruct (forallb _ _);
      [|apply Hother; left; exists IntegrityError; split; [reflexivity|discriminate]].
    destruct (insert_response _ db) as [rid db1].
    assert (Hexn : forall l d e,
              fst (api_save_strengths rid l d) = Some e -> e <> Http404).
    { induction l as [|x l IHl]; intros d e; cbn [api_save_strengths];
        [discriminate|].
      destruct (api_text x), (api_rank x); cbn [api_field Py.bind];
        try (intros H; inversion H; discriminate).
      unfold create_strength_ranking.
      destruct (negb (fits_integer_column _));
        [intros H; inversion H; discriminate|].
      destruct (get_response rid d);
        [|intros H; inversion H; discriminate].
      destruct (existsb _ _); [intros H; inversion H; discriminate|apply IHl]. }
    assert (Hexn' : forall l d e,
              fst (api_save_opportunities rid l d) = Some e -> e <> Http404).
    { induction l as [|x l IHl]; intros d e; cbn [api_save_opportunities];
        [discriminate|].
      destruct (api_text x), (api_rank x); cbn [api_field Py.bind];
        try (intros H; inversion H; discriminate).
      unfold create_opportunity_ranking.
      destruct (negb (fits_integer_column _));
        [intros H; inversion H; discriminate|].
      destruct (get_response rid d);
        [|intros H; inversion H; discriminate].
      destruct (existsb _ _); [intros H; inversion H; discriminate|apply IHl]. }
    pose proof (Hexn (api_strengths data) db1) as H1.
    destruct (api_save_strengths rid (api_strengths data) db1) as [[e|] db2].
    { apply Hother. left. exists e. split; [reflexivity|now apply H1]. }
    pose proof (Hexn' (api_opportunities data) db2) as H2.
    destruct (api_save_opportunities rid (api_opportunities data) db2) as [[e|] db3].
    { apply Hother. left. exists e. split; [reflexivity|now apply H2]. }
    apply Hother. right. eexists. reflexivity.
Qed.

Lemma submission_guards_witness :
  exists message,
    fst (api_submit_survey (Some api_one_opportunity) "" 1001%Z db_one_invitation)
    = JsonError message 400.
Proof.
  destruct (submission_guards GET api_one_opportunity "" "tok" 1001%Z
              db_one_invitation) as [_ [_ [_ H]]].
  destruct (H eq_refl) as [[_ Hr] _]. apply Hr.
  eexists. split; reflexivity.
Defined.

(** ** Incomplete JSON submissions *)

(** A JSON submission without a relationship, or without one of the 54
    answers, or whose body is not JSON at all, stores nothing: the tables are
    left as they are and the answer is not the success message. *)
Theorem api_submit_survey_incomplete (data : ApiData) (token : string)
        (now : datetime) (db : DB) :
  api_relationship data = None
  \/ (exists q_num, In q_num question_numbers /\ api_q data q_num = None) ->
  snd (api_submit_survey (Some data) token now db) = db /\
  ~ accepted (fst (api_submit_survey (Some data) token now db)) /\
  api_submit_survey None token now db = (JsonException JSONDecodeError, db).
Proof.
  intros H. split; [|split; [|reflexivity]].
  - unfold api_submit_survey.
    destruct (api_target data token now db) as [answer|[[sid inv] sv]];
      [reflexivity|].
    assert (E : api_create_response data sid (option_map inv_id inv) db
                = Raise IntegrityError).
    { unfold api_create_response. destruct H as [->|[q [Hq Hn]]]; [reflexivity|].
      destruct (api_relationship data); [|reflexivity].
      destruct (forallb _ (seq 2 54)) eqn:Ef; [|reflexivity].
      rewrite forallb_forall in Ef. specialize (Ef q Hq). now rewrite Hn in Ef. }
    now rewrite E.
  - unfold api_submit_survey.
    destruct (api_target data token now db) as [answer|[[sid inv] sv]] eqn:Et.
    + unfold api_target in Et.
      destruct (invitation_token data) as [tok|].
      * destruct (get_invitation tok db) as [i|]; [|inversion Et; not_accepted].
        destruct (used i); [inversion Et; not_accepted|].
        destruct (is_expired now i); [inversion Et; not_accepted|discriminate].
      * destruct (get_survey token db) as [sv|]; [|inversion Et; not_accepted].
        destruct (leader_completed_self sv); [inversion Et; not_accepted|discriminate].
    + assert (E : api_create_response data sid (option_map inv_id inv) db
                  = Raise IntegrityError).
      { unfold api_create_response. destruct H as [->|[q [Hq Hn]]]; [reflexivity|].
        destruct (api_relationship data); [|reflexivity].
        destruct (forallb _ (seq 2 54)) eqn:Ef; [|reflexivity].
        rewrite forallb_forall in Ef. specialize (Ef q Hq). now rewrite Hn in Ef. }
      rewrite E. not_accepted.
Qed.

Lemma api_submit_survey_incomplete_witness :
  snd (api_submit_survey (Some api_without_relationship) "" 5%Z db_one_invitation)
  = db_one_invitation.
Proof.
  exact (proj1 (api_submit_survey_incomplete api_without_relationship "" 5%Z
                  db_one_invitation (or_introl eq_refl))).
Defined.

(** ** What the dashboard does with the list of addresses *)

Lemma invitation_exists_app (sid : nat) (e : string) (db db' : DB)
      (new : list SurveyInvitation) :
  invitations db' = invitations db ++ new ->
  invitation_exists sid e db = true -> invitation_exists sid e db' = true.
Proof.
  unfold invitation_exists. intros -> H. rewrite existsb_app, H. reflexivity.
Qed.

(** The loop of the handler, from its result: rows are only added, each
    for this survey, unused, with the expiry of the form; every row added is
    counted as sent or listed as failed; and when no exception stops the
    loop, every address of the list has an invitation. *)
Lemma send_invitations_result (env : Env) (sid : nat) (expires : datetime)
      (emails : list string) :
  forall created failed db,
  exists new,
    invitations (snd (send_invitations env sid expires emails created failed db))
    = invitations db ++ new /\
    Forall (fun i => inv_survey i = sid /\ expires_at i = expires /\
                     used i = false /\ used_at i = None /\ In (email i) emails)
           new /\
    (List.length new <= List.length emails)%nat /\
    (snd (fst (fst (send_invitations env sid expires emails created failed db)))
     + List.length
         (snd (fst (send_invitations env sid expires emails created failed db)))
     = created + List.length failed + List.length new)%nat /\
    (fst (fst (fst (send_invitations env sid expires emails created failed db)))
     = None ->
     forall e, In e emails ->
       invitation_exists sid e
         (snd (send_invitations env sid expires emails created failed db)) = true).
Proof.
  induction emails as [|e rest IH]; intros created failed db;
    cbn [send_invitations].
  - exists []. rewrite app_nil_r. cbn.
    split; [reflexivity|]. split; [constructor|]. split; [lia|]. split; [lia|].
    intros _ e [].
  - assert (Hweak : forall new : list SurveyInvitation,
      Forall (fun i => inv_survey i = sid /\ expires_at i = expires /\
                       used i = false /\ used_at i = None /\ In (email i) rest) new ->
      Forall (fun i => inv_survey i = sid /\ expires_at i = expires /\
                       used i = false /\ used_at i = None /\ In (email i) (e :: rest))
             new).
    { intros new. apply Forall_impl. intros i [? [? [? [? ?]]]].
      repeat split; trivial. now right. }
    destruct (invitation_exists sid e db) eqn:Hex; cbn [negb].
    + destruct (IH created failed db) as [new [Hi [Hf [Hl [Hc Hall]]]]].
      exists new. split; [exact Hi|]. split; [now apply Hweak|].
      split; [cbn; lia|]. split; [exact Hc|].
      intros Hnone e' [<-|He'].
      * now apply (invitation_exists_app sid e db _ new Hi).
      * now apply Hall.
    + unfold create_invitation. rewrite Hex, orb_false_r.
      destruct (existsb _ (invitations db)).
      * exists []. rewrite app_nil_r. cbn.
        split; [reflexivity|]. split; [constructor|]. split; [lia|]. split; [lia|].
        discriminate.
      * set (row := {| inv_id := next_id (map inv_id (invitations db));
                       inv_survey := sid; email := e;
                       token := Views.generate_token env
                                  (next_id (map inv_id (invitations db)));
                       expires_at := expires; used := false; used_at := None |}).
        set (db1 := {| surveys := surveys db;
                       invitations := invitations db ++ [row];
                       responses := responses db |}).
        assert (Hrow : invitation_exists sid e db1 = true).
        { unfold invitation_exists. cbn [invitations db1].
          rewrite existsb_app. cbn.
          now rewrite Nat.eqb_refl, String.eqb_refl, orb_true_r. }
        assert (Hrest : forall c f,
          exists new,
            invitations (snd (send_invitations env sid expires rest c f db1))
            = invitations db ++ new /\
            Forall (fun i => inv_survey i = sid /\ expires_at i = expires /\
                             used i = false /\ used_at i = None
                             /\ In (email i) (e :: rest)) new /\
            (List.length new <= List.length (e :: rest))%nat /\
            (snd (fst (fst (send_invitations env sid expires rest c f db1)))
             + List.length (snd (fst (send_invitations env sid expires rest c f db1)))
             + 1 = c + List.length f + List.length new)%nat /\
            (fst (fst (fst (send_invitations env sid expires rest c f db1))) = None ->
             forall e', In e' (e :: rest) ->
               invitation_exists sid e'
                 (snd (send_invitations env sid expires rest c f db1)) = true)).
        { intros c f. destruct (IH c f db1) as [new [Hi [Hf [Hl [Hc Hall]]]]].
          exists (row :: new). cbn [invitations db1] in Hi.
          rewrite <- app_assoc in Hi. split; [exact Hi|].
          split; [constructor; [|now apply Hweak]|].
          { cbn. repeat split. now left. }
          split; [cbn; lia|]. split; [cbn [List.length]; lia|].
          intros Hnone e' [<-|He'].
          - apply (invitation_exists_app sid e db1 _ new); [|exact Hrow].
            cbn [invitations db1]. now rewrite <- app_assoc.
          - now apply Hall. }
        destruct (send_survey_invitation env e).
        -- destruct (Hrest (S created) failed) as [new [Hi [Hf [Hl [Hc Hall]]]]].
           exists new. split; [exact Hi|]. split; [exact Hf|].
           split; [exact Hl|]. split; [lia|exact Hall].
        -- destruct (Hrest created (failed ++ [e])) as [new [Hi [Hf [Hl [Hc Hall]]]]].
           exists new. split; [exact Hi|]. split; [exact Hf|].
           split; [exact Hl|]. split; [|exact Hall].
           rewrite length_app in Hc. cbn [List.length] in Hc. lia.
Qed.

(** When the dashboard answers a POST with the redirection to itself, the
    leader has completed the self-assessment, the form was valid, and every
    address of the form now has an invitation for the survey: those that had
    none got a new one, unused and with the expiry of the form, at most one
    per address; the other invitations, the surveys and the responses are as
    before.  In the loop, each invitation added is either counted as sent or
    listed as failed. *)
Theorem leader_dashboard_view_invites (env : Env) (post : InvitationPost)
        (t : string) (db : DB) :
  (fst (leader_dashboard_view env (DashPOST post) t db) = Redirect "leader_dashboard" ->
   exists sv emails expires new,
     get_survey t db = Some sv /\ leader_completed_self sv = true /\
     emails_cleaned post = Ok emails /\ post_expires_at post = Some expires /\
     invitations (snd (leader_dashboard_view env (DashPOST post) t db))
     = invitations db ++ new /\
     surveys (snd (leader_dashboard_view env (DashPOST post) t db)) = surveys db /\
     responses (snd (leader_dashboard_view env (DashPOST post) t db)) = responses db /\
     Forall (fun i => inv_survey i = survey_id sv /\ expires_at i = expires /\
                      used i = false /\ used_at i = None /\ In (email i) emails)
            new /\
     (List.length new <= List.length emails)%nat /\
     forall e, In e emails ->
       invitation_exists (survey_id sv) e
         (snd (leader_dashboard_view env (DashPOST post) t db)) = true) /\
  (forall sid expires emails,
     exists new,
       invitations (snd (send_invitations env sid expires emails 0 [] db))
       = invitations db ++ new /\
       (snd (fst (fst (send_invitations env sid expires emails 0 [] db)))
        + List.length (snd (fst (send_invitations env sid expires emails 0 [] db)))
        = List.length new)%nat).
Proof.
  split.
  - unfold leader_dashboard_view.
    destruct (get_survey t db) as [sv|]; [|discriminate].
    destruct (leader_completed_self sv) eqn:Hc; cbn [negb]; [|discriminate].
    destruct (emails_cleaned post) as [emails|e] eqn:Ee.
    + unfold expires_at_cleaned.
      destruct (post_expires_at post) as [expires|] eqn:Ex; [|discriminate].
      destruct (send_invitations_result env (survey_id sv) expires emails 0 [] db)
        as [new [Hi [Hf [Hl [_ Hall]]]]].
      destruct (send_invitations_rows env (survey_id sv) expires emails 0 [] db)
        as [Hs [Hr _]].
      destruct (send_invitations env (survey_id sv) expires emails 0 [] db)
        as [[[[ex|] created] failed] db'] eqn:Es; cbn [fst snd] in *;
        [discriminate|].
      intros _. exists sv, emails, expires, new.
      repeat split; trivial. now apply Hall.
    + destruct e; try discriminate.
  - intros sid expires emails.
    destruct (send_invitations_result env sid expires emails 0 [] db)
      as [new [Hi [_ [_ [Hc _]]]]].
    exists new. split; [exact Hi|]. cbn [List.length] in Hc. lia.
Qed.

Lemma leader_dashboard_view_invites_witness :
  exists new,
    invitations (snd (leader_dashboard_view env_of_ids
                        (DashPOST post_same_address_twice) "lead" db_one_invitation))
    = invitations db_one_invitation ++ new /\
    (List.length new <= 2)%nat.
Proof.
  destruct (leader_dashboard_view_invites env_of_ids post_same_address_twice
              "lead" db_one_invitation) as [H _].
  assert (Hr : fst (leader_dashboard_view env_of_ids
                      (DashPOST post_same_address_twice) "lead" db_one_invitation)
               = Redirect "leader_dashboard") by (vm_compute; reflexivity).
  destruct (H Hr) as [sv [emails [expires [new [_ [_ [He [_ [Hi [_ [_ [_ [Hl _]]]]]]]]]]]]].
  exists new. split; [exact Hi|].
  assert (El : List.length emails = 2%nat).
  { vm_compute in He. inversion He. reflexivity. }
  lia.
Defined.

(** ** The self-assessment of the leader *)

(** The survey found by its token after it has been saved as completed. *)
Lemma get_survey_completed (t : string) (sv : Survey) (db db1 : DB) :
  surveys db1 = surveys db ->
  get_survey t db = Some sv ->
  get_survey t (save_survey (complete_self sv) db1) = Some (complete_self sv).
Proof.
  unfold get_survey, save_survey. cbn [surveys]. intros ->.
  change (survey_id (complete_self sv)) with (survey_id sv).
  induction (surveys db) as [|s l IH]; [discriminate|].
  cbn [find map]. destruct (String.eqb (leader_token s) t) eqn:Et.
  - intros E. injection E as ->. rewrite Nat.eqb_refl.
    change (leader_token (complete_self sv)) with (leader_token sv).
    now rewrite Et.
  - intros Hf. pose proof (find_some _ _ Hf) as [_ Hsv].
    destruct (survey_id s =? survey_id sv)%nat.
    + change (leader_token (complete_self sv)) with (leader_token sv).
      now rewrite Hsv.
    + rewrite Et. now apply IH.
Qed.

(** A leader's self-assessment with a valid form, no choice selected twice
    and, where ranks are posted, integer literals of values the 64 bits of
    the column take, is stored as a
    response of relationship "self", flagged as the self-assessment and bound
    to no invitation, and the survey is saved as completed.  Until then the
    dashboard sends the leader to the self-assessment; from then on the
    dashboard opens, and every further request to the self-assessment, on the
    page or through the API, is turned away and changes nothing. *)
Theorem leader_self_assessment_once (env : Env) (t : string) (db : DB) (sv : Survey)
        (post : PostData) :
  get_survey t db = Some sv ->
  leader_completed_self sv = false ->
  form_is_valid (LeaderSelfAssessmentForm_errors post) = true ->
  NoDup (post_strengths post) -> NoDup (post_opportunities post) ->
  ranks_storable post "strength_rank_" 0 (post_strengths post) = true ->
  ranks_storable post "opportunity_rank_" 0 (post_opportunities post) = true ->
  let r := self_response post sv db in
  let db' := save_survey (complete_self sv)
               (with_responses db (responses db ++ [r])) in
  leader_self_assessment_view (POST post) t db = (Redirect "leader_dashboard", db') /\
  (forall request, leader_dashboard_view env request t db
                   = (Redirect "leader_self_assessment", db)) /\
  leader_dashboard_view env DashGET t db'
  = (Render "survey/leader_dashboard.html" [], db') /\
  (forall request, leader_self_assessment_view request t db'
                   = (Redirect "leader_dashboard", db')) /\
  (forall data now, invitation_token data = None ->
     api_submit_survey (Some data) t now db'
     = (JsonError "Self-assessment already completed" 400, db')).
Proof.
  intros Hget Hc Hform Hns Hno Hps Hpo r db'.
  assert (Hget' : get_survey t db' = Some (complete_self sv)).
  { unfold db'. now apply (get_survey_completed t sv db). }
  split; [|split; [|split; [|split]]].
  - now apply leader_self_assessment_view_stores.
  - intros request. unfold leader_dashboard_view. now rewrite Hget, Hc.
  - unfold leader_dashboard_view. now rewrite Hget'.
  - intros request. unfold leader_self_assessment_view. now rewrite Hget'.
  - intros data now Hnone. unfold api_submit_survey, api_target.
    now rewrite Hnone, Hget'.
Qed.

Lemma leader_self_assessment_once_witness :
  fst (leader_self_assessment_view (POST post_default_ranks) "lead" db_new_survey)
  = Redirect "leader_dashboard".
Proof.
  pose proof (leader_self_assessment_once env_of_ids "lead" db_new_survey
                {| survey_id := 1; leader_token := "lead";
                   leader_completed_self := false |}
                post_default_ranks eq_refl eq_refl) as H.
  assert (Hform : form_is_valid (LeaderSelfAssessmentForm_errors post_default_ranks)
                  = true)
    by (vm_compute; reflexivity).
  assert (Hns : NoDup (post_strengths post_default_ranks))
    by (apply nodupb_NoDup; vm_compute; reflexivity).
  assert (Hno : NoDup (post_opportunities post_default_ranks))
    by (apply nodupb_NoDup; vm_compute; reflexivity).
  destruct (H Hform Hns Hno eq_refl eq_refl) as [E _]. now rewrite E.
Defined.

(** ** Generating and sending the report *)

Lemma get_report_saved (sid : nat) (r r' : SurveyReport) (reports : list SurveyReport) :
  report_id r' = report_id r -> report_survey r' = sid ->
  get_report sid reports = Some r ->
  get_report sid (save_report r' reports) = Some r'.
Proof.
  unfold get_report, save_report. intros Hid Hs. rewrite Hid.
  induction reports as [|x l IH]; [discriminate|].
  cbn [find map]. destruct (report_survey x =? sid)%nat eqn:Ex.
  - intros E. injection E as ->. rewrite Nat.eqb_refl, Hs, Nat.eqb_refl.
    reflexivity.
  - intros Hf. destruct (report_id x =? report_id r)%nat.
    + now rewrite Hs, Nat.eqb_refl.
    + rewrite Ex. now apply IH.
Qed.

Lemma get_report_created (sid : nat) (r : SurveyReport) (reports : list SurveyReport) :
  report_survey r = sid ->
  get_report sid reports = None ->
  get_report sid (reports ++ [r]) = Some r.
Proof.
  unfold get_report. intros Hs.
  induction reports as [|x l IH]; cbn [find app].
  - now rewrite Hs, Nat.eqb_refl.
  - destruct (report_survey x =? sid)%nat; [discriminate|exact IH].
Qed.

Lemma get_report_survey (sid : nat) (r : SurveyReport) (reports : list SurveyReport) :
  get_report sid reports = Some r -> report_survey r = sid.
Proof.
  intros H. apply find_some in H. destruct H as [_ H]. now apply Nat.eqb_eq.
Qed.

Lemma save_report_length (r : SurveyReport) (reports : list SurveyReport) :
  List.length (save_report r reports) = List.length reports.
Proof. apply length_map. Qed.

(** What [generate_report] does to a survey that has a report. *)
Lemma generate_report_again (sid uid : nat) (now : datetime) (token : string)
      (reports : list SurveyReport) (r : SurveyReport) :
  get_report sid reports = Some r ->
  exists r',
    generate_report sid uid now token reports = Ok (r', save_report r' reports) /\
    get_report sid (save_report r' reports) = Some r' /\
    report_id r' = report_id r /\ report_token r' = report_token r /\
    sent_to_leader r' = sent_to_leader r /\ sent_at r' = sent_at r /\
    generated_at r' = now /\ generated_by r' = Some uid.
Proof.
  intros Hg. unfold generate_report, get_or_create. rewrite Hg.
  cbn [Py.bind negb]. eexists. split; [reflexivity|].
  split; [|repeat split].
  apply (get_report_saved sid r); [reflexivity| |exact Hg].
  cbn [report_survey]. now apply (get_report_survey sid r reports).
Qed.

(** A staff user who generates the report of a survey is sent to the page of
    its report, whose row is dated [now] and carries the user; the request
    fails only when the survey has no report yet and the token drawn for it
    is taken.  A report that existed keeps its token, whether and when it was
    sent, and no row is added.  Generating again, by any staff user, at any
    time and through either handler, leads to the same token and adds no
    row.  Requests of other users and for unknown surveys write nothing. *)
Theorem generate_report_keeps_token (uid sid : nat) (now : datetime) (token : string)
        (db : DB) (reports : list SurveyReport) (sv : Survey) :
  get_survey_by_id sid db = Some sv ->
  (get_report sid reports = None ->
   existsb (fun r => String.eqb (report_token r) token) reports = false) ->
  (exists r reports',
     generate_report_view (User uid true) sid now token db reports
     = (RedirectViewReport (report_token r), reports') /\
     api_generate_report (User uid true) true sid now token db reports
     = (JsonReport (report_token r), reports') /\
     get_report sid reports' = Some r /\
     generated_at r = now /\ generated_by r = Some uid /\
     (get_report sid reports = None ->
      report_token r = token /\ sent_to_leader r = false /\
      reports' = reports ++ [r]) /\
     (forall r0, get_report sid reports = Some r0 ->
        report_token r = report_token r0 /\
        sent_to_leader r = sent_to_leader r0 /\ sent_at r = sent_at r0 /\
        List.length reports' = List.length reports) /\
     (forall uid2 now2 token2,
        fst (generate_report_view (User uid2 true) sid now2 token2 db reports')
        = RedirectViewReport (report_token r) /\
        fst (api_generate_report (User uid2 true) true sid now2 token2 db reports')
        = JsonReport (report_token r) /\
        List.length
          (snd (generate_report_view (User uid2 true) sid now2 token2 db reports'))
        = List.length reports')) /\
  (forall u is_post,
     (u = Anonymous \/ (exists id, u = User id false) \/ is_post = false) ->
     snd (api_generate_report u is_post sid now token db reports) = reports) /\
  (forall u,
     (u = Anonymous \/ exists id, u = User id false) ->
     snd (generate_report_view u sid now token db reports) = reports).
Proof.
  intros Hsv Hfresh.
  assert (Hid : survey_id sv = sid).
  { apply find_some in Hsv. destruct Hsv as [_ H]. now apply Nat.eqb_eq. }
  split; [|split].
  - assert (Hagain : forall r reports' uid2 now2 token2,
              get_report sid reports' = Some r ->
              fst (generate_report_view (User uid2 true) sid now2 token2 db reports')
              = RedirectViewReport (report_token r) /\
              fst (api_generate_report (User uid2 true) true sid now2 token2 db
                     reports')
              = JsonReport (report_token r) /\
              List.length
                (snd (generate_report_view (User uid2 true) sid now2 token2 db
                        reports'))
              = List.length reports').
    { intros r reports' uid2 now2 token2 Hg.
      destruct (generate_report_again sid uid2 now2 token2 reports' r Hg)
        as [r' [E [_ [_ [Et _]]]]].
      unfold generate_report_view, api_generate_report.
      rewrite Hsv, Hid, E. cbn [fst snd negb]. rewrite Et.
      split; [reflexivity|]. split; [reflexivity|]. apply save_report_length. }
    destruct (get_report sid reports) as [r0|] eqn:Hg.
    + destruct (generate_report_again sid uid now token reports r0 Hg)
        as [r' [E [Hg' [_ [Et [Hs [Ha [Hn Hu]]]]]]]].
      exists r', (save_report r' reports).
      split; [unfold generate_report_view; now rewrite Hsv, Hid, E|].
      split; [unfold api_generate_report; cbn [negb]; now rewrite Hsv, Hid, E|].
      split; [exact Hg'|].
      split; [exact Hn|]. split; [exact Hu|]. split; [discriminate|].
      split.
      * intros r1 E1. injection E1 as <-.
        split; [exact Et|]. split; [exact Hs|]. split; [exact Ha|].
        apply save_report_length.
      * intros uid2 now2 token2. now apply Hagain.
    + set (r := {| report_id := next_id (map report_id reports);
                   report_survey := sid; report_token := token;
                   generated_at := now; generated_by := Some uid;
                   sent_to_leader := false; sent_at := None |}).
      assert (E : generate_report sid uid now token reports = Ok (r, reports ++ [r])).
      { unfold generate_report, get_or_create. rewrite Hg, (Hfresh eq_refl).
        reflexivity. }
      exists r, (reports ++ [r]).
      split; [unfold generate_report_view; now rewrite Hsv, Hid, E|].
      split; [unfold api_generate_report; cbn [negb]; now rewrite Hsv, Hid, E|].
      split; [now apply get_report_created|].
      split; [reflexivity|]. split; [reflexivity|].
      split; [intros _; repeat split|].
      split; [discriminate|].
      intros uid2 now2 token2. apply Hagain. now apply get_report_created.
  - intros u is_post [->|[[id ->]| ->]]; unfold api_generate_report.
    + reflexivity.
    + now destruct is_post.
    + now destruct u.
  - intros u [->|[id ->]]; reflexivity.
Qed.

Lemma generate_report_keeps_token_witness :
  exists r reports',
    generate_report_view (User 7 true) 1 50%Z "report-token" db_one_invitation []
    = (RedirectViewReport (report_token r), reports') /\
    report_token r = "report-token".
Proof.
  destruct (generate_report_keeps_token 7 1 50%Z "report-token" db_one_invitation []
              {| survey_id := 1; leader_token := "lead";
                 leader_completed_self := true |} eq_refl (fun _ => eq_refl))
    as [[r [reports' [E [_ [_ [_ [_ [Hnew _]]]]]]]] _].
  exists r, reports'. split; [exact E|]. now destruct (Hnew eq_refl).
Defined.

(** Sending the report of a survey writes only when the mail went out: the
    report of the survey is then flagged as sent at the time of the request,
    with its token and its date of generation as before, and no row is added;
    generating the report afterwards leaves the flag and the time of sending
    as they are.  Without a report, or when the mail fails, and for other
    users than staff, the table stays as it is. *)
Theorem send_report_view_marks (uid sid : nat) (mail_sent : bool) (now : datetime)
        (db : DB) (reports : list SurveyReport) (sv : Survey) :
  get_survey_by_id sid db = Some sv ->
  (get_report sid reports = None ->
   send_report_view (User uid true) sid mail_sent now db reports
   = (RedirectSurveyDetail sid NotGenerated, reports)) /\
  (forall r, get_report sid reports = Some r -> mail_sent = false ->
     send_report_view (User uid true) sid mail_sent now db reports
     = (RedirectSurveyDetail sid SendFailed, reports)) /\
  (forall r, get_report sid reports = Some r -> mail_sent = true ->
     exists r',
       fst (send_report_view (User uid true) sid mail_sent now db reports)
       = RedirectSurveyDetail sid ReportSent /\
       get_report sid (snd (send_report_view (User uid true) sid mail_sent now db
                              reports)) = Some r' /\
       List.length (snd (send_report_view (User uid true) sid mail_sent now db
                           reports)) = List.length reports /\
       sent_to_leader r' = true /\ sent_at r' = Some now /\
       report_token r' = report_token r /\ generated_at r' = generated_at r /\
       forall uid2 now2 token2,
       exists r'',
         get_report sid
           (snd (generate_report_view (User uid2 true) sid now2 token2 db
                   (snd (send_report_view (User uid true) sid mail_sent now db
                           reports)))) = Some r'' /\
         sent_to_leader r'' = true /\ sent_at r'' = Some now /\
         report_token r'' = report_token r) /\
  (forall u, (u = Anonymous \/ exists id, u = User id false) ->
     snd (send_report_view u sid mail_sent now db reports) = reports).
Proof.
  intros Hsv.
  assert (Hid : survey_id sv = sid).
  { apply find_some in Hsv. destruct Hsv as [_ H]. now apply Nat.eqb_eq. }
  split; [|split; [|split]].
  - intros Hg. unfold send_report_view. now rewrite Hsv, Hid, Hg.
  - intros r Hg ->. unfold send_report_view. now rewrite Hsv, Hid, Hg.
  - intros r Hg ->. unfold send_report_view.
    rewrite Hsv, Hid, Hg. cbn [send_report_to_leader fst snd].
    unfold mark_as_sent.
    set (r' := {| report_id := report_id r; report_survey := report_survey r;
                  report_token := report_token r;
                  generated_at := generated_at r; generated_by := generated_by r;
                  sent_to_leader := true; sent_at := Some now |}).
    assert (Hg' : get_report sid (save_report r' reports) = Some r').
    { apply (get_report_saved sid r); [reflexivity| |exact Hg].
      now apply (get_report_survey sid r reports). }
    exists r'. split; [reflexivity|]. split; [exact Hg'|].
    split; [apply save_report_length|]. repeat split.
    intros uid2 now2 token2.
    destruct (generate_report_again sid uid2 now2 token2 (save_report r' reports)
                r' Hg') as [r'' [E [Hg'' [_ [Et [Hs [Ha _]]]]]]].
    exists r''. unfold generate_report_view. rewrite Hsv, Hid, E. cbn [snd].
    split; [exact Hg''|]. split; [now rewrite Hs|]. split; [now rewrite Ha|].
    now rewrite Et.
  - intros u [->|[id ->]]; reflexivity.
Qed.

Lemma send_report_view_marks_witness :
  (exists r',
     fst (send_report_view (User 7 true) 1 true 60%Z db_one_invitation
            [report_of_survey_one])
     = RedirectSurveyDetail 1 ReportSent /\
     get_report 1 (snd (send_report_view (User 7 true) 1 true 60%Z
                          db_one_invitation [report_of_survey_one])) = Some r' /\
     sent_to_leader r' = true /\ sent_at r' = Some 60%Z /\
     report_token r' = "report-token") /\
  send_report_view (User 7 true) 1 false 60%Z db_one_invitation
    [report_of_survey_one]
  = (RedirectSurveyDetail 1 SendFailed, [report_of_survey_one]) /\
  send_report_view (User 7 true) 1 true 60%Z db_one_invitation []
  = (RedirectSurveyDetail 1 NotGenerated, []).
Proof.
  pose (sv := {| survey_id := 1; leader_token := "lead";
                 leader_completed_self := true |}).
  split; [|split].
  - destruct (send_report_view_marks 7 1 true 60%Z db_one_invitation
                [report_of_survey_one] sv eq_refl) as [_ [_ [H _]]].
    destruct (H report_of_survey_one eq_refl eq_refl)
      as [r' [E1 [E2 [_ [E3 [E4 [E5 _]]]]]]].
    exists r'. repeat split; trivial.
  - destruct (send_report_view_marks 7 1 false 60%Z db_one_invitation
                [report_of_survey_one] sv eq_refl) as [_ [H _]].
    exact (H report_of_survey_one eq_refl eq_refl).
  - destruct (send_report_view_marks 7 1 true 60%Z db_one_invitation [] sv eq_refl)
      as [H _].
    exact (H eq_refl).
Defined.

(** ** What the counters of a survey count *)

Lemma counts_by_fields (sid : nat) (l : list SurveyResponse) :
  get_total_response_count (filter (fun r => (survey r =? sid)%nat) l)
  = List.length (filter (fun k => (fst k =? sid)%nat) (map counted_fields l)) /\
  get_response_count (filter (fun r => (survey r =? sid)%nat) l)
  = List.length (filter (fun k => (fst k =? sid)%nat && negb (snd k))
                        (map counted_fields l)).
Proof.
  unfold get_total_response_count, get_response_count.
  induction l as [|r l [IH1 IH2]]; [now split|].
  cbn [map filter counted_fields fst snd].
  destruct (survey r =? sid)%nat; cbn [andb filter List.length].
  - destruct (is_leader_self_assessment r); cbn [negb List.length];
      now rewrite IH1, IH2.
  - now split.
Qed.

Lemma counts_after_insert (sid : nat) (db db' : DB) (of_survey : nat) (self : bool) :
  map counted_fields (responses db')
  = map counted_fields (responses db) ++ [(of_survey, self)] ->
  get_total_response_count (responses_of sid db')
  = (get_total_response_count (responses_of sid db)
     + (if (of_survey =? sid)%nat then 1 else 0))%nat /\
  get_response_count (responses_of sid db')
  = (get_response_count (responses_of sid db)
     + (if (of_survey =? sid)%nat && negb self then 1 else 0))%nat.
Proof.
  intros E. unfold responses_of.
  destruct (counts_by_fields sid (responses db')) as [-> ->].
  destruct (counts_by_fields sid (responses db)) as [-> ->].
  rewrite E, !filter_app, !length_app. cbn [filter fst snd].
  destruct (of_survey =? sid)%nat; cbn [andb List.length]; [|lia].
  destruct self; cbn [negb List.length]; lia.
Qed.

Lemma update_response_fields (rid : nat) (f : SurveyResponse -> SurveyResponse)
      (db : DB) :
  (forall r, counted_fields (f r) = counted_fields r) ->
  map counted_fields (responses (update_response rid f db))
  = map counted_fields (responses db).
Proof.
  intros Hf. unfold update_response. cbn [responses]. rewrite map_map.
  apply map_ext. intros r. destruct (resp_id r =? rid)%nat; [apply Hf|reflexivity].
Qed.

Lemma save_strength_rankings_fields (post : PostData) (rid : nat)
      (ids : list string) :
  forall i db,
    map counted_fields (responses (snd (save_strength_rankings post rid i ids db)))
    = map counted_fields (responses db).
Proof.
  induction ids as [|id rest IH]; intros i db; [reflexivity|].
  cbn [save_strength_rankings].
  destruct (n <- int_of_str id ;; _) as [db'|e] eqn:E; [|reflexivity].
  rewrite IH.
  destruct (int_of_str id) as [n|]; cbn [Py.bind] in E; [|discriminate].
  destruct (getitem get_strength_choices n) as [text|]; cbn [Py.bind] in E;
    [|discriminate].
  destruct (posted_rank post _ i) as [rank|]; cbn [Py.bind] in E; [|discriminate].
  unfold create_strength_ranking in E.
  destruct (negb (fits_integer_column rank)); [discriminate|].
  destruct (get_response rid db); [|discriminate].
  destruct (existsb _ _); [discriminate|]. injection E as <-.
  now apply update_response_fields.
Qed.

Lemma save_opportunity_rankings_fields (post : PostData) (rid : nat)
      (ids : list string) :
  forall i db,
    map counted_fields (responses (snd (save_opportunity_rankings post rid i ids db)))
    = map counted_fields (responses db).
Proof.
  induction ids as [|id rest IH]; intros i db; [reflexivity|].
  cbn [save_opportunity_rankings].
  destruct (n <- int_of_str id ;; _) as [db'|e] eqn:E; [|reflexivity].
  rewrite IH.
  destruct (int_of_str id) as [n|]; cbn [Py.bind] in E; [|discriminate].
  destruct (getitem get_opportunity_choices n) as [text|]; cbn [Py.bind] in E;
    [|discriminate].
  destruct (posted_rank post _ i) as [rank|]; cbn [Py.bind] in E; [|discriminate].
  unfold create_opportunity_ranking in E.
  destruct (negb (fits_integer_column rank)); [discriminate|].
  destruct (get_response rid db); [|discriminate].
  destruct (existsb _ _); [discriminate|]. injection E as <-.
  now apply update_response_fields.
Qed.

(** Whatever becomes of the rankings, the response of the form is stored. *)
Lemma rankings_keep_fields (post : PostData) (rid : nat) (db1 : DB)
      (ok : DB -> DB) (answer : HttpResponse) :
  (forall d, responses (ok d) = responses d) ->
  map counted_fields
    (responses
       (snd (match save_strength_rankings post rid 0 (post_strengths post) db1 with
             | (Some e, db2) => (ServerError e, db2)
             | (None, db2) =>
                 match save_opportunity_rankings post rid 0
                         (post_opportunities post) db2 with
                 | (Some e, db3) => (ServerError e, db3)
                 | (None, db3) => (answer, ok db3)
                 end
             end)))
  = map counted_fields (responses db1).
Proof.
  intros Hok.
  pose proof (save_strength_rankings_fields post rid (post_strengths post) 0 db1)
    as H1.
  destruct (save_strength_rankings post rid 0 (post_strengths post) db1)
    as [[e|] db2]; cbn [snd] in *; [exact H1|].
  pose proof (save_opportunity_rankings_fields post rid (post_opportunities post)
                0 db2) as H2.
  destruct (save_opportunity_rankings post rid 0 (post_opportunities post) db2)
    as [[e|] db3]; cbn [snd] in *; [congruence|].
  rewrite Hok. congruence.
Qed.

(** A participant's submission that is stored adds one to both counters of
    the survey of the invitation; the self-assessment of the leader adds one
    to the number of all responses of the survey and leaves the number of
    responses of participants as it is.  The counters of the other surveys
    do not move. *)
Theorem submissions_counted (t : string) (now : datetime) (db : DB) (post : PostData) :
  NoDup (post_strengths post) -> NoDup (post_opportunities post) ->
  ranks_parse post "strength_rank_" 0 (post_strengths post) = true ->
  ranks_parse post "opportunity_rank_" 0 (post_opportunities post) = true ->
  (forall inv,
     get_invitation t db = Some inv -> Models.is_valid now inv = true ->
     form_is_valid (SurveyResponseForm_errors post) = true ->
     forall sid,
       get_response_count
         (responses_of sid (snd (participant_survey_view (POST post) t now db)))
       = (get_response_count (responses_of sid db)
          + (if (inv_survey inv =? sid)%nat then 1 else 0))%nat /\
       get_total_response_count
         (responses_of sid (snd (participant_survey_view (POST post) t now db)))
       = (get_total_response_count (responses_of sid db)
          + (if (inv_survey inv =? sid)%nat then 1 else 0))%nat) /\
  (forall sv,
     get_survey t db = Some sv -> leader_completed_self sv = false ->
     form_is_valid (LeaderSelfAssessmentForm_errors post) = true ->
     forall sid,
       get_response_count
         (responses_of sid (snd (leader_self_assessment_view (POST post) t db)))
       = get_response_count (responses_of sid db) /\
       get_total_response_count
         (responses_of sid (snd (leader_self_assessment_view (POST post) t db)))
       = (get_total_response_count (responses_of sid db)
          + (if (survey_id sv =? sid)%nat then 1 else 0))%nat).
Proof.
  intros _ _ _ _. split.
  - intros inv Hget Hvalid Hform sid.
    assert (E : map counted_fields
                  (responses (snd (participant_survey_view (POST post) t now db)))
                = map counted_fields (responses db) ++ [(inv_survey inv, false)]).
    { unfold participant_survey_view. rewrite Hget.
      unfold Models.is_valid in Hvalid. apply andb_true_iff in Hvalid.
      destruct Hvalid as [Hu He]. apply negb_true_iff in Hu, He.
      rewrite Hu, He, Hform. cbn [orb]. unfold insert_response.
      rewrite (rankings_keep_fields post _ _ (save_invitation (mark_used now inv)))
        by reflexivity.
      cbn [responses]. rewrite map_app. reflexivity. }
    destruct (counts_after_insert sid db _ (inv_survey inv) false E) as [Ht Hc].
    cbn [negb] in Hc. rewrite andb_true_r in Hc. now split.
  - intros sv Hget Hc Hform sid.
    assert (E : map counted_fields
                  (responses (snd (leader_self_assessment_view (POST post) t db)))
                = map counted_fields (responses db) ++ [(survey_id sv, true)]).
    { unfold leader_self_assessment_view. rewrite Hget, Hc, Hform.
      unfold insert_response.
      rewrite (rankings_keep_fields post _ _ (save_survey (complete_self sv)))
        by reflexivity.
      cbn [responses]. rewrite map_app. reflexivity. }
    destruct (counts_after_insert sid db _ (survey_id sv) true E) as [Ht Hcount].
    cbn [negb] in Hcount. rewrite andb_false_r in Hcount. split; [lia|exact Ht].
Qed.

Lemma submissions_counted_witness :
  get_response_count
    (responses_of 1
       (snd (leader_self_assessment_view (POST post_default_ranks) "lead"
               db_new_survey)))
  = get_response_count (responses_of 1 db_new_survey).
Proof.
  assert (Hns : NoDup (post_strengths post_default_ranks))
    by (apply nodupb_NoDup; vm_compute; reflexivity).
  assert (Hno : NoDup (post_opportunities post_default_ranks))
    by (apply nodupb_NoDup; vm_compute; reflexivity).
  destruct (submissions_counted "lead" 5%Z db_new_survey post_default_ranks
              Hns Hno eq_refl eq_refl) as [_ H].
  assert (Hform : form_is_valid (LeaderSelfAssessmentForm_errors post_default_ranks)
                  = true)
    by (vm_compute; reflexivity).
  exact (proj1 (H {| survey_id := 1; leader_token := "lead";
                     leader_completed_self := false |} eq_refl eq_refl Hform 1%nat)).
Defined.
